(** * Monkey core utilities: daemon mode and the PID file

    A shallow embedding of [mk_utils_set_daemon], [mk_utils_register_pid]
    and [mk_utils_remove_pid] from [lib/monkey/mk_core/mk_utils.c].

    The three functions are straight-line sequences of libc calls whose
    control flow branches on the values those calls return.  Each function
    is therefore embedded as a finite tree of calls ([prog]): a node is one
    call with its arguments, the children are indexed by the value the call
    returns.  Two semantics give the trees a meaning:

    - [play] feeds a tree the return values from a list, whatever they are;
      it is used for statements of the form "whatever this call returns,
      the function then does ...";
    - [run] executes a tree against a model of the POSIX objects the calls
      act on (names, inodes, descriptors, record locks, processes).

    [mk_print], [mk_utils_trace] and [mk_utils_worker_spawn] are embedded
    as functions of what they read: the first two give the line they put
    on the standard output, the third the threads it leaves. *)

From stdpp Require Import gmap strings list fin_maps.
From Stdlib Require Import Ascii ZArith Lia.

Local Open Scope Z_scope.

(** ** Constants of the C environment *)

(** [stdlib.h] *)
Definition EXIT_SUCCESS : Z := 0.
Definition EXIT_FAILURE : Z := 1.

(** [fcntl.h] (Linux values) and [unistd.h] *)
Definition O_WRONLY  : Z := 1.
Definition O_CREAT   : Z := 64.       (* 0100 *)
Definition O_CLOEXEC : Z := 524288.   (* 02000000 *)
Definition O_ACCMODE : Z := 3.
Definition SEEK_SET  : Z := 0.

(** The octal literal [0444]: read permission for owner, group, others. *)
Definition MODE_0444 : Z := 292.

Definition STDOUT_FILENO : Z := 1.
Definition STDERR_FILENO : Z := 2.

(** Bounds of [int], the type behind glibc's [pid_t]. *)
Definition INT_MIN : Z := - 2147483648.
Definition INT_MAX : Z := 2147483647.

(** [mk_utils.c], line 38: the size of the [pidstr] array. *)
Definition MK_MAX_PID_LEN : nat := 10.

(** The message classes [mk_print] switches on. *)
Inductive msg_type := MK_INFO | MK_ERR | MK_WARN | MK_BUG.

(** The two streams [mk_utils_set_daemon] closes. *)
Inductive stream := stdout | stderr.

Definition fileno (s : stream) : Z :=
  match s with stdout => STDOUT_FILENO | stderr => STDERR_FILENO end.

(** [struct flock] and the [fcntl] commands that set a record lock. *)
Inductive lock_type := F_WRLCK | F_UNLCK.
Inductive fcntl_cmd := F_SETLK | F_SETLKW.

Record flock := {
  l_type   : lock_type;
  l_whence : Z;
  l_start  : Z;
  l_len    : Z
}.

(** ** Formatting an [int] with ["%i"] *)

Definition NUL : ascii := ascii_of_nat 0.

(** The C escape [\n] inside a message. *)
Definition newline : string := String (ascii_of_nat 10) EmptyString.

Definition digit_char (d : Z) : ascii := ascii_of_nat (48 + Z.to_nat d).

(** Least significant digit first, accumulated to the front. *)
Fixpoint fmt_digits (fuel : nat) (n : Z) (acc : list ascii) : list ascii :=
  match fuel with
  | O => acc
  | S fuel' =>
      let acc' := digit_char (n mod 10) :: acc in
      if n / 10 =? 0 then acc' else fmt_digits fuel' (n / 10) acc'
  end.

(** A number has no more decimal digits than binary ones. *)
Definition fmt_unsigned (n : Z) : list ascii :=
  fmt_digits (S (Z.to_nat (Z.log2 n))) n [].

Definition fmt_int (n : Z) : list ascii :=
  if n <? 0 then "-"%char :: fmt_unsigned (- n) else fmt_unsigned n.

(** Reading a decimal numeral back, to state what [fmt_int] means. *)
Definition is_digit (c : ascii) : bool :=
  let n := nat_of_ascii c in ((48 <=? n) && (n <=? 57))%nat.

Definition digit_val (c : ascii) : Z := Z.of_nat (nat_of_ascii c) - 48.

Definition parse_unsigned (s : list ascii) : Z :=
  fold_left (fun v c => 10 * v + digit_val c) s 0.

Definition parse_int (s : list ascii) : Z :=
  match s with
  | "-"%char :: s' => - parse_unsigned s'
  | _ => parse_unsigned s
  end.

(** ** A [char] array on the stack

    A cell is [None] until it is written: the array [pidstr] is declared
    without an initialiser.  Writing past the end of the array and reading
    a cell that was never written have no defined result ([None]). *)

Definition cbuf := list (option ascii).

Definition cbuf_uninit (size : nat) : cbuf := replicate size None.

(** [sprintf(buf, "%i", v)]: the digits and a terminating NUL. *)
Definition sprintf_i_bytes (v : Z) : list ascii := fmt_int v ++ [NUL].

Definition sprintf_i (buf : cbuf) (v : Z) : option cbuf :=
  let out := sprintf_i_bytes v in
  if (length out <=? length buf)%nat
  then Some ((Some <$> out) ++ drop (length out) buf)
  else None.

(** [strlen(buf)]: the number of cells before the first NUL. *)
Fixpoint strlen (buf : cbuf) : option nat :=
  match buf with
  | [] => None
  | None :: _ => None
  | Some c :: rest =>
      if decide (c = NUL) then Some O else S <$> strlen rest
  end.

(** The [count] bytes at the start of the array, as [write] reads them. *)
Fixpoint cbuf_read (buf : cbuf) (count : nat) {struct count}
    : option (list ascii) :=
  match count with
  | O => Some []
  | S count' =>
      match buf with
      | Some c :: rest => cons c <$> cbuf_read rest count'
      | _ => None
      end
  end.

(** ** Programs: trees of libc calls *)

Inductive call :=
| c_fork
| c_umask (mask : Z)
| c_setsid
| c_chdir (path : string)
| c_fclose (s : stream)
| c_stat (path : string)
| c_unlink (path : string)
| c_open (path : string) (flags mode : Z)
| c_fcntl (fd : Z) (cmd : fcntl_cmd) (lock : flock)
| c_getpid
| c_write (fd : Z) (buf : list ascii)
| c_close (fd : Z)
| c_mk_print (type : msg_type) (msg : string).

(** [Exit] is [exit(status)]: nothing of the function runs after it.
    [Undef] marks a point where C gives the execution no meaning. *)
Inductive prog (A : Type) : Type :=
| Ret (a : A)
| Exit (status : Z)
| Undef
| Sys (c : call) (k : Z → prog A).

Arguments Ret {A} a.
Arguments Exit {A} status.
Arguments Undef {A}.
Arguments Sys {A} c k.

Fixpoint prog_bind {A B} (f : A → prog B) (p : prog A) : prog B :=
  match p with
  | Ret a => f a
  | Exit status => Exit status
  | Undef => Undef
  | Sys c k => Sys c (fun r => prog_bind f (k r))
  end.

#[global] Instance prog_ret : MRet prog := @Ret.
#[global] Instance prog_mbind : MBind prog := @prog_bind.

Definition perform (c : call) : prog Z := Sys c Ret.

Definition exit {A} (status : Z) : prog A := Exit status.

(** A C value that must be defined for the execution to go on. *)
Definition defined {A} (o : option A) : prog A :=
  match o with Some a => Ret a | None => Undef end.

Definition fork : prog Z := perform c_fork.
Definition umask (mask : Z) : prog Z := perform (c_umask mask).
Definition setsid : prog Z := perform c_setsid.
Definition chdir (path : string) : prog Z := perform (c_chdir path).
Definition fclose (s : stream) : prog Z := perform (c_fclose s).
Definition stat (path : string) : prog Z := perform (c_stat path).
Definition unlink (path : string) : prog Z := perform (c_unlink path).
Definition open (path : string) (flags mode : Z) : prog Z :=
  perform (c_open path flags mode).
Definition fcntl (fd : Z) (cmd : fcntl_cmd) (lock : flock) : prog Z :=
  perform (c_fcntl fd cmd lock).
Definition getpid : prog Z := perform c_getpid.
Definition write (fd : Z) (buf : list ascii) : prog Z :=
  perform (c_write fd buf).
Definition close (fd : Z) : prog Z := perform (c_close fd).

(** [mk_print] (line 179) writes a time stamp, a header chosen by [type]
    and the message to the standard output.  Only the class and the text
    of the message are kept. *)
Definition mk_print (type : msg_type) (msg : string) : prog Z :=
  perform (c_mk_print type msg).

(** Modelled from the spec: the macros [mk_info], [mk_err] and [mk_warn]
    of [include/mk_macros.h], which is not part of the sources at hand.
    They are the Logger collaborator's [info], [error] and [warn], and
    each hands its message to [mk_print] with the matching class. *)
Definition mk_info (msg : string) : prog Z := mk_print MK_INFO msg.
Definition mk_err (msg : string) : prog Z := mk_print MK_ERR msg.
Definition mk_warn (msg : string) : prog Z := mk_print MK_WARN msg.

(** ** The functions of [mk_utils.c] *)

(** Lines 273-303. *)
Definition mk_utils_set_daemon : prog Z :=
  pid ← fork;
  (if pid <? 0 then
     mk_err "Error: Failed creating to switch to daemon mode(fork failed)";;
     exit EXIT_FAILURE
   else mret 0);;
  (if pid >? 0 then exit EXIT_SUCCESS else mret 0);;
  umask 0;;
  setsid;;
  r ← chdir "/";
  (if r <? 0 then
     mk_err "Error: Unable to unmount the inherited filesystem in the daemon process";;
     exit EXIT_FAILURE
   else mret 0);;
  mk_info "Background mode ON";;
  fclose stderr;;
  fclose stdout;;
  mret 0.

(** Lines 306-352. *)
Definition mk_utils_register_pid (path : string) : prog Z :=
  let pidstr := cbuf_uninit MK_MAX_PID_LEN in
  r ← stat path;
  (if r =? 0 then
     ret ← unlink path;
     if ret =? -1 then
       mk_err "Could not remove old PID-file path";;
       exit EXIT_FAILURE
     else mret 0
   else mret 0);;
  fd ← open path (Z.lor (Z.lor O_WRONLY O_CREAT) O_CLOEXEC) MODE_0444;
  (if fd <? 0 then
     mk_err "Error: I can't log pid of monkey";;
     exit EXIT_FAILURE
   else mret 0);;
  let lock := {| l_type := F_WRLCK; l_start := 0;
                 l_whence := SEEK_SET; l_len := 0 |} in
  r ← fcntl fd F_SETLK lock;
  (if r <? 0 then
     close fd;;
     mk_err "Error: I cannot set the lock for the pid of monkey";;
     exit EXIT_FAILURE
   else mret 0);;
  pid ← getpid;
  pidstr ← defined (sprintf_i pidstr pid);
  write_len ← defined (strlen pidstr);
  data ← defined (cbuf_read pidstr write_len);
  n ← write fd data;
  (if negb (n =? Z.of_nat write_len) then
     close fd;;
     mk_err "Error: I cannot write the lock for the pid of monkey";;
     exit EXIT_FAILURE
   else mret 0);;
  close fd;;
  mret 0.

(** Lines 355-361. *)
Definition mk_utils_remove_pid (path : string) : prog Z :=
  r ← unlink path;
  (if negb (r =? 0) then mk_warn ("cannot delete pidfile" +:+ newline) else mret 0);;
  mret 0.

(** ** Playing a program against given return values *)

Inductive outcome (A : Type) : Type :=
| Returned (a : A)      (* the function returned [a] to its caller *)
| Exited (status : Z)   (* the process ended in [exit(status)] *)
| Undefined             (* the execution reached [Undef] *)
| Stuck.                (* a call did not return *)

Arguments Returned {A} a.
Arguments Exited {A} status.
Arguments Undefined {A}.
Arguments Stuck {A}.

(** A call together with the value it returned. *)
Definition event : Type := call * Z.

(** The event [e], then the events and the outcome [x]. *)
Definition record {A} (e : event) (x : list event * outcome A)
    : list event * outcome A :=
  (e :: x.1, x.2).

Fixpoint play {A} (p : prog A) (answers : list Z) : list event * outcome A :=
  match p with
  | Ret a => ([], Returned a)
  | Exit status => ([], Exited status)
  | Undef => ([], Undefined)
  | Sys c k =>
      match answers with
      | [] => ([], Stuck)
      | r :: answers' => record (c, r) (play (k r) answers')
      end
  end.

(** ** The POSIX objects the calls act on

    One directory name space, inodes that outlive their names while they
    are open, a descriptor table per process, and one table of exclusive
    whole-file record locks.  Processes are identified by positive
    numbers.  What can make a call fail is part of the state: names that
    cannot be created or removed, directories that cannot be entered,
    the room left on the file system, the size of the process table. *)

Record inode := {
  i_mode : Z;             (* permission bits *)
  i_data : list ascii
}.

(** An open file: the inode, the flags of the [open], the file offset. *)
Record ofile := {
  o_ino   : nat;
  o_flags : Z;
  o_pos   : nat
}.

Record proc := {
  p_pgid  : positive;               (* process group *)
  p_sid   : positive;               (* session *)
  p_cwd   : string;
  p_umask : Z;
  p_root  : bool;                   (* passes every permission check *)
  p_fds   : list (option ofile)     (* slot [n] is descriptor [n] *)
}.

Record kernel := {
  k_names   : gmap string nat;      (* directory entries: path to inode *)
  k_inodes  : gmap nat inode;
  k_locks   : gmap nat positive;    (* inode to the holder of its lock *)
  k_procs   : gmap positive proc;   (* live processes *)
  k_status  : gmap positive Z;      (* exit status of ended processes *)
  k_frozen  : gset string;          (* entries that cannot be changed *)
  k_dirs    : gset string;          (* directories that can be entered *)
  k_free    : nat;                  (* bytes left on the file system *)
  k_maxproc : nat;                  (* size of the process table *)
  k_console : list (positive * msg_type * string)
}.

Definition set_names (v : gmap string nat) (k : kernel) : kernel :=
  {| k_names := v; k_inodes := k_inodes k; k_locks := k_locks k;
     k_procs := k_procs k; k_status := k_status k; k_frozen := k_frozen k;
     k_dirs := k_dirs k; k_free := k_free k; k_maxproc := k_maxproc k;
     k_console := k_console k |}.

Definition set_inodes (v : gmap nat inode) (k : kernel) : kernel :=
  {| k_names := k_names k; k_inodes := v; k_locks := k_locks k;
     k_procs := k_procs k; k_status := k_status k; k_frozen := k_frozen k;
     k_dirs := k_dirs k; k_free := k_free k; k_maxproc := k_maxproc k;
     k_console := k_console k |}.

Definition set_locks (v : gmap nat positive) (k : kernel) : kernel :=
  {| k_names := k_names k; k_inodes := k_inodes k; k_locks := v;
     k_procs := k_procs k; k_status := k_status k; k_frozen := k_frozen k;
     k_dirs := k_dirs k; k_free := k_free k; k_maxproc := k_maxproc k;
     k_console := k_console k |}.

Definition set_procs (v : gmap positive proc) (k : kernel) : kernel :=
  {| k_names := k_names k; k_inodes := k_inodes k; k_locks := k_locks k;
     k_procs := v; k_status := k_status k; k_frozen := k_frozen k;
     k_dirs := k_dirs k; k_free := k_free k; k_maxproc := k_maxproc k;
     k_console := k_console k |}.

Definition set_status (v : gmap positive Z) (k : kernel) : kernel :=
  {| k_names := k_names k; k_inodes := k_inodes k; k_locks := k_locks k;
     k_procs := k_procs k; k_status := v; k_frozen := k_frozen k;
     k_dirs := k_dirs k; k_free := k_free k; k_maxproc := k_maxproc k;
     k_console := k_console k |}.

Definition set_free (v : nat) (k : kernel) : kernel :=
  {| k_names := k_names k; k_inodes := k_inodes k; k_locks := k_locks k;
     k_procs := k_procs k; k_status := k_status k; k_frozen := k_frozen k;
     k_dirs := k_dirs k; k_free := v; k_maxproc := k_maxproc k;
     k_console := k_console k |}.

Definition set_console (v : list (positive * msg_type * string))
    (k : kernel) : kernel :=
  {| k_names := k_names k; k_inodes := k_inodes k; k_locks := k_locks k;
     k_procs := k_procs k; k_status := k_status k; k_frozen := k_frozen k;
     k_dirs := k_dirs k; k_free := k_free k; k_maxproc := k_maxproc k;
     k_console := v |}.

Definition set_proc (pid : positive) (p : proc) (k : kernel) : kernel :=
  set_procs (<[pid := p]> (k_procs k)) k.

Definition with_fds (fds : list (option ofile)) (p : proc) : proc :=
  {| p_pgid := p_pgid p; p_sid := p_sid p; p_cwd := p_cwd p;
     p_umask := p_umask p; p_root := p_root p; p_fds := fds |}.

Definition with_umask (m : Z) (p : proc) : proc :=
  {| p_pgid := p_pgid p; p_sid := p_sid p; p_cwd := p_cwd p;
     p_umask := m; p_root := p_root p; p_fds := p_fds p |}.

Definition with_cwd (d : string) (p : proc) : proc :=
  {| p_pgid := p_pgid p; p_sid := p_sid p; p_cwd := d;
     p_umask := p_umask p; p_root := p_root p; p_fds := p_fds p |}.

Definition with_session (s : positive) (p : proc) : proc :=
  {| p_pgid := s; p_sid := s; p_cwd := p_cwd p;
     p_umask := p_umask p; p_root := p_root p; p_fds := p_fds p |}.

(** *** Descriptors *)

Definition fd_lookup (p : proc) (fd : Z) : option ofile :=
  if fd <? 0 then None else mjoin (p_fds p !! Z.to_nat fd).

(** A new descriptor is the lowest one not in use. *)
Fixpoint fd_alloc (fds : list (option ofile)) (f : ofile)
    : nat * list (option ofile) :=
  match fds with
  | [] => (O, [Some f])
  | None :: rest => (O, Some f :: rest)
  | Some g :: rest =>
      let '(n, rest') := fd_alloc rest f in (S n, Some g :: rest')
  end.

Definition fd_clear (fds : list (option ofile)) (fd : Z)
    : list (option ofile) :=
  <[Z.to_nat fd := None]> fds.

(** *** Permissions and flags *)

Definition S_IRUSR_bit : Z := 8.   (* 0400 *)
Definition S_IWUSR_bit : Z := 7.   (* 0200 *)
Definition O_CREAT_bit : Z := 6.   (* 0100 *)

Definition wants_read (flags : Z) : bool :=
  let a := Z.land flags O_ACCMODE in (a =? 0) || (a =? 2).

Definition wants_write (flags : Z) : bool :=
  let a := Z.land flags O_ACCMODE in (a =? 1) || (a =? 2).

(** The caller is taken to own the file, so the owner bits decide. *)
Definition may_open (p : proc) (i : inode) (flags : Z) : bool :=
  p_root p ||
  (implb (wants_read flags) (Z.testbit (i_mode i) S_IRUSR_bit) &&
   implb (wants_write flags) (Z.testbit (i_mode i) S_IWUSR_bit)).

(** The mode of a created file: the requested bits the mask lets through. *)
Definition create_mode (mode mask : Z) : Z :=
  Z.land (Z.land mode 4095) (Z.lnot mask).

(** *** Record locks *)

(** The request covers the whole file, whatever its size becomes. *)
Definition whole_file (l : flock) : bool :=
  (l_whence l =? SEEK_SET) && (l_start l =? 0) && (l_len l =? 0).

(** Drop the lock [pid] holds on [ino], if it holds one. *)
Definition lock_release (ino : nat) (pid : positive)
    (locks : gmap nat positive) : gmap nat positive :=
  match locks !! ino with
  | Some owner => if decide (owner = pid) then delete ino locks else locks
  | None => locks
  end.

(** *** File contents *)

(** [new] written at offset [pos] of [old]; a gap is filled with NULs. *)
Definition splice (pos : nat) (new old : list ascii) : list ascii :=
  take pos (old ++ replicate (pos - length old) NUL)
  ++ new ++ drop (pos + length new) old.

(** *** The calls *)

Definition sys_stat (k : kernel) (path : string) : kernel * Z :=
  match k_names k !! path with
  | Some _ => (k, 0)
  | None => (k, -1)
  end.

Definition sys_unlink (k : kernel) (path : string) : kernel * Z :=
  match k_names k !! path with
  | Some _ =>
      if decide (path ∈ k_frozen k) then (k, -1)
      else (set_names (delete path (k_names k)) k, 0)
  | None => (k, -1)
  end.

(** Enter the open file in the caller's table; the call returns its slot. *)
Definition install (k : kernel) (pid : positive) (p : proc)
    (ino : nat) (flags : Z) : kernel * Z :=
  let '(fd, fds) := fd_alloc (p_fds p)
                      {| o_ino := ino; o_flags := flags; o_pos := O |} in
  (set_proc pid (with_fds fds p) k, Z.of_nat fd).

(** An inode number that is neither in use nor locked. *)
Definition fresh_ino (k : kernel) : nat :=
  fresh (dom (k_inodes k) ∪ dom (k_locks k)).

(** [open] looks at the access mode and at [O_CREAT]; [O_CLOEXEC] is kept
    with the open file and matters at an [exec] only.  A file that exists
    is opened as it is, a file that does not is created empty. *)
Definition sys_open (k : kernel) (pid : positive) (p : proc)
    (path : string) (flags mode : Z) : kernel * Z :=
  match k_names k !! path with
  | Some ino =>
      match k_inodes k !! ino with
      | Some i =>
          if may_open p i flags then install k pid p ino flags else (k, -1)
      | None => (k, -1)
      end
  | None =>
      if Z.testbit flags O_CREAT_bit then
        if decide (path ∈ k_frozen k) then (k, -1)
        else
          let ino := fresh_ino k in
          let i := {| i_mode := create_mode mode (p_umask p);
                      i_data := [] |} in
          install (set_inodes (<[ino := i]> (k_inodes k))
                     (set_names (<[path := ino]> (k_names k)) k))
                  pid p ino flags
      else (k, -1)
  end.

(** [fcntl] with a command that sets a lock.  The table holds exclusive
    locks on whole files, the kind the source asks for; a request for a
    part of a file is refused.  [None]: the caller sleeps until the holder
    lets go of the lock. *)
Definition sys_fcntl (k : kernel) (pid : positive) (p : proc)
    (fd : Z) (cmd : fcntl_cmd) (l : flock) : option (kernel * Z) :=
  match fd_lookup p fd with
  | None => Some (k, -1)
  | Some f =>
      if negb (whole_file l) then Some (k, -1)
      else
        match l_type l with
        | F_UNLCK =>
            Some (set_locks (lock_release (o_ino f) pid (k_locks k)) k, 0)
        | F_WRLCK =>
            if negb (wants_write (o_flags f)) then Some (k, -1)
            else
              match k_locks k !! o_ino f with
              | None =>
                  Some (set_locks (<[o_ino f := pid]> (k_locks k)) k, 0)
              | Some owner =>
                  if decide (owner = pid) then Some (k, 0)
                  else
                    match cmd with
                    | F_SETLK => Some (k, -1)
                    | F_SETLKW => None
                    end
              end
        end
  end.

Definition with_data (d : list ascii) (i : inode) : inode :=
  {| i_mode := i_mode i; i_data := d |}.

Definition with_pos (n : nat) (f : ofile) : ofile :=
  {| o_ino := o_ino f; o_flags := o_flags f; o_pos := n |}.

(** As many bytes are transferred as there is room for. *)
Definition sys_write (k : kernel) (pid : positive) (p : proc)
    (fd : Z) (buf : list ascii) : kernel * Z :=
  match fd_lookup p fd with
  | None => (k, -1)
  | Some f =>
      if negb (wants_write (o_flags f)) then (k, -1)
      else
        match k_inodes k !! o_ino f with
        | None => (k, -1)
        | Some i =>
            let n := (length buf `min` k_free k)%nat in
            if ((n =? 0) && (0 <? length buf))%nat then (k, -1)
            else
              let i' := with_data (splice (o_pos f) (take n buf) (i_data i)) i in
              let f' := with_pos (o_pos f + n) f in
              let p' := with_fds (<[Z.to_nat fd := Some f']> (p_fds p)) p in
              (set_proc pid p'
                 (set_free (k_free k - n)
                    (set_inodes (<[o_ino f := i']> (k_inodes k)) k)),
               Z.of_nat n)
        end
  end.

(** Closing any descriptor of a file drops the caller's lock on it. *)
Definition sys_close (k : kernel) (pid : positive) (p : proc) (fd : Z)
    : kernel * Z :=
  match fd_lookup p fd with
  | None => (k, -1)
  | Some f =>
      (set_proc pid (with_fds (fd_clear (p_fds p) fd) p)
         (set_locks (lock_release (o_ino f) pid (k_locks k)) k),
       0)
  end.

Definition sys_umask (k : kernel) (pid : positive) (p : proc) (mask : Z)
    : kernel * Z :=
  (set_proc pid (with_umask (Z.land mask 511) p) k, p_umask p).

(** A process that leads its group cannot start a session. *)
Definition sys_setsid (k : kernel) (pid : positive) (p : proc)
    : kernel * Z :=
  if decide (p_pgid p = pid) then (k, -1)
  else (set_proc pid (with_session pid p) k, Z.pos pid).

Definition sys_chdir (k : kernel) (pid : positive) (p : proc)
    (path : string) : kernel * Z :=
  if decide (path ∈ k_dirs k) then (set_proc pid (with_cwd path p) k, 0)
  else (k, -1).

(** The message reaches the console while the standard output is open. *)
Definition sys_mk_print (k : kernel) (pid : positive) (p : proc)
    (type : msg_type) (msg : string) : kernel * Z :=
  match fd_lookup p STDOUT_FILENO with
  | Some _ => (set_console (k_console k ++ [(pid, type, msg)]) k, 0)
  | None => (k, 0)
  end.

(** What a call does to the caller. *)
Inductive sysret :=
| Returns (k : kernel) (r : Z)
| Forks (k : kernel) (child : positive)
| Sleeps.

Definition returns (x : kernel * Z) : sysret := Returns x.1 x.2.

(** The identifiers in use: of processes, live or ended, of process
    groups and of sessions. *)
Definition used_ids (k : kernel) : gset positive :=
  dom (k_procs k) ∪ dom (k_status k)
  ∪ list_to_set (p_pgid <$> (map_to_list (k_procs k)).*2)
  ∪ list_to_set (p_sid <$> (map_to_list (k_procs k)).*2).

Definition fresh_pid (k : kernel) : positive := fresh (used_ids k).

(** The child is a copy of the parent under an unused identifier. *)
Definition sys_fork (k : kernel) (p : proc) : sysret :=
  if (size (k_procs k) <? k_maxproc k)%nat then
    Forks (set_proc (fresh_pid k) p k) (fresh_pid k)
  else Returns k (-1).

(** The call [c] made by the live process [pid], whose entry is [p]. *)
Definition dispatch (k : kernel) (pid : positive) (p : proc) (c : call)
    : sysret :=
  match c with
  | c_fork => sys_fork k p
  | c_umask mask => returns (sys_umask k pid p mask)
  | c_setsid => returns (sys_setsid k pid p)
  | c_chdir path => returns (sys_chdir k pid p path)
  | c_fclose s => returns (sys_close k pid p (fileno s))
  | c_stat path => returns (sys_stat k path)
  | c_unlink path => returns (sys_unlink k path)
  | c_open path flags mode => returns (sys_open k pid p path flags mode)
  | c_fcntl fd cmd l =>
      match sys_fcntl k pid p fd cmd l with
      | Some x => returns x
      | None => Sleeps
      end
  | c_getpid => Returns k (Z.pos pid)
  | c_write fd buf => returns (sys_write k pid p fd buf)
  | c_close fd => returns (sys_close k pid p fd)
  | c_mk_print type msg => returns (sys_mk_print k pid p type msg)
  end.

(** Only a live process makes calls. *)
Definition syscall (k : kernel) (pid : positive) (c : call) : sysret :=
  match k_procs k !! pid with
  | Some p => dispatch k pid p c
  | None => Sleeps
  end.

(** The end of a process: its descriptors and its locks go with it. *)
Definition sys_exit (k : kernel) (pid : positive) (status : Z) : kernel :=
  set_status (<[pid := status]> (k_status k))
    (set_procs (delete pid (k_procs k))
       (set_locks (filter (λ kv, kv.2 ≠ pid) (k_locks k)) k)).

(** ** Running a program as a process *)

Record result (A : Type) := {
  r_kernel : kernel;
  r_trace  : list (positive * event);
  r_outs   : list (positive * outcome A)
}.

Arguments r_kernel {A} _.
Arguments r_trace {A} _.
Arguments r_outs {A} _.

Definition finish {A} (k : kernel) (pid : positive) (o : outcome A)
    : result A :=
  {| r_kernel := k; r_trace := []; r_outs := [(pid, o)] |}.

Definition after {A} (e : positive * event) (r : result A) : result A :=
  {| r_kernel := r_kernel r; r_trace := e :: r_trace r;
     r_outs := r_outs r |}.

Definition followed_by {A} (r1 r2 : result A) : result A :=
  {| r_kernel := r_kernel r2; r_trace := r_trace r1 ++ r_trace r2;
     r_outs := r_outs r1 ++ r_outs r2 |}.

(** After a [fork] the parent runs to its end first, then the child. *)
Fixpoint run {A} (k : kernel) (pid : positive) (p : prog A) : result A :=
  match p with
  | Ret a => finish k pid (Returned a)
  | Exit status => finish (sys_exit k pid status) pid (Exited status)
  | Undef => finish k pid Undefined
  | Sys c cont =>
      match syscall k pid c with
      | Returns k' r => after (pid, (c, r)) (run k' pid (cont r))
      | Forks k' child =>
          let parent := run k' pid (cont (Z.pos child)) in
          after (pid, (c, Z.pos child))
            (followed_by parent (run (r_kernel parent) child (cont 0)))
      | Sleeps => finish k pid Stuck
      end
  end.

(** The process holding the lock on the file [path] names, if any. *)
Definition lock_holder (k : kernel) (path : string) : option positive :=
  ino ← k_names k !! path; k_locks k !! ino.

(** The contents and the mode of the file [path] names. *)
Definition file_at (k : kernel) (path : string) : option inode :=
  ino ← k_names k !! path; k_inodes k !! ino.

(** ** Vocabulary of the statements *)

(** The arguments [mk_utils_register_pid] passes to [open] and [fcntl]. *)
Definition register_flags : Z := Z.lor (Z.lor O_WRONLY O_CREAT) O_CLOEXEC.

Definition register_lock : flock :=
  {| l_type := F_WRLCK; l_whence := SEEK_SET; l_start := 0; l_len := 0 |}.

(** The two ways past the removal of a stale file: [stat] found nothing,
    or [unlink] did not return [-1]. *)
Inductive stale_step (path : string) : list event → Prop :=
| stale_absent (r : Z) :
    r ≠ 0 → stale_step path [(c_stat path, r)]
| stale_removed (u : Z) :
    u ≠ -1 → stale_step path [(c_stat path, 0); (c_unlink path, u)].

(** Calls that can put the caller to sleep, or that return twice. *)
Definition may_wait (c : call) : bool :=
  match c with
  | c_fork => true
  | c_fcntl _ F_SETLKW _ => true
  | _ => false
  end.

(** Programs none of whose calls is one of those. *)
Inductive never_waits {A : Type} : prog A → Prop :=
| nw_ret (a : A) : never_waits (Ret a)
| nw_exit (status : Z) : never_waits (Exit status)
| nw_undef : never_waits Undef
| nw_sys (c : call) (cont : Z → prog A) :
    may_wait c = false → (∀ r, never_waits (cont r)) →
    never_waits (Sys c cont).

(** Two inode tables that differ at most in what the files contain. *)
Definition same_meta (m1 m2 : gmap nat inode) : Prop :=
  ∀ ino, option_Forall2 (λ i1 i2, i_mode i1 = i_mode i2)
                        (m1 !! ino) (m2 !! ino).

(** Two states that differ at most in what the files contain. *)
Definition same_but_data (k1 k2 : kernel) : Prop :=
  k2 = set_inodes (k_inodes k2) k1 ∧ same_meta (k_inodes k1) (k_inodes k2).

(** Two results of a call that differ at most in what the files contain. *)
Definition sysret_rel (x y : sysret) : Prop :=
  match x, y with
  | Returns k1 r1, Returns k2 r2 => r1 = r2 ∧ same_but_data k1 k2
  | Forks k1 c1, Forks k2 c2 => c1 = c2 ∧ same_but_data k1 k2
  | Sleeps, Sleeps => True
  | _, _ => False
  end.

(** ** States to run the functions in *)

Definition tty : ofile := {| o_ino := 0; o_flags := 2; o_pos := 0 |}.

(** A server started from a shell: terminal on descriptors 0 to 2. *)
Definition server : proc :=
  {| p_pgid := 100; p_sid := 7; p_cwd := "/home/monkey"; p_umask := 18;
     p_root := false; p_fds := [Some tty; Some tty; Some tty] |}.

(** Two server processes, 100 and 200, and no PID file yet. *)
Definition boot : kernel :=
  {| k_names := {[ "/dev/tty" := 0%nat ]};
     k_inodes := {[ 0%nat := {| i_mode := 438; i_data := [] |} ]};
     k_locks := ∅;
     k_procs := {[ 100%positive := server; 200%positive := server ]};
     k_status := ∅; k_frozen := ∅; k_dirs := {[ "/" ]};
     k_free := 4096; k_maxproc := 8; k_console := [] |}.

Definition pid_path : string := "/tmp/test.pid".

(** [boot] with a PID file left behind by a process that was killed. *)
Definition stale_boot : kernel :=
  set_inodes (<[1%nat := {| i_mode := MODE_0444;
                            i_data := fmt_int 4821 |}]> (k_inodes boot))
    (set_names (<[pid_path := 1%nat]> (k_names boot)) boot).

(** [stale_boot] with the directory of the PID file read-only. *)
Definition frozen_boot : kernel :=
  {| k_names := k_names stale_boot; k_inodes := k_inodes stale_boot;
     k_locks := k_locks stale_boot; k_procs := k_procs stale_boot;
     k_status := k_status stale_boot; k_frozen := {[ pid_path ]};
     k_dirs := k_dirs stale_boot; k_free := k_free stale_boot;
     k_maxproc := k_maxproc stale_boot; k_console := k_console stale_boot |}.

(** Process 100 has the PID file open on descriptor 3 and holds its lock:
    the state the lock is meant to keep for the life of the process. *)
Definition held_boot : kernel :=
  set_locks {[ 1%nat := 100%positive ]}
    (set_proc 100
       (with_fds [Some tty; Some tty; Some tty;
                  Some {| o_ino := 1; o_flags := register_flags;
                          o_pos := 3 |}] server)
       (set_inodes (<[1%nat := {| i_mode := MODE_0444;
                                 i_data := fmt_int 100 |}]> (k_inodes boot))
          (set_names (<[pid_path := 1%nat]> (k_names boot)) boot))).

(** [held_boot] at the moment a second process, 200, has opened the same
    file on its descriptor 3, before it asks for the lock. *)
Definition rival : proc :=
  with_fds [Some tty; Some tty; Some tty;
            Some {| o_ino := 1; o_flags := register_flags; o_pos := 0 |}]
    server.

Definition race_boot : kernel := set_proc 200 rival held_boot.

(** [boot] with room for two more bytes only. *)
Definition full_boot : kernel := set_free 2 boot.

(** A process whose identifier has ten digits. *)
Definition big_pid : positive := 1000000000.

Definition big_boot : kernel := set_proc big_pid server boot.

(** ** More vocabulary *)

(** Programs all of whose calls satisfy [P]. *)
Inductive calls_only {A : Type} (P : call → bool) : prog A → Prop :=
| co_ret (a : A) : calls_only P (Ret a)
| co_exit (status : Z) : calls_only P (Exit status)
| co_undef : calls_only P Undef
| co_sys (c : call) (cont : Z → prog A) :
    P c = true → (∀ r, calls_only P (cont r)) →
    calls_only P (Sys c cont).

(** Calls that leave names, files and the room on the file system alone. *)
Definition fs_neutral (c : call) : bool :=
  match c with
  | c_unlink _ | c_open _ _ _ | c_write _ _ => false
  | _ => true
  end.

(** Two states with the same file system. *)
Definition same_files (k1 k2 : kernel) : Prop :=
  k_names k2 = k_names k1 ∧ k_inodes k2 = k_inodes k1 ∧
  k_frozen k2 = k_frozen k1 ∧ k_dirs k2 = k_dirs k1 ∧
  k_free k2 = k_free k1 ∧ k_maxproc k2 = k_maxproc k1.

(** The part of [mk_utils_set_daemon] the child runs (lines 285-302). *)
Definition daemon_child : prog Z :=
  umask 0;;
  setsid;;
  r ← chdir "/";
  (if r <? 0 then
     mk_err "Error: Unable to unmount the inherited filesystem in the daemon process";;
     exit EXIT_FAILURE
   else mret 0);;
  mk_info "Background mode ON";;
  fclose stderr;;
  fclose stdout;;
  mret 0.

(** The calls of the functions that keep the PID file: those that take
    a path take [path]. *)
Definition names_only (path : string) (c : call) : bool :=
  match c with
  | c_stat p | c_unlink p | c_open p _ _ => bool_decide (p = path)
  | c_fcntl _ _ _ | c_getpid | c_write _ _ | c_close _ | c_mk_print _ _ => true
  | c_fork | c_umask _ | c_setsid | c_chdir _ | c_fclose _ => false
  end.

(** [boot] with the directory of the PID file read-only. *)
Definition sealed_boot : kernel :=
  {| k_names := k_names boot; k_inodes := k_inodes boot;
     k_locks := k_locks boot; k_procs := k_procs boot;
     k_status := k_status boot; k_frozen := {[ pid_path ]};
     k_dirs := k_dirs boot; k_free := k_free boot;
     k_maxproc := k_maxproc boot; k_console := k_console boot |}.

(** ** Lines on the standard output

    [mk_print] (lines 179-243) and, in a build with [TRACE],
    [mk_utils_trace] (lines 56-144) each put one line on the standard
    output with a few [printf]s.  A line is the list of its characters. *)

(** The characters of a C string literal. *)
Definition chars (s : string) : list ascii := String.list_ascii_of_string s.

(** A conversion with a minimum field width: blanks or zeros in front,
    or blanks behind with the flag [-]. *)
Definition pad_left (c : ascii) (width : nat) (s : list ascii) : list ascii :=
  replicate (width - length s) c ++ s.

Definition pad_right (c : ascii) (width : nat) (s : list ascii) : list ascii :=
  s ++ replicate (width - length s) c.

(** ["%02i"]: the zeros go between the sign and the digits. *)
Definition fmt_int_zero (width : nat) (v : Z) : list ascii :=
  if v <? 0 then "-"%char :: pad_left "0" (width - 1) (fmt_unsigned (- v))
  else pad_left "0" width (fmt_unsigned v).

(** ["%lu"] given a [long]: defined where the value is not negative. *)
Definition fmt_lu (v : Z) : option (list ascii) :=
  if v <? 0 then None else Some (fmt_unsigned v).

(** [a + b] in [int]. *)
Definition int_add (a b : Z) : option Z :=
  if (INT_MIN <=? a + b) && (a + b <=? INT_MAX) then Some (a + b) else None.

(** The fields of [struct tm] that [mk_print] reads. *)
Record tm := {
  tm_sec  : Z;
  tm_min  : Z;
  tm_hour : Z;
  tm_mday : Z;
  tm_mon  : Z;    (* months since January *)
  tm_year : Z     (* years since 1900 *)
}.

(** The escape sequences [include/mk_macros.h] gives names to.  The file
    is not part of the sources at hand, so they are a parameter of the
    functions that use them. *)
Record ansi := {
  ANSI_BOLD : list ascii;
  ANSI_RESET : list ascii;
  ANSI_WHITE : list ascii;
  ANSI_GREEN : list ascii;
  ANSI_RED : list ascii;
  ANSI_YELLOW : list ascii;
  ANSI_BLUE : list ascii;
  ANSI_CYAN : list ascii;
  ANSI_BOLD_GREEN : list ascii;
  ANSI_BOLD_BLUE : list ascii;
  ANSI_BOLD_WHITE : list ascii;
  ANSI_BOLD_MAGENTA : list ascii;
  ANSI_BOLD_RED : list ascii
}.

(** The two variables the [switch] of [mk_print] sets. *)
Definition header_title (type : msg_type) : list ascii :=
  match type with
  | MK_INFO => chars "Info"
  | MK_ERR => chars "Error"
  | MK_WARN => chars "Warning"
  | MK_BUG => chars " BUG !"
  end.

Definition header_color (a : ansi) (type : msg_type) : list ascii :=
  match type with
  | MK_INFO => ANSI_GREEN a
  | MK_ERR => ANSI_RED a
  | MK_WARN => ANSI_YELLOW a
  | MK_BUG => ANSI_BOLD a ++ ANSI_RED a
  end.

(** What [mk_print] puts on the standard output: [tty] is the result of
    [isatty(STDOUT_FILENO)], [current] that of [localtime_r] ([None] for
    a null pointer), [body] the text [vprintf] makes of the format and
    its arguments.  The build is one without [DEBUG]. *)
Definition mk_print_text (a : ansi) (tty : bool) (current : option tm)
    (type : msg_type) (body : list ascii) : option (list ascii) :=
  let bold_color := ANSI_BOLD a in
  let reset_color := ANSI_RESET a in
  let white_color := ANSI_WHITE a in
  let header_title := header_title type in
  let header_color := header_color a type in
  let '(header_color, bold_color, reset_color, white_color) :=
    if negb tty then ([], [], [], [])
    else (header_color, bold_color, reset_color, white_color) in
  current ← current;
  year ← int_add (tm_year current) 1900;
  mon ← int_add (tm_mon current) 1;
  Some (bold_color ++ chars "[" ++ reset_color
        ++ fmt_int year ++ chars "/" ++ fmt_int_zero 2 mon
        ++ chars "/" ++ fmt_int_zero 2 (tm_mday current)
        ++ chars " " ++ fmt_int_zero 2 (tm_hour current)
        ++ chars ":" ++ fmt_int_zero 2 (tm_min current)
        ++ chars ":" ++ fmt_int_zero 2 (tm_sec current)
        ++ bold_color ++ chars "]" ++ reset_color ++ chars " "
        ++ bold_color ++ chars "[" ++ header_color
        ++ pad_left " " 7 header_title ++ white_color ++ chars "]"
        ++ reset_color ++ chars " "
        ++ body
        ++ reset_color ++ chars newline).

(** [strstr]: the offset of the first occurrence of [needle] in
    [haystack], [None] for a null pointer. *)
Fixpoint strstr (haystack needle : list ascii) : option nat :=
  if decide (needle `prefix_of` haystack) then Some O
  else match haystack with
       | [] => None
       | _ :: rest => S <$> strstr rest needle
       end.

(** The argument [color] of [mk_utils_trace]: one of the two constants of
    [include/mk_utils.h], or any other [int]. *)
Inductive trace_color := MK_TRACE_CORE | MK_TRACE_PLUGIN | trace_other.

(** The colours of the component, the function and the file and line, as
    the two [switch]es leave them; [None] is the null pointer they start
    as. *)
Definition trace_colors (a : ansi) (bgcolortype : list ascii)
    (color : trace_color)
    : option (list ascii) * option (list ascii) * option (list ascii) :=
  if decide (bgcolortype = chars "light") then
    match color with
    | MK_TRACE_CORE =>
        (Some (ANSI_BOLD_GREEN a), Some (ANSI_BOLD_MAGENTA a),
         Some (ANSI_GREEN a))
    | MK_TRACE_PLUGIN =>
        (Some (ANSI_BOLD_GREEN a), Some (ANSI_BLUE a), Some (ANSI_GREEN a))
    | trace_other => (None, None, None)
    end
  else
    match color with
    | MK_TRACE_CORE =>
        (Some (ANSI_BOLD_GREEN a), Some (ANSI_YELLOW a),
         Some (ANSI_BOLD_WHITE a))
    | MK_TRACE_PLUGIN =>
        (Some (ANSI_BOLD_BLUE a), Some (ANSI_BLUE a),
         Some (ANSI_BOLD_WHITE a))
    | trace_other => (None, None, None)
    end.

(** What [mk_utils_trace] puts on the standard output, nothing where the
    filter keeps the line back.  [env_trace_filter] and
    [mk_core_init_time] are the globals of these names, [background] is
    the value of [MK_TRACE_BACKGROUND] in the environment, [tv_sec] and
    [tv_usec] what [gettimeofday] stored. *)
Definition mk_utils_trace_text (a : ansi)
    (env_trace_filter : option (list ascii)) (mk_core_init_time : Z)
    (background : option (list ascii)) (tty : bool) (tv_sec tv_usec : Z)
    (component : list ascii) (color : trace_color)
    (function file : list ascii) (line : Z) (body : list ascii)
    : option (list ascii) :=
  let reset_color := ANSI_RESET a in
  let magenta_color := ANSI_RESET a ++ ANSI_BOLD_MAGENTA a in
  let red_color := ANSI_RESET a ++ ANSI_BOLD_RED a in
  let cyan_color := ANSI_RESET a ++ ANSI_CYAN a in
  if match env_trace_filter with
     | Some filter =>
         match strstr filter file with None => true | Some _ => false end
     | None => false
     end
  then Some []
  else
    let bgcolortype := default (chars "dark") background in
    let '(color_component, color_function, color_fileline) :=
      trace_colors a bgcolortype color in
    let '(color_function, color_fileline, reset_color, magenta_color,
          red_color, cyan_color) :=
      if negb tty then (Some [], Some [], [], [], [], [])
      else (color_function, color_fileline, reset_color, magenta_color,
            red_color, cyan_color) in
    secs ← fmt_lu (tv_sec - mk_core_init_time);
    usecs ← fmt_lu tv_usec;
    color_component ← color_component;
    color_fileline ← color_fileline;
    color_function ← color_function;
    Some (chars "~ " ++ cyan_color ++ pad_left " " 2 secs ++ chars "."
          ++ usecs ++ reset_color ++ chars " "
          ++ magenta_color ++ chars "[" ++ color_component ++ component
          ++ color_fileline ++ chars "|" ++ file ++ chars ":"
          ++ pad_right " " 3 (fmt_int line) ++ magenta_color ++ chars "] "
          ++ color_function ++ function ++ chars "()" ++ red_color
          ++ chars " "
          ++ body
          ++ reset_color ++ chars newline).

(** [mk_core_init] (lines 363-367): the new value of
    [mk_core_init_time], where [now] is what [time] returns, and the
    value returned. *)
Definition mk_core_init (now : Z) : Z * Z := (now, 0).

(** The usual escape sequences, to evaluate the functions with. *)
Definition esc (s : string) : list ascii := ascii_of_nat 27 :: chars s.

Definition vt100 : ansi :=
  {| ANSI_BOLD := esc "[1m"; ANSI_RESET := esc "[0m";
     ANSI_WHITE := esc "[97m"; ANSI_GREEN := esc "[92m";
     ANSI_RED := esc "[91m"; ANSI_YELLOW := esc "[93m";
     ANSI_BLUE := esc "[94m"; ANSI_CYAN := esc "[96m";
     ANSI_BOLD_GREEN := esc "[1m" ++ esc "[92m";
     ANSI_BOLD_BLUE := esc "[1m" ++ esc "[94m";
     ANSI_BOLD_WHITE := esc "[1m" ++ esc "[97m";
     ANSI_BOLD_MAGENTA := esc "[1m" ++ esc "[95m";
     ANSI_BOLD_RED := esc "[1m" ++ esc "[91m" |}.

(** No escape sequences at all. *)
Definition no_colour : ansi :=
  {| ANSI_BOLD := []; ANSI_RESET := []; ANSI_WHITE := []; ANSI_GREEN := [];
     ANSI_RED := []; ANSI_YELLOW := []; ANSI_BLUE := []; ANSI_CYAN := [];
     ANSI_BOLD_GREEN := []; ANSI_BOLD_BLUE := []; ANSI_BOLD_WHITE := [];
     ANSI_BOLD_MAGENTA := []; ANSI_BOLD_RED := [] |}.

Definition noon : tm :=
  {| tm_sec := 5; tm_min := 30; tm_hour := 12; tm_mday := 2; tm_mon := 10;
     tm_year := 126 |}.

(** A time of the calendar, in a year of four digits. *)
Definition calendar (t : tm) : Prop :=
  0 <= tm_sec t <= 60 ∧ 0 <= tm_min t <= 59 ∧ 0 <= tm_hour t <= 23 ∧
  1 <= tm_mday t <= 31 ∧ 0 <= tm_mon t <= 11 ∧
  1000 <= tm_year t + 1900 <= 9999.

(** ** Threads

    The threads of the process, for [mk_utils_worker_spawn] (lines
    257-270).  The list can grow up to a limit, as the number of threads
    of a process can. *)

Inductive detachstate := PTHREAD_CREATE_JOINABLE | PTHREAD_CREATE_DETACHED.

Record thread := {
  th_id     : Z;              (* its [pthread_t] *)
  th_detach : detachstate;
  th_func   : Z;              (* the start routine *)
  th_arg    : Z               (* the argument it is started with *)
}.

Record threads := {
  t_live : list thread;
  t_max  : nat
}.

(** [pthread_attr_init] sets the defaults, of which only the detach state
    matters here. *)
Definition pthread_attr_init : detachstate := PTHREAD_CREATE_JOINABLE.

Definition pthread_attr_setdetachstate (attr state : detachstate)
    : detachstate := state.

Definition fresh_tid (st : threads) : Z :=
  1 + foldr Z.max 0 (th_id <$> t_live st).

(** How a [pthread_create] that cannot make a thread ends: the error
    number it returns, which is not [-1] and not in [errno], and what it
    leaves in [*thread], which is not specified: any value, or the cell
    as it was ([None]). *)
Record create_failure := {
  cf_errno : Z;
  cf_left  : option Z
}.

(** [pthread_create]: the new state, the value returned, and what has
    been stored in [*thread]. *)
Definition pthread_create (st : threads) (fails : create_failure)
    (attr : detachstate) (func arg : Z) : threads * Z * option Z :=
  if (length (t_live st) <? t_max st)%nat then
    let tid := fresh_tid st in
    ({| t_live := t_live st
                  ++ [{| th_id := tid; th_detach := attr; th_func := func;
                         th_arg := arg |}];
        t_max := t_max st |}, 0, Some tid)
  else (st, cf_errno fails, cf_left fails).

(** [mk_utils_worker_spawn]: the threads afterwards, the names passed to
    [mk_libc_error], and the outcome.  The value returned is that of the
    variable [tid], [None] while nothing has been stored in it. *)
Definition mk_utils_worker_spawn (st : threads) (fails : create_failure)
    (func arg : Z) : threads * list string * outcome (option Z) :=
  let tid := None in
  let thread_attr := pthread_attr_init in
  let thread_attr :=
    pthread_attr_setdetachstate thread_attr PTHREAD_CREATE_JOINABLE in
  let '(st', r, stored) := pthread_create st fails thread_attr func arg in
  let tid := match stored with Some t => Some t | None => tid end in
  if r <? 0 then (st', ["pthread_create"], Exited EXIT_FAILURE)
  else (st', [], Returned tid).

(** A process that has reached its limit of threads. *)
Definition busy : threads :=
  {| t_live := [{| th_id := 1; th_detach := PTHREAD_CREATE_JOINABLE;
                   th_func := 4096; th_arg := 0 |}];
     t_max := 1 |}.

(** The error number of "resource temporarily unavailable" on Linux, and
    a value left behind in [*thread]. *)
Definition EAGAIN : Z := 11.

Definition no_thread : create_failure :=
  {| cf_errno := EAGAIN; cf_left := Some 140737345763072 |}.

(** ** Tactics *)

(** Unfold the program under execution up to its next call. *)
Ltac prog_norm :=
  cbn [mbind mret prog_mbind prog_ret prog_bind perform defined exit
       fork umask setsid chdir fclose stat unlink open fcntl getpid write
       close mk_print mk_info mk_err mk_warn negb].

Tactic Notation "prog_norm" "in" hyp(H) :=
  cbn [mbind mret prog_mbind prog_ret prog_bind perform defined exit
       fork umask setsid chdir fclose stat unlink open fcntl getpid write
       close mk_print mk_info mk_err mk_warn negb] in H.

(** Read a field of a state through the updates made to it. *)
Ltac kernel_norm :=
  cbn [k_names k_inodes k_locks k_procs k_status k_frozen k_dirs k_free
       k_maxproc k_console set_names set_inodes set_locks set_procs
       set_status set_free set_console set_proc
       p_pgid p_sid p_cwd p_umask p_root p_fds
       with_fds with_umask with_cwd with_session
       o_ino o_flags o_pos with_pos i_mode i_data with_data
       r_kernel r_trace r_outs after finish followed_by fst snd].

Tactic Notation "kernel_norm" "in" hyp(H) :=
  cbn [k_names k_inodes k_locks k_procs k_status k_frozen k_dirs k_free
       k_maxproc k_console set_names set_inodes set_locks set_procs
       set_status set_free set_console set_proc
       p_pgid p_sid p_cwd p_umask p_root p_fds
       with_fds with_umask with_cwd with_session
       o_ino o_flags o_pos with_pos i_mode i_data with_data
       r_kernel r_trace r_outs after finish followed_by fst snd] in H.

(** Two states built by the same updates differ as their starts do. *)
Ltac sbd :=
  repeat match goal with
  | |- _ ∧ _ => split
  | |- same_but_data _ _ => split; [reflexivity | kernel_norm]
  end; try done.

(** Decide the next comparison of a return value. *)
Ltac test_step :=
  match goal with
  | |- context [?a >? ?b] => rewrite (Z.gtb_ltb a b)
  | |- context [?a <? ?b] => destruct (Z.ltb_spec a b); try lia
  | |- context [?a =? ?b] => destruct (Z.eqb_spec a b); try lia
  end.

Ltac play_out := repeat first [progress cbn | test_step]; try done.

(** * Properties *)

(** ** Decimal formatting *)

Section Formatting.

Lemma digit_char_code (d : Z) :
  0 <= d < 10 → nat_of_ascii (digit_char d) = (48 + Z.to_nat d)%nat.
Proof.
  intros Hd. unfold digit_char. apply nat_ascii_embedding. lia.
Qed.

Lemma digit_char_val (d : Z) : 0 <= d < 10 → digit_val (digit_char d) = d.
Proof.
  intros Hd. unfold digit_val. rewrite digit_char_code by done. lia.
Qed.

Lemma digit_char_is_digit (d : Z) :
  0 <= d < 10 → is_digit (digit_char d) = true.
Proof.
  intros Hd. unfold is_digit. rewrite digit_char_code by done.
  apply andb_true_iff. split; apply Nat.leb_le; lia.
Qed.

Lemma is_digit_not_NUL (c : ascii) : is_digit c = true → c ≠ NUL.
Proof. intros Hc ->. discriminate Hc. Qed.

(** Every character [fmt_digits] adds is a digit. *)
Lemma fmt_digits_Forall (P : ascii → Prop) (fuel : nat) :
  (∀ d, 0 <= d < 10 → P (digit_char d)) →
  ∀ n acc, Forall P acc → Forall P (fmt_digits fuel n acc).
Proof.
  intros HP. induction fuel as [|fuel IH]; intros n acc Hacc; simpl; [done|].
  assert (Forall P (digit_char (n mod 10) :: acc)) as Hacc'.
  { constructor; [apply HP, Z.mod_pos_bound; lia | done]. }
  destruct (n / 10 =? 0); [done | by apply IH].
Qed.

(** Reading the digits back gives the number, when the fuel suffices. *)
Lemma parse_fmt_digits (fuel : nat) :
  ∀ n acc, 0 <= n < 10 ^ Z.of_nat fuel →
  fold_left (λ v c, 10 * v + digit_val c) (fmt_digits fuel n acc) 0
  = fold_left (λ v c, 10 * v + digit_val c) acc n.
Proof.
  induction fuel as [|fuel IH]; intros n acc Hn.
  - simpl in *. by replace n with 0 by lia.
  - simpl fmt_digits.
    assert (0 <= n mod 10 < 10) as Hd by (apply Z.mod_pos_bound; lia).
    assert (n = 10 * (n / 10) + n mod 10) as Hdiv by (apply Z.div_mod; lia).
    destruct (n / 10 =? 0) eqn:Hq.
    + apply Z.eqb_eq in Hq. simpl. rewrite digit_char_val by done.
      f_equal. lia.
    + rewrite IH.
      * simpl. rewrite digit_char_val by done. f_equal. lia.
      * rewrite Nat2Z.inj_succ, Z.pow_succ_r in Hn by lia.
        split; [apply Z.div_pos; lia | apply Z.div_lt_upper_bound; lia].
Qed.

(** At most [m] digits for a number below [10 ^ m]. *)
Lemma fmt_digits_length_le (fuel : nat) :
  ∀ (m : nat) n acc, (1 ≤ m)%nat → 0 <= n < 10 ^ Z.of_nat m →
  (length (fmt_digits fuel n acc) ≤ m + length acc)%nat.
Proof.
  induction fuel as [|fuel IH]; intros m n acc Hm Hn; simpl; [lia|].
  destruct (n / 10 =? 0) eqn:Hq; simpl; [lia|].
  apply Z.eqb_neq in Hq.
  assert (0 <= n / 10) as Hq0 by (apply Z.div_pos; lia).
  destruct m as [|[|m]]; [lia | |].
  - exfalso. apply Hq. apply Z.div_small. simpl in Hn. lia.
  - etrans; [apply (IH (S m)); [lia|] |simpl; lia].
    rewrite (Nat2Z.inj_succ (S m)), Z.pow_succ_r in Hn by lia.
    split; [done | apply Z.div_lt_upper_bound; lia].
Qed.

Lemma fmt_digits_length_acc (fuel : nat) :
  ∀ n acc, (length acc ≤ length (fmt_digits fuel n acc))%nat.
Proof.
  induction fuel as [|fuel IH]; intros n acc; simpl; [lia|].
  destruct (n / 10 =? 0); simpl; [lia|].
  etrans; [|apply IH]. simpl. lia.
Qed.

(** More than [m] digits for a number from [10 ^ m] on. *)
Lemma fmt_digits_length_ge (fuel : nat) :
  ∀ (m : nat) n acc, 10 ^ Z.of_nat m <= n < 10 ^ Z.of_nat fuel →
  (S m + length acc ≤ length (fmt_digits fuel n acc))%nat.
Proof.
  induction fuel as [|fuel IH]; intros m n acc Hn.
  - exfalso. assert (0 < 10 ^ Z.of_nat m) by (apply Z.pow_pos_nonneg; lia).
    simpl in Hn. lia.
  - simpl. rewrite Nat2Z.inj_succ, Z.pow_succ_r in Hn by lia.
    destruct m as [|m].
    + destruct (n / 10 =? 0); simpl; [lia|].
      etrans; [|apply fmt_digits_length_acc]. simpl. lia.
    + rewrite Nat2Z.inj_succ, Z.pow_succ_r in Hn by lia.
      assert (10 ^ Z.of_nat m <= n / 10) as Hlo
        by (apply Z.div_le_lower_bound; lia).
      assert (0 < 10 ^ Z.of_nat m) by (apply Z.pow_pos_nonneg; lia).
      destruct (n / 10 =? 0) eqn:Hq; [apply Z.eqb_eq in Hq; lia|].
      etrans; [|apply (IH m)]; [simpl; lia|].
      split; [done | apply Z.div_lt_upper_bound; lia].
Qed.

(** The fuel [fmt_unsigned] takes is enough. *)
Lemma fmt_unsigned_fuel (n : Z) :
  0 <= n → n < 10 ^ Z.of_nat (S (Z.to_nat (Z.log2 n))).
Proof.
  intros Hn.
  assert (0 <= Z.log2 n) as Hl by apply Z.log2_nonneg.
  rewrite Nat2Z.inj_succ, Z2Nat.id by done.
  destruct (decide (n = 0)) as [->|Hne].
  - simpl. lia.
  - assert (n < 2 ^ Z.succ (Z.log2 n)) by (apply Z.log2_spec; lia).
    assert (2 ^ Z.succ (Z.log2 n) <= 10 ^ Z.succ (Z.log2 n))
      by (apply Z.pow_le_mono_l; lia).
    lia.
Qed.

Lemma parse_fmt_unsigned (n : Z) :
  0 <= n → parse_unsigned (fmt_unsigned n) = n.
Proof.
  intros Hn. unfold parse_unsigned, fmt_unsigned.
  rewrite parse_fmt_digits; [done|]. split; [done|].
  by apply fmt_unsigned_fuel.
Qed.

Lemma fmt_unsigned_digits (n : Z) :
  Forall (λ c, is_digit c = true) (fmt_unsigned n).
Proof.
  apply fmt_digits_Forall; [apply digit_char_is_digit | constructor].
Qed.

Lemma fmt_unsigned_nonempty (n : Z) : (1 ≤ length (fmt_unsigned n))%nat.
Proof.
  unfold fmt_unsigned. simpl. destruct (n / 10 =? 0); simpl; [lia|].
  etrans; [|apply fmt_digits_length_acc]. simpl. lia.
Qed.

Lemma fmt_unsigned_length_le (m : nat) (n : Z) :
  (1 ≤ m)%nat → 0 <= n < 10 ^ Z.of_nat m →
  (length (fmt_unsigned n) ≤ m)%nat.
Proof.
  intros Hm Hn. unfold fmt_unsigned.
  etrans; [by apply (fmt_digits_length_le _ m)|]. simpl. lia.
Qed.

Lemma fmt_unsigned_length_ge (m : nat) (n : Z) :
  10 ^ Z.of_nat m <= n → (S m ≤ length (fmt_unsigned n))%nat.
Proof.
  intros Hn. unfold fmt_unsigned.
  assert (0 < 10 ^ Z.of_nat m) by (apply Z.pow_pos_nonneg; lia).
  etrans; [|apply (fmt_digits_length_ge _ m)]; [simpl; lia|].
  split; [done | apply fmt_unsigned_fuel; lia].
Qed.

(** ["%i"] prints the number: reading the text back returns it. *)
Lemma parse_fmt_int (v : Z) : parse_int (fmt_int v) = v.
Proof.
  unfold fmt_int. destruct (v <? 0) eqn:Hv.
  - apply Z.ltb_lt in Hv. simpl. rewrite parse_fmt_unsigned; lia.
  - apply Z.ltb_ge in Hv.
    assert (parse_unsigned (fmt_unsigned v) = v) as Hp
      by by apply parse_fmt_unsigned.
    unfold parse_int. destruct (fmt_unsigned v) as [|c s] eqn:Hs; [done|].
    destruct (decide (c = "-"%char)) as [->|Hc]; [|by repeat case_match].
    pose proof (fmt_unsigned_digits v) as Hd. rewrite Hs in Hd.
    by inversion Hd.
Qed.

Lemma fmt_int_no_NUL (v : Z) : Forall (λ c, c ≠ NUL) (fmt_int v).
Proof.
  assert (Forall (λ c, c ≠ NUL) (fmt_unsigned (-v)) ∧
          Forall (λ c, c ≠ NUL) (fmt_unsigned v)) as [H1 H2].
  { split; (eapply Forall_impl; [apply fmt_unsigned_digits|]);
      intros c; apply is_digit_not_NUL. }
  unfold fmt_int. destruct (v <? 0); [constructor|]; done.
Qed.

(** Nothing but an optional sign and digits: no newline, no padding. *)
Lemma fmt_int_chars (v : Z) :
  Forall (λ c, is_digit c = true ∨ c = "-"%char) (fmt_int v).
Proof.
  assert (∀ n, Forall (λ c, is_digit c = true ∨ c = "-"%char)
                 (fmt_unsigned n)) as H.
  { intros n. eapply Forall_impl; [apply fmt_unsigned_digits|]. naive_solver. }
  unfold fmt_int. destruct (v <? 0); [constructor; [by right|]|]; apply H.
Qed.

Lemma fmt_int_nonempty (v : Z) : (1 ≤ length (fmt_int v))%nat.
Proof.
  unfold fmt_int. destruct (v <? 0); simpl;
    [pose proof (fmt_unsigned_nonempty (- v)); lia
    | apply fmt_unsigned_nonempty].
Qed.

(** The text of a number between [-10^8] and [10^9], both excluded,
    has at most nine characters; any other has at least ten. *)
Lemma fmt_int_length_small (v : Z) :
  - 10 ^ 8 < v < 10 ^ 9 → (length (fmt_int v) ≤ 9)%nat.
Proof.
  intros Hv. unfold fmt_int. destruct (v <? 0) eqn:Hneg.
  - apply Z.ltb_lt in Hneg. simpl.
    pose proof (fmt_unsigned_length_le 8 (- v)) as H.
    change (Z.of_nat 8) with 8 in H. lia.
  - apply Z.ltb_ge in Hneg.
    pose proof (fmt_unsigned_length_le 9 v) as H.
    change (Z.of_nat 9) with 9 in H. lia.
Qed.

Lemma fmt_int_length_large (v : Z) :
  v <= - 10 ^ 8 ∨ 10 ^ 9 <= v → (10 ≤ length (fmt_int v))%nat.
Proof.
  intros Hv. unfold fmt_int. destruct (v <? 0) eqn:Hneg.
  - apply Z.ltb_lt in Hneg. simpl.
    pose proof (fmt_unsigned_length_ge 8 (- v)) as H.
    change (Z.of_nat 8) with 8 in H. lia.
  - apply Z.ltb_ge in Hneg.
    pose proof (fmt_unsigned_length_ge 9 v) as H.
    change (Z.of_nat 9) with 9 in H. lia.
Qed.

(** The text of a process identifier is digits only. *)
Lemma fmt_int_pos_digits (pid : positive) :
  Forall (λ c, is_digit c = true) (fmt_int (Z.pos pid)).
Proof. apply fmt_unsigned_digits. Qed.

End Formatting.

(** ** The [pidstr] array *)

Section Buffer.

Lemma strlen_text (s : list ascii) (rest : cbuf) :
  Forall (λ c, c ≠ NUL) s →
  strlen ((Some <$> s) ++ Some NUL :: rest) = Some (length s).
Proof.
  induction 1 as [|c s Hc _ IH]; csimpl; [done|].
  case_decide; [done | by rewrite IH].
Qed.

Lemma cbuf_read_text (s : list ascii) (rest : cbuf) :
  cbuf_read ((Some <$> s) ++ rest) (length s) = Some s.
Proof. induction s as [|c s IH]; csimpl; [done | by rewrite IH]. Qed.

Lemma sprintf_i_bytes_length (v : Z) :
  length (sprintf_i_bytes v) = S (length (fmt_int v)).
Proof. unfold sprintf_i_bytes. rewrite length_app. simpl. lia. Qed.

(** The text and its NUL fit: the rest of the array stays unwritten. *)
Lemma sprintf_i_fits (size : nat) (v : Z) :
  (length (fmt_int v) < size)%nat →
  sprintf_i (cbuf_uninit size) v
  = Some ((Some <$> fmt_int v)
          ++ Some NUL :: replicate (size - S (length (fmt_int v))) None).
Proof.
  intros Hlen. unfold sprintf_i, cbuf_uninit.
  rewrite sprintf_i_bytes_length, length_replicate.
  rewrite (proj2 (Nat.leb_le _ _)) by lia.
  rewrite drop_replicate. unfold sprintf_i_bytes.
  by rewrite fmap_app, <- app_assoc.
Qed.

(** The NUL, or already a digit, falls outside the array. *)
Lemma sprintf_i_overflow (size : nat) (v : Z) :
  (size ≤ length (fmt_int v))%nat →
  sprintf_i (cbuf_uninit size) v = None.
Proof.
  intros Hlen. unfold sprintf_i, cbuf_uninit.
  rewrite sprintf_i_bytes_length, length_replicate.
  by rewrite (proj2 (Nat.leb_gt _ _)) by lia.
Qed.

(** What [sprintf], [strlen] and the read of [write] make of [pidstr]. *)
Lemma pidstr_text (v : Z) :
  - 10 ^ 8 < v < 10 ^ 9 →
  ∃ buf, sprintf_i (cbuf_uninit MK_MAX_PID_LEN) v = Some buf ∧
         strlen buf = Some (length (fmt_int v)) ∧
         cbuf_read buf (length (fmt_int v)) = Some (fmt_int v).
Proof.
  intros Hv. pose proof (fmt_int_length_small v Hv) as Hlen.
  eexists. split; [apply sprintf_i_fits; unfold MK_MAX_PID_LEN; lia|].
  split; [apply strlen_text, fmt_int_no_NUL | apply cbuf_read_text].
Qed.

(** The numbers whose text and NUL fit the ten bytes of [pidstr]. *)
Lemma sprintf_i_pidstr_fits (v : Z) :
  is_Some (sprintf_i (cbuf_uninit MK_MAX_PID_LEN) v)
  ↔ - 10 ^ 8 < v < 10 ^ 9.
Proof.
  split.
  - intros [buf Hbuf].
    destruct (decide (- 10 ^ 8 < v < 10 ^ 9)) as [|Hv]; [done|].
    rewrite sprintf_i_overflow in Hbuf; [done|].
    unfold MK_MAX_PID_LEN. apply fmt_int_length_large. lia.
  - intros Hv. destruct (pidstr_text v Hv) as (buf & -> & _). eauto.
Qed.

End Buffer.

(** ** One call at a time *)

Lemma syscall_alive k pid p c :
  k_procs k !! pid = Some p → syscall k pid c = dispatch k pid p c.
Proof. intros H. unfold syscall. by rewrite H. Qed.

Lemma run_returns {A} k pid p c (cont : Z → prog A) x :
  k_procs k !! pid = Some p →
  dispatch k pid p c = returns x →
  run k pid (Sys c cont) = after (pid, (c, x.2)) (run x.1 pid (cont x.2)).
Proof. intros Hp Hc. simpl. by rewrite (syscall_alive _ _ _ _ Hp), Hc. Qed.

(** The slot [fd_alloc] returns holds the new open file. *)
Lemma fd_alloc_spec fds f n fds' :
  fd_alloc fds f = (n, fds') →
  fds' !! n = Some (Some f) ∧ (n < length fds')%nat.
Proof.
  revert n fds'. induction fds as [|[g|] fds IH]; intros n fds' Heq; simpl in Heq.
  - simplify_eq. simpl. split; [done|lia].
  - destruct (fd_alloc fds f) as [m rest] eqn:Hrec. simplify_eq.
    destruct (IH _ _ eq_refl) as [? ?]. simpl. split; [done|lia].
  - simplify_eq. simpl. split; [done|lia].
Qed.

Lemma fd_lookup_slot p fds n f :
  fds !! n = Some f → fd_lookup (with_fds fds p) (Z.of_nat n) = f.
Proof.
  intros H. unfold fd_lookup. rewrite (proj2 (Z.ltb_ge _ _)) by lia.
  simpl. by rewrite Nat2Z.id, H.
Qed.

(** A new inode has no contents and no lock yet. *)
Lemma fresh_ino_spec k :
  k_inodes k !! fresh_ino k = None ∧ k_locks k !! fresh_ino k = None.
Proof.
  pose proof (is_fresh (dom (k_inodes k) ∪ dom (k_locks k))) as H.
  fold (fresh_ino k) in H.
  split; apply not_elem_of_dom; set_solver.
Qed.

Lemma run_ret {A} k pid (a : A) :
  run k pid (mret a) = finish k pid (Returned a).
Proof. done. Qed.

Lemma run_exit {A} k pid status :
  run (A:=A) k pid (exit status)
  = finish (sys_exit k pid status) pid (Exited status).
Proof. done. Qed.

(** What [run] does at a call, by the call and the state it meets.  The
    caller [pid] is live, with entry [p]. *)
Section Steps.
Context {A : Type} (k : kernel) (pid : positive) (p : proc).
Context (Hp : k_procs k !! pid = Some p).
Implicit Types cont : Z → prog A.

Lemma run_stat_absent path cont :
  k_names k !! path = None →
  run k pid (Sys (c_stat path) cont)
  = after (pid, (c_stat path, -1)) (run k pid (cont (-1))).
Proof.
  intros H. rewrite (run_returns _ _ p _ _ (k, -1)); [done..|].
  simpl. unfold sys_stat. by rewrite H.
Qed.

Lemma run_stat_present path ino cont :
  k_names k !! path = Some ino →
  run k pid (Sys (c_stat path) cont)
  = after (pid, (c_stat path, 0)) (run k pid (cont 0)).
Proof.
  intros H. rewrite (run_returns _ _ p _ _ (k, 0)); [done..|].
  simpl. unfold sys_stat. by rewrite H.
Qed.

Lemma run_unlink_ok path ino cont :
  k_names k !! path = Some ino → path ∉ k_frozen k →
  run k pid (Sys (c_unlink path) cont)
  = after (pid, (c_unlink path, 0))
      (run (set_names (delete path (k_names k)) k) pid (cont 0)).
Proof.
  intros H Hf.
  rewrite (run_returns _ _ p _ _ (set_names (delete path (k_names k)) k, 0));
    [done..|].
  simpl. unfold sys_unlink. rewrite H. by rewrite decide_False.
Qed.

Lemma run_unlink_fail path cont :
  k_names k !! path = None ∨ path ∈ k_frozen k →
  run k pid (Sys (c_unlink path) cont)
  = after (pid, (c_unlink path, -1)) (run k pid (cont (-1))).
Proof.
  intros H. rewrite (run_returns _ _ p _ _ (k, -1)); [done..|].
  simpl. unfold sys_unlink. destruct (k_names k !! path); [|done].
  destruct H as [?|?]; [done|]. by rewrite decide_True.
Qed.

Lemma run_open_create path flags mode n fds cont :
  k_names k !! path = None → path ∉ k_frozen k →
  Z.testbit flags O_CREAT_bit = true →
  fd_alloc (p_fds p)
    {| o_ino := fresh_ino k; o_flags := flags; o_pos := 0 |} = (n, fds) →
  run k pid (Sys (c_open path flags mode) cont)
  = after (pid, (c_open path flags mode, Z.of_nat n))
      (run (set_proc pid (with_fds fds p)
              (set_inodes
                 (<[fresh_ino k := {| i_mode := create_mode mode (p_umask p);
                                      i_data := [] |}]> (k_inodes k))
                 (set_names (<[path := fresh_ino k]> (k_names k)) k)))
           pid (cont (Z.of_nat n))).
Proof.
  intros H Hf Hc Ha.
  erewrite (run_returns _ _ p _ _ (_, _)); [done..|].
  simpl. unfold sys_open. rewrite H, Hc, decide_False by done.
  unfold install. simpl. by rewrite Ha.
Qed.

Lemma run_setlk_free fd f cmd l cont :
  fd_lookup p fd = Some f → whole_file l = true → l_type l = F_WRLCK →
  wants_write (o_flags f) = true →
  k_locks k !! o_ino f = None →
  run k pid (Sys (c_fcntl fd cmd l) cont)
  = after (pid, (c_fcntl fd cmd l, 0))
      (run (set_locks (<[o_ino f := pid]> (k_locks k)) k) pid (cont 0)).
Proof.
  intros Hfd Hw Ht Hf Hl.
  erewrite (run_returns _ _ p _ _ (_, _)); [done..|].
  simpl. unfold sys_fcntl. by rewrite Hfd, Hw, Ht, Hf, Hl.
Qed.

Lemma run_getpid cont :
  run k pid (Sys c_getpid cont)
  = after (pid, (c_getpid, Z.pos pid)) (run k pid (cont (Z.pos pid))).
Proof. by rewrite (run_returns _ _ p _ _ (k, Z.pos pid)). Qed.

Lemma run_write fd f i buf cont :
  fd_lookup p fd = Some f → wants_write (o_flags f) = true →
  k_inodes k !! o_ino f = Some i →
  let n := (length buf `min` k_free k)%nat in
  (n = 0 → length buf = 0)%nat →
  run k pid (Sys (c_write fd buf) cont)
  = after (pid, (c_write fd buf, Z.of_nat n))
      (run (set_proc pid
              (with_fds (<[Z.to_nat fd := Some (with_pos (o_pos f + n) f)]>
                           (p_fds p)) p)
              (set_free (k_free k - n)
                 (set_inodes
                    (<[o_ino f := with_data
                                    (splice (o_pos f) (take n buf) (i_data i))
                                    i]> (k_inodes k)) k)))
           pid (cont (Z.of_nat n))).
Proof.
  intros Hfd Hf Hi n Hn.
  erewrite (run_returns _ _ p _ _ (_, _)); [done..|].
  simpl. unfold sys_write. rewrite Hfd, Hf, Hi. simpl. fold n.
  destruct (n =? 0)%nat eqn:Hz; [|done].
  apply Nat.eqb_eq in Hz. rewrite (Hn Hz). simpl. by rewrite Hz.
Qed.

Lemma run_write_nospace fd f i buf cont :
  fd_lookup p fd = Some f → wants_write (o_flags f) = true →
  k_inodes k !! o_ino f = Some i →
  k_free k = 0%nat → (0 < length buf)%nat →
  run k pid (Sys (c_write fd buf) cont)
  = after (pid, (c_write fd buf, -1)) (run k pid (cont (-1))).
Proof.
  intros Hfd Hf Hi Hfree Hlen.
  rewrite (run_returns _ _ p _ _ (k, -1)); [done..|].
  simpl. unfold sys_write. rewrite Hfd, Hf, Hi, Hfree. simpl.
  rewrite Nat.min_0_r. simpl.
  by rewrite (proj2 (Nat.ltb_lt _ _)) by done.
Qed.

Lemma run_close fd f cont :
  fd_lookup p fd = Some f →
  run k pid (Sys (c_close fd) cont)
  = after (pid, (c_close fd, 0))
      (run (set_proc pid (with_fds (fd_clear (p_fds p) fd) p)
              (set_locks (lock_release (o_ino f) pid (k_locks k)) k))
           pid (cont 0)).
Proof.
  intros Hfd. erewrite (run_returns _ _ p _ _ (_, _)); [done..|].
  simpl. unfold sys_close. by rewrite Hfd.
Qed.

Lemma run_mk_print type msg cont :
  run k pid (Sys (c_mk_print type msg) cont)
  = after (pid, (c_mk_print type msg, 0))
      (run (sys_mk_print k pid p type msg).1 pid (cont 0)).
Proof.
  rewrite (run_returns _ _ p _ _ (sys_mk_print k pid p type msg)); [|done..].
  by replace (sys_mk_print k pid p type msg).2 with 0
    by (unfold sys_mk_print; by case_match).
Qed.

End Steps.

Lemma set_proc_alive k pid p : k_procs (set_proc pid p k) !! pid = Some p.
Proof. apply lookup_insert_eq. Qed.

Lemma fd_lookup_with_fds p fds fd :
  fd_lookup (with_fds fds p) fd
  = if fd <? 0 then None else mjoin (fds !! Z.to_nat fd).
Proof. done. Qed.

(** Taking a lock on an unlocked file and dropping it again. *)
Lemma lock_release_own ino pid locks :
  locks !! ino = None →
  lock_release ino pid (<[ino := pid]> locks) = locks.
Proof.
  intros H. unfold lock_release. rewrite lookup_insert_eq, decide_True by done.
  by rewrite delete_insert_eq, delete_id.
Qed.

Lemma splice_fresh (s : list ascii) : splice 0 s [] = s.
Proof. unfold splice. simpl. by rewrite drop_nil, app_nil_r. Qed.

(** A new process identifier is nobody's, nor a group's or a session's. *)
Lemma fresh_pid_spec k pid p :
  k_procs k !! pid = Some p →
  fresh_pid k ≠ pid ∧ fresh_pid k ≠ p_pgid p ∧ fresh_pid k ≠ p_sid p ∧
  k_procs k !! fresh_pid k = None.
Proof.
  intros Hp. pose proof (is_fresh (used_ids k)) as H. fold (fresh_pid k) in H.
  unfold used_ids in H. rewrite !not_elem_of_union in H.
  destruct H as [[[Hprocs _] Hpgid] Hsid].
  assert (p ∈ (map_to_list (k_procs k)).*2) as Hin.
  { apply list_elem_of_fmap. exists (pid, p). split; [done|].
    by apply elem_of_map_to_list. }
  repeat split.
  - intros Heq. apply Hprocs. rewrite Heq. apply elem_of_dom. eauto.
  - intros Heq. apply Hpgid. rewrite Heq.
    apply elem_of_list_to_set, list_elem_of_fmap. eauto.
  - intros Heq. apply Hsid. rewrite Heq.
    apply elem_of_list_to_set, list_elem_of_fmap. eauto.
  - by apply not_elem_of_dom.
Qed.

Section DaemonSteps.
Context {A : Type} (k : kernel) (pid : positive) (p : proc).
Context (Hp : k_procs k !! pid = Some p).
Implicit Types cont : Z → prog A.

Lemma run_fork_ok cont :
  (size (k_procs k) < k_maxproc k)%nat →
  let child := fresh_pid k in
  let parent := run (set_proc child p k) pid (cont (Z.pos child)) in
  run k pid (Sys c_fork cont)
  = after (pid, (c_fork, Z.pos child))
      (followed_by parent (run (r_kernel parent) child (cont 0))).
Proof.
  intros Hroom child parent. simpl. rewrite (syscall_alive _ _ _ _ Hp).
  simpl. unfold sys_fork. by rewrite (proj2 (Nat.ltb_lt _ _)) by done.
Qed.

Lemma run_fork_fail cont :
  (k_maxproc k ≤ size (k_procs k))%nat →
  run k pid (Sys c_fork cont)
  = after (pid, (c_fork, -1)) (run k pid (cont (-1))).
Proof.
  intros Hroom. simpl. rewrite (syscall_alive _ _ _ _ Hp).
  simpl. unfold sys_fork. by rewrite (proj2 (Nat.ltb_ge _ _)) by done.
Qed.

Lemma run_umask mask cont :
  run k pid (Sys (c_umask mask) cont)
  = after (pid, (c_umask mask, p_umask p))
      (run (set_proc pid (with_umask (Z.land mask 511) p) k) pid
         (cont (p_umask p))).
Proof. by erewrite (run_returns _ _ p _ _ (_, _)). Qed.

Lemma run_setsid_ok cont :
  p_pgid p ≠ pid →
  run k pid (Sys c_setsid cont)
  = after (pid, (c_setsid, Z.pos pid))
      (run (set_proc pid (with_session pid p) k) pid (cont (Z.pos pid))).
Proof.
  intros H. erewrite (run_returns _ _ p _ _ (_, _)); [done..|].
  simpl. unfold sys_setsid. by rewrite decide_False.
Qed.

Lemma run_chdir_ok path cont :
  path ∈ k_dirs k →
  run k pid (Sys (c_chdir path) cont)
  = after (pid, (c_chdir path, 0))
      (run (set_proc pid (with_cwd path p) k) pid (cont 0)).
Proof.
  intros H. erewrite (run_returns _ _ p _ _ (_, _)); [done..|].
  simpl. unfold sys_chdir. by rewrite decide_True.
Qed.

Lemma run_chdir_fail path cont :
  path ∉ k_dirs k →
  run k pid (Sys (c_chdir path) cont)
  = after (pid, (c_chdir path, -1)) (run k pid (cont (-1))).
Proof.
  intros H. rewrite (run_returns _ _ p _ _ (k, -1)); [done..|].
  simpl. unfold sys_chdir. by rewrite decide_False.
Qed.

Lemma run_fclose s cont :
  run k pid (Sys (c_fclose s) cont)
  = after (pid, (c_fclose s, (sys_close k pid p (fileno s)).2))
      (run (sys_close k pid p (fileno s)).1 pid
         (cont (sys_close k pid p (fileno s)).2)).
Proof. by rewrite (run_returns _ _ p _ _ (sys_close k pid p (fileno s))). Qed.

End DaemonSteps.

(** What [close] leaves of the caller's entry. *)
Lemma sys_close_proc k pid p fd :
  k_procs k !! pid = Some p →
  ∃ q, k_procs (sys_close k pid p fd).1 = <[pid := q]> (k_procs k) ∧
       fd_lookup q fd = None ∧
       (∀ fd', fd_lookup p fd' = None → fd_lookup q fd' = None) ∧
       p_pgid q = p_pgid p ∧ p_sid q = p_sid p ∧ p_cwd q = p_cwd p ∧
       p_umask q = p_umask p.
Proof.
  intros Hp. unfold sys_close. destruct (fd_lookup p fd) as [f|] eqn:Hfd.
  - eexists. split; [done|]. kernel_norm.
    unfold fd_lookup in *. kernel_norm.
    destruct (fd <? 0) eqn:Hneg; [done|]. unfold fd_clear.
    assert (Z.to_nat fd < length (p_fds p))%nat as Hlen.
    { apply lookup_lt_is_Some. destruct (p_fds p !! Z.to_nat fd); [eauto|done]. }
    split; [by rewrite list_lookup_insert_eq|].
    split; [|done]. intros fd' Hfd'. destruct (fd' <? 0); [done|].
    destruct (decide (Z.to_nat fd = Z.to_nat fd')) as [<-|Hne].
    + by rewrite list_lookup_insert_eq.
    + by rewrite list_lookup_insert_ne.
  - exists p. simpl. by rewrite insert_id.
Qed.

(** [close] touches neither the exit statuses nor the console. *)
Lemma sys_close_frame k pid p fd :
  k_status (sys_close k pid p fd).1 = k_status k ∧
  k_console (sys_close k pid p fd).1 = k_console k.
Proof. unfold sys_close. by destruct (fd_lookup p fd). Qed.

(** The end of [mk_utils_set_daemon]: both streams end up closed. *)
Lemma close_streams_run (k : kernel) (pid : positive) (p : proc) :
  k_procs k !! pid = Some p →
  let r := run k pid (fclose stderr;; fclose stdout;; mret 0) in
  r_outs r = [(pid, Returned 0)] ∧
  (r_trace r).*2.*1 = [c_fclose stderr; c_fclose stdout] ∧
  k_status (r_kernel r) = k_status k ∧
  k_console (r_kernel r) = k_console k ∧
  ∃ q, k_procs (r_kernel r) = <[pid := q]> (k_procs k) ∧
       fd_lookup q STDOUT_FILENO = None ∧ fd_lookup q STDERR_FILENO = None ∧
       p_pgid q = p_pgid p ∧ p_sid q = p_sid p ∧ p_cwd q = p_cwd p ∧
       p_umask q = p_umask p.
Proof.
  intros Hp r. subst r. prog_norm.
  rewrite (run_fclose k pid p Hp).
  destruct (sys_close_proc k pid p (fileno stderr) Hp)
    as (q1 & Hq1 & Herr & _ & Hg1 & Hs1 & Hc1 & Hu1).
  destruct (sys_close_frame k pid p (fileno stderr)) as [Hst1 Hco1].
  set (k1 := (sys_close k pid p (fileno stderr)).1) in *.
  assert (k_procs k1 !! pid = Some q1) as Hp1
    by (rewrite Hq1; apply lookup_insert_eq).
  rewrite (run_fclose _ pid q1 Hp1).
  destruct (sys_close_proc _ pid q1 (fileno stdout) Hp1)
    as (q2 & Hq2 & Hout & Hkeep & Hg2 & Hs2 & Hc2 & Hu2).
  destruct (sys_close_frame k1 pid q1 (fileno stdout)) as [Hst2 Hco2].
  rewrite run_ret. kernel_norm.
  repeat split; try congruence.
  exists q2. rewrite Hq2, Hq1, insert_insert_eq.
  repeat split; try congruence; [exact Hout | apply Hkeep, Herr].
Qed.

(** ** The PID file *)

(** A mask without read bits lets all of 0444 through. *)
Lemma create_mode_unmasked (mask : Z) :
  Z.land mask MODE_0444 = 0 → create_mode MODE_0444 mask = MODE_0444.
Proof.
  intros H. unfold create_mode. change (Z.land MODE_0444 4095) with MODE_0444.
  apply Z.bits_inj'. intros n Hn.
  rewrite Z.land_spec, Z.lnot_spec by done.
  assert (Z.testbit (Z.land mask MODE_0444) n = false) as Hbit
    by (rewrite H; apply Z.bits_0).
  rewrite Z.land_spec in Hbit.
  destruct (Z.testbit mask n), (Z.testbit MODE_0444 n); done.
Qed.

(** The run of [mk_utils_register_pid] up to its [write], where no file
    is at [path], its entry can be created and the identifier of the
    caller fits [pidstr]: the file is created, opened and locked. *)
Lemma register_pid_upto_write (k : kernel) (pid : positive) (p : proc)
    (path : string) (n : nat) (fds : list (option ofile)) :
  k_procs k !! pid = Some p →
  k_names k !! path = None →
  path ∉ k_frozen k →
  Z.pos pid < 10 ^ 9 →
  let ino := fresh_ino k in
  let text := fmt_int (Z.pos pid) in
  let fd := Z.of_nat n in
  fd_alloc (p_fds p) {| o_ino := ino; o_flags := register_flags; o_pos := 0 |}
  = (n, fds) →
  run k pid (mk_utils_register_pid path)
  = after (pid, (c_stat path, -1))
      (after (pid, (c_open path register_flags MODE_0444, fd))
         (after (pid, (c_fcntl fd F_SETLK register_lock, 0))
            (after (pid, (c_getpid, Z.pos pid))
               (run
                  (set_locks (<[ino := pid]> (k_locks k))
                     (set_proc pid (with_fds fds p)
                        (set_inodes
                           (<[ino := {| i_mode := create_mode MODE_0444
                                                    (p_umask p);
                                        i_data := [] |}]> (k_inodes k))
                           (set_names (<[path := ino]> (k_names k)) k))))
                  pid
                  (r ← write fd text;
                   (if negb (r =? Z.of_nat (length text)) then
                      close fd;;
                      mk_err "Error: I cannot write the lock for the pid of monkey";;
                      exit EXIT_FAILURE
                    else mret 0);;
                   close fd;;
                   mret 0))))).
Proof.
  intros Hp Hname Hfrozen Hpid ino text fd Halloc.
  destruct (fresh_ino_spec k) as [Hino Hlock]. fold ino in Hino, Hlock.
  destruct (pidstr_text (Z.pos pid)) as (buf & Hbuf & Hlen & Hread); [lia|].
  fold text in Hlen, Hread.
  destruct (fd_alloc_spec _ _ _ _ Halloc) as [Hslot Hn].
  assert (wants_write register_flags = true) as Hww by done.
  assert (Z.testbit register_flags O_CREAT_bit = true) as Hcr by done.
  assert (fd_lookup (with_fds fds p) fd
          = Some {| o_ino := ino; o_flags := register_flags; o_pos := 0 |})
    as Hfd by by apply fd_lookup_slot.
  unfold mk_utils_register_pid. prog_norm.
  rewrite (run_stat_absent k pid p) by done.
  change (-1 =? 0) with false. prog_norm.
  erewrite (run_open_create k pid p) by done.
  fold fd ino.
  rewrite (proj2 (Z.ltb_ge fd 0)) by lia. prog_norm.
  erewrite run_setlk_free; [|apply set_proc_alive|done..].
  change (0 <? 0) with false. prog_norm.
  erewrite run_getpid by apply set_proc_alive.
  rewrite Hbuf. prog_norm. rewrite Hlen. prog_norm.
  rewrite Hread. by prog_norm.
Qed.

(** The same, to the end, where the file system has room for the text. *)
Lemma register_pid_fresh (k : kernel) (pid : positive) (p : proc)
    (path : string) :
  k_procs k !! pid = Some p →
  k_names k !! path = None →
  path ∉ k_frozen k →
  (length (fmt_int (Z.pos pid)) ≤ k_free k)%nat →
  Z.pos pid < 10 ^ 9 →
  let r := run k pid (mk_utils_register_pid path) in
  let ino := fresh_ino k in
  let fd := Z.of_nat (fd_alloc (p_fds p)
                        {| o_ino := ino; o_flags := register_flags;
                           o_pos := 0 |}).1 in
  let text := fmt_int (Z.pos pid) in
  r_outs r = [(pid, Returned 0)] ∧
  r_trace r = [(pid, (c_stat path, -1));
               (pid, (c_open path register_flags MODE_0444, fd));
               (pid, (c_fcntl fd F_SETLK register_lock, 0));
               (pid, (c_getpid, Z.pos pid));
               (pid, (c_write fd text, Z.of_nat (length text)));
               (pid, (c_close fd, 0))] ∧
  k_names (r_kernel r) = <[path := ino]> (k_names k) ∧
  k_inodes (r_kernel r)
  = <[ino := {| i_mode := create_mode MODE_0444 (p_umask p);
                i_data := text |}]> (k_inodes k) ∧
  k_locks (r_kernel r) = k_locks k ∧
  k_frozen (r_kernel r) = k_frozen k ∧
  (∃ p', k_procs (r_kernel r) = <[pid := p']> (k_procs k) ∧
         fd_lookup p' fd = None).
Proof.
  intros Hp Hname Hfrozen Hroom Hpid r ino fd text.
  destruct (fresh_ino_spec k) as [Hino Hlock]. fold ino in Hino, Hlock.
  pose proof (fmt_int_nonempty (Z.pos pid)) as Hne. fold text in Hne, Hroom.
  destruct (fd_alloc (p_fds p)
              {| o_ino := ino; o_flags := register_flags; o_pos := 0 |})
    as [n fds] eqn:Halloc.
  destruct (fd_alloc_spec _ _ _ _ Halloc) as [Hslot Hn].
  simpl in fd.
  assert (fd_lookup (with_fds fds p) fd
          = Some {| o_ino := ino; o_flags := register_flags; o_pos := 0 |})
    as Hfd by by apply fd_lookup_slot.
  remember r as r' eqn:Hr. unfold r in Hr. clear r.
  rewrite (register_pid_upto_write k pid p path n fds) in Hr by done.
  fold ino text fd in Hr. prog_norm in Hr.
  erewrite run_write in Hr;
    [|apply set_proc_alive|done|done|by apply lookup_insert_eq|simpl; lia].
  kernel_norm in Hr. rewrite Nat.min_l in Hr by done.
  rewrite Z.eqb_refl in Hr. prog_norm in Hr.
  erewrite run_close in Hr; [|apply set_proc_alive|].
  2:{ rewrite fd_lookup_with_fds. rewrite (proj2 (Z.ltb_ge fd 0)) by lia.
      unfold fd. rewrite Nat2Z.id, list_lookup_insert_eq by done. done. }
  kernel_norm in Hr.
  rewrite lock_release_own, splice_fresh, take_ge, insert_insert_eq in Hr
    by done.
  rewrite run_ret in Hr. subst r'. kernel_norm.
  repeat split; try done.
  eexists. split; [by rewrite !insert_insert_eq|].
  rewrite fd_lookup_with_fds, (proj2 (Z.ltb_ge fd 0)) by lia.
  unfold fd_clear, fd. rewrite Nat2Z.id.
  by rewrite list_lookup_insert_eq by by rewrite length_insert.
Qed.

(** The same, to the end, where the file system has no room for all of
    the text: [write] transfers what fits, or fails, and the process ends
    with what was transferred left at [path]. *)
Lemma register_pid_short_write (k : kernel) (pid : positive) (p : proc)
    (path : string) :
  k_procs k !! pid = Some p →
  k_names k !! path = None →
  path ∉ k_frozen k →
  (k_free k < length (fmt_int (Z.pos pid)))%nat →
  Z.pos pid < 10 ^ 9 →
  let r := run k pid (mk_utils_register_pid path) in
  let fd := Z.of_nat (fd_alloc (p_fds p)
                        {| o_ino := fresh_ino k; o_flags := register_flags;
                           o_pos := 0 |}).1 in
  let text := fmt_int (Z.pos pid) in
  let written := if (k_free k =? 0)%nat then -1 else Z.of_nat (k_free k) in
  r_outs r = [(pid, Exited EXIT_FAILURE)] ∧
  r_trace r = [(pid, (c_stat path, -1));
               (pid, (c_open path register_flags MODE_0444, fd));
               (pid, (c_fcntl fd F_SETLK register_lock, 0));
               (pid, (c_getpid, Z.pos pid));
               (pid, (c_write fd text, written));
               (pid, (c_close fd, 0));
               (pid, (c_mk_print MK_ERR
                        "Error: I cannot write the lock for the pid of monkey",
                      0))] ∧
  file_at (r_kernel r) path
  = Some {| i_mode := create_mode MODE_0444 (p_umask p);
            i_data := take (k_free k) text |} ∧
  k_status (r_kernel r) !! pid = Some EXIT_FAILURE.
Proof.
  intros Hp Hname Hfrozen Hroom Hpid r fd text written.
  set (ino := fresh_ino k) in *.
  destruct (fresh_ino_spec k) as [Hino Hlock]. fold ino in Hino, Hlock.
  fold text in Hroom.
  destruct (fd_alloc (p_fds p)
              {| o_ino := ino; o_flags := register_flags; o_pos := 0 |})
    as [n fds] eqn:Halloc.
  destruct (fd_alloc_spec _ _ _ _ Halloc) as [Hslot Hn].
  simpl in fd.
  assert (fd_lookup (with_fds fds p) fd
          = Some {| o_ino := ino; o_flags := register_flags; o_pos := 0 |})
    as Hfd by by apply fd_lookup_slot.
  remember r as r' eqn:Hr. unfold r in Hr. clear r.
  rewrite (register_pid_upto_write k pid p path n fds) in Hr by done.
  fold ino text fd in Hr. prog_norm in Hr.
  destruct (k_free k) as [|m] eqn:Hfree; subst written; cbn [Nat.eqb].
  - erewrite run_write_nospace in Hr;
      [|apply set_proc_alive|done|done|by apply lookup_insert_eq|done|lia].
    rewrite (proj2 (Z.eqb_neq (-1) _)) in Hr by lia. prog_norm in Hr.
    erewrite run_close in Hr; [|apply set_proc_alive|done].
    kernel_norm in Hr. rewrite lock_release_own in Hr by done.
    erewrite run_mk_print in Hr by apply set_proc_alive.
    rewrite run_exit in Hr. subst r'.
    unfold sys_exit, sys_mk_print, file_at.
    destruct (fd_lookup _ STDOUT_FILENO); kernel_norm;
      rewrite !lookup_insert_eq; cbn [mbind option_bind];
      by rewrite lookup_insert_eq.
  - erewrite run_write in Hr;
      [|apply set_proc_alive|done|done|by apply lookup_insert_eq
       |kernel_norm; rewrite Hfree; lia].
    kernel_norm in Hr. rewrite Hfree in Hr.
    rewrite Nat.min_r in Hr by lia.
    rewrite (proj2 (Z.eqb_neq (Z.of_nat (S m)) _)) in Hr by lia.
    prog_norm in Hr.
    erewrite run_close in Hr; [|apply set_proc_alive|].
    2:{ rewrite fd_lookup_with_fds. rewrite (proj2 (Z.ltb_ge fd 0)) by lia.
        unfold fd. rewrite Nat2Z.id, list_lookup_insert_eq by done. done. }
    kernel_norm in Hr.
    rewrite lock_release_own, splice_fresh, insert_insert_eq in Hr by done.
    erewrite run_mk_print in Hr by apply set_proc_alive.
    rewrite run_exit in Hr. subst r'.
    unfold sys_exit, sys_mk_print, file_at.
    destruct (fd_lookup _ STDOUT_FILENO); kernel_norm;
      rewrite !lookup_insert_eq; cbn [mbind option_bind];
      by rewrite lookup_insert_eq.
Qed.

(** A stale file that cannot be removed ends the process. *)
Lemma register_pid_stale_frozen (k : kernel) (pid : positive) (p : proc)
    (path : string) (ino : nat) :
  k_procs k !! pid = Some p →
  k_names k !! path = Some ino →
  path ∈ k_frozen k →
  let r := run k pid (mk_utils_register_pid path) in
  r_trace r = [(pid, (c_stat path, 0)); (pid, (c_unlink path, -1));
               (pid, (c_mk_print MK_ERR "Could not remove old PID-file path",
                      0))] ∧
  r_outs r = [(pid, Exited EXIT_FAILURE)] ∧
  k_procs (r_kernel r) !! pid = None ∧
  k_status (r_kernel r) !! pid = Some EXIT_FAILURE ∧
  k_names (r_kernel r) = k_names k ∧
  k_inodes (r_kernel r) = k_inodes k.
Proof.
  intros Hp Hname Hfrozen r. subst r. unfold mk_utils_register_pid.
  prog_norm. rewrite (run_stat_present k pid p Hp path ino) by done.
  change (0 =? 0) with true. prog_norm.
  rewrite (run_unlink_fail k pid p Hp) by by right.
  change (-1 =? -1) with true. prog_norm.
  rewrite (run_mk_print k pid p Hp). rewrite run_exit.
  unfold sys_exit, sys_mk_print. destruct (fd_lookup p STDOUT_FILENO);
    kernel_norm; by rewrite lookup_delete_eq, lookup_insert_eq.
Qed.

(** A stale file that can be removed: from then on the run is the one
    that starts with no file at [path]. *)
Lemma register_pid_stale_removed (k : kernel) (pid : positive) (p : proc)
    (path : string) (ino : nat) :
  k_procs k !! pid = Some p →
  k_names k !! path = Some ino →
  path ∉ k_frozen k →
  let r := run k pid (mk_utils_register_pid path) in
  let k0 := set_names (delete path (k_names k)) k in
  let r0 := run k0 pid (mk_utils_register_pid path) in
  k_names k0 !! path = None ∧
  head (r_trace r0) = Some (pid, (c_stat path, -1)) ∧
  r_trace r = (pid, (c_stat path, 0)) :: (pid, (c_unlink path, 0))
              :: tail (r_trace r0) ∧
  r_outs r = r_outs r0 ∧
  r_kernel r = r_kernel r0.
Proof.
  intros Hp Hname Hfrozen r k0 r0.
  assert (k_names k0 !! path = None) as Hgone by apply lookup_delete_eq.
  assert (k_procs k0 !! pid = Some p) as Hp0 by done.
  subst r r0. unfold mk_utils_register_pid. prog_norm.
  rewrite (run_stat_present k pid p Hp path ino) by done.
  rewrite (run_stat_absent k0 pid p Hp0 path) by done.
  change (0 =? 0) with true. change (-1 =? 0) with false. prog_norm.
  rewrite (run_unlink_ok k pid p Hp path ino) by done.
  change (0 =? -1) with false. prog_norm. fold k0.
  by kernel_norm.
Qed.

(** [mk_utils_remove_pid], by what [unlink] meets. *)
Section Remove.
Context (k : kernel) (pid : positive) (p : proc) (path : string).
Context (Hp : k_procs k !! pid = Some p).

Lemma remove_pid_deleted (ino : nat) :
  k_names k !! path = Some ino → path ∉ k_frozen k →
  run k pid (mk_utils_remove_pid path)
  = after (pid, (c_unlink path, 0))
      (finish (set_names (delete path (k_names k)) k) pid (Returned 0)).
Proof.
  intros Hname Hfrozen. unfold mk_utils_remove_pid. prog_norm.
  rewrite (run_unlink_ok k pid p Hp path ino) by done.
  change (0 =? 0) with true. by prog_norm.
Qed.

Lemma remove_pid_failed :
  k_names k !! path = None ∨ path ∈ k_frozen k →
  run k pid (mk_utils_remove_pid path)
  = after (pid, (c_unlink path, -1))
      (after (pid, (c_mk_print MK_WARN ("cannot delete pidfile" +:+ newline),
                    0))
         (finish (sys_mk_print k pid p MK_WARN
                    ("cannot delete pidfile" +:+ newline)).1
            pid (Returned 0))).
Proof.
  intros Hfail. unfold mk_utils_remove_pid. prog_norm.
  rewrite (run_unlink_fail k pid p Hp) by done.
  change (-1 =? 0) with false. prog_norm.
  by rewrite (run_mk_print k pid p Hp).
Qed.
End Remove.

(** ** File contents are never read *)

Lemma same_meta_refl m : same_meta m m.
Proof. intros ino. by destruct (m !! ino); constructor. Qed.

Lemma same_meta_dom m1 m2 : same_meta m1 m2 → dom m1 = dom m2.
Proof.
  intros H. apply set_eq. intros ino. rewrite !elem_of_dom.
  specialize (H ino). inversion H; naive_solver.
Qed.

Lemma same_meta_insert m1 m2 ino i1 i2 :
  same_meta m1 m2 → i_mode i1 = i_mode i2 →
  same_meta (<[ino := i1]> m1) (<[ino := i2]> m2).
Proof.
  intros H Hi n. destruct (decide (ino = n)) as [->|Hne].
  - rewrite !lookup_insert_eq. by constructor.
  - rewrite !lookup_insert_ne by done. apply H.
Qed.

Lemma same_but_data_intro k m :
  same_meta (k_inodes k) m → same_but_data k (set_inodes m k).
Proof. intros H. split; [done | done]. Qed.

(** The fields other than the inode table. *)
Lemma same_but_data_fields k1 k2 :
  same_but_data k1 k2 →
  k_names k2 = k_names k1 ∧ k_locks k2 = k_locks k1 ∧
  k_procs k2 = k_procs k1 ∧ k_status k2 = k_status k1 ∧
  k_frozen k2 = k_frozen k1 ∧ k_dirs k2 = k_dirs k1 ∧
  k_free k2 = k_free k1 ∧ k_maxproc k2 = k_maxproc k1 ∧
  k_console k2 = k_console k1.
Proof. intros [-> _]. done. Qed.

Lemma may_open_mode p i1 i2 flags :
  i_mode i1 = i_mode i2 → may_open p i1 flags = may_open p i2 flags.
Proof. intros H. unfold may_open. by rewrite H. Qed.

Lemma dispatch_same_but_data k1 k2 pid p c :
  same_but_data k1 k2 →
  sysret_rel (dispatch k1 pid p c) (dispatch k2 pid p c).
Proof.
  intros [Hk Hm]. rewrite Hk. set (m := k_inodes k2) in *. clearbody m. clear Hk k2.
  assert (fresh_ino (set_inodes m k1) = fresh_ino k1) as Hfresh.
  { unfold fresh_ino. simpl. by rewrite (same_meta_dom _ _ Hm). }
  destruct c; simpl.
  - unfold sys_fork, fresh_pid, used_ids. kernel_norm. case_match; simpl; sbd.
  - unfold sys_umask. sbd.
  - unfold sys_setsid. case_decide; simpl; sbd.
  - unfold sys_chdir. kernel_norm. case_decide; simpl; sbd.
  - unfold sys_close. destruct (fd_lookup p (fileno s)); simpl; sbd.
  - unfold sys_stat. kernel_norm. destruct (k_names k1 !! path); simpl; sbd.
  - unfold sys_unlink. kernel_norm. destruct (k_names k1 !! path); simpl; [|sbd].
    case_decide; simpl; sbd.
  - unfold sys_open. kernel_norm. rewrite Hfresh.
    destruct (k_names k1 !! path) as [ino|].
    + pose proof (Hm ino) as Hi. inversion Hi as [i1 i2 Hmode|]; simpl; [|sbd].
      rewrite (may_open_mode p i1 i2 flags Hmode).
      destruct (may_open p i2 flags); simpl; [|sbd].
      unfold install. destruct (fd_alloc _ _); simpl. sbd.
    + destruct (Z.testbit flags O_CREAT_bit); simpl; [|sbd].
      case_decide; simpl; [sbd|].
      unfold install. destruct (fd_alloc _ _); simpl. sbd.
      by apply same_meta_insert.
  - unfold sys_fcntl. kernel_norm. destruct (fd_lookup p fd) as [f|]; simpl; [|sbd].
    destruct (whole_file lock); simpl; [|sbd].
    destruct (l_type lock); simpl; [|sbd].
    destruct (wants_write (o_flags f)); simpl; [|sbd].
    destruct (k_locks k1 !! o_ino f); simpl; [|sbd].
    case_decide; simpl; [sbd|]. destruct cmd; simpl; sbd.
  - sbd.
  - unfold sys_write. kernel_norm. destruct (fd_lookup p fd) as [f|]; simpl; [|sbd].
    destruct (wants_write (o_flags f)); simpl; [|sbd].
    pose proof (Hm (o_ino f)) as Hi. inversion Hi as [i1 i2 Hmode|]; simpl; [|sbd].
    case_match; simpl; sbd. by apply same_meta_insert.
  - unfold sys_close. destruct (fd_lookup p fd); simpl; sbd.
  - unfold sys_mk_print. destruct (fd_lookup p STDOUT_FILENO); simpl; sbd.
Qed.

Lemma syscall_same_but_data k1 k2 pid c :
  same_but_data k1 k2 →
  sysret_rel (syscall k1 pid c) (syscall k2 pid c).
Proof.
  intros H. unfold syscall.
  destruct (same_but_data_fields _ _ H) as (_ & _ & -> & _).
  destruct (k_procs k1 !! pid); [by apply dispatch_same_but_data | done].
Qed.

Lemma sys_exit_same_but_data k1 k2 pid status :
  same_but_data k1 k2 →
  same_but_data (sys_exit k1 pid status) (sys_exit k2 pid status).
Proof. intros [-> Hm]. sbd. Qed.

(** No call of the vocabulary returns anything read from a file: what a
    program does cannot depend on what the files contain. *)
Lemma run_same_but_data {A} (prg : prog A) :
  ∀ k1 k2 pid, same_but_data k1 k2 →
  r_trace (run k1 pid prg) = r_trace (run k2 pid prg) ∧
  r_outs (run k1 pid prg) = r_outs (run k2 pid prg) ∧
  same_but_data (r_kernel (run k1 pid prg)) (r_kernel (run k2 pid prg)).
Proof.
  induction prg as [a|status| |c cont IH]; intros k1 k2 pid Hk; simpl.
  - done.
  - repeat split; try done; by apply sys_exit_same_but_data.
  - done.
  - pose proof (syscall_same_but_data k1 k2 pid c Hk) as Hc.
    destruct (syscall k1 pid c) as [k1' r1|k1' c1|],
             (syscall k2 pid c) as [k2' r2|k2' c2|]; simpl in Hc; try done.
    + destruct Hc as [-> Hk'].
      destruct (IH r2 k1' k2' pid Hk') as (Ht & Ho & Hr).
      kernel_norm. by rewrite Ht, Ho.
    + destruct Hc as [-> Hk'].
      destruct (IH (Z.pos c2) k1' k2' pid Hk') as (Ht & Ho & Hr).
      destruct (IH 0 _ _ c2 Hr) as (Ht' & Ho' & Hr').
      kernel_norm. by rewrite Ht, Ho, Ht', Ho'.
Qed.

(** ** Programs that never wait *)

Lemma never_waits_bind {A B} (prg : prog A) (f : A → prog B) :
  never_waits prg → (∀ a, never_waits (f a)) → never_waits (prg ≫= f).
Proof.
  intros Hp Hf. induction Hp as [a|status| |c cont Hc _ IH]; prog_norm.
  - apply Hf.
  - constructor.
  - constructor.
  - by constructor.
Qed.

Lemma never_waits_perform (c : call) :
  may_wait c = false → never_waits (perform c).
Proof. intros Hc. constructor; [done | constructor]. Qed.

Lemma never_waits_defined {A} (o : option A) : never_waits (defined o).
Proof. destruct o; constructor. Qed.

Lemma register_pid_never_waits (path : string) :
  never_waits (mk_utils_register_pid path).
Proof.
  unfold mk_utils_register_pid.
  repeat first
    [ apply never_waits_bind
    | apply never_waits_defined
    | apply never_waits_perform; reflexivity
    | constructor
    | intros ?
    | case_match ].
Qed.

Lemma remove_pid_never_waits (path : string) :
  never_waits (mk_utils_remove_pid path).
Proof.
  unfold mk_utils_remove_pid.
  repeat first
    [ apply never_waits_bind
    | apply never_waits_perform; reflexivity
    | constructor
    | intros ?
    | case_match ].
Qed.

(** A call that cannot wait returns, and its caller is still live. *)
Lemma dispatch_returns k pid p c :
  k_procs k !! pid = Some p → may_wait c = false →
  ∃ k' r, dispatch k pid p c = Returns k' r ∧ is_Some (k_procs k' !! pid).
Proof.
  intros Hp Hc.
  assert (∀ k0 p', is_Some (k_procs (set_proc pid p' k0) !! pid)) as Hset
    by (intros; kernel_norm; by rewrite lookup_insert_eq).
  assert (is_Some (k_procs k !! pid)) as Hk by by rewrite Hp.
  destruct c; try discriminate Hc; simpl; unfold returns.
  - unfold sys_umask. eauto.
  - unfold sys_setsid. case_decide; simpl; eauto.
  - unfold sys_chdir. case_decide; simpl; eauto.
  - unfold sys_close. case_match; simpl; eauto.
  - unfold sys_stat. case_match; simpl; eauto.
  - unfold sys_unlink. repeat case_match; simpl; eauto.
  - unfold sys_open, install. repeat case_match; simpl; eauto.
  - destruct cmd; [|discriminate Hc].
    unfold sys_fcntl. repeat case_match; simplify_eq; simpl; eauto.
  - eauto.
  - unfold sys_write. repeat case_match; simpl; eauto.
  - unfold sys_close. case_match; simpl; eauto.
  - unfold sys_mk_print. case_match; simpl; eauto.
Qed.

(** A live process running such a program ends or returns. *)
Lemma never_waits_run {A} (prg : prog A) :
  never_waits prg →
  ∀ k pid, is_Some (k_procs k !! pid) →
  ∃ o, r_outs (run k pid prg) = [(pid, o)] ∧ o ≠ Stuck.
Proof.
  induction 1 as [a|status| |c cont Hc _ IH]; intros k pid [p Hp]; simpl.
  - by eexists.
  - by eexists.
  - by eexists.
  - rewrite (syscall_alive _ _ _ _ Hp).
    destruct (dispatch_returns k pid p c Hp Hc) as (k' & r & -> & Hp').
    kernel_norm. by apply IH.
Qed.

(** A run of such a program is a play against the values the calls
    returned in it. *)
Lemma run_is_play {A} (prg : prog A) :
  never_waits prg →
  ∀ k pid, is_Some (k_procs k !! pid) →
  let r := run k pid prg in
  ∃ o, r_outs r = [(pid, o)] ∧
       play prg (r_trace r).*2.*2 = ((r_trace r).*2, o) ∧
       (r_trace r).*1 = replicate (length (r_trace r)) pid.
Proof.
  induction 1 as [a|status| |c cont Hc _ IH]; intros k pid [p Hp]; simpl.
  - by eexists.
  - by eexists.
  - by eexists.
  - rewrite (syscall_alive _ _ _ _ Hp).
    destruct (dispatch_returns k pid p c Hp Hc) as (k' & r & -> & Hp').
    destruct (IH r k' pid Hp') as (o & Ho & Hplay & Hpid).
    exists o. kernel_norm. rewrite !fmap_cons. cbn [play fst snd].
    rewrite Hplay, Hpid. by unfold record.
Qed.

(** ** Daemon mode *)

Lemma sys_mk_print_proc k pid p type msg :
  k_procs (sys_mk_print k pid p type msg).1 = k_procs k ∧
  k_status (sys_mk_print k pid p type msg).1 = k_status k ∧
  k_dirs (sys_mk_print k pid p type msg).1 = k_dirs k ∧
  k_console (sys_mk_print k pid p type msg).1
  = k_console k ++ (match fd_lookup p STDOUT_FILENO with
                    | Some _ => [(pid, type, msg)]
                    | None => []
                    end).
Proof.
  unfold sys_mk_print. destruct (fd_lookup p STDOUT_FILENO); simpl.
  - done.
  - by rewrite app_nil_r.
Qed.

(** [mk_utils_set_daemon] where a process can be made and the root
    directory entered: the caller ends with success, and its child
    returns as the leader of a new session, at the root, with mask 0 and
    without its standard output and standard error. *)
Lemma set_daemon_run (k : kernel) (pid : positive) (p : proc) :
  k_procs k !! pid = Some p →
  (size (k_procs k) < k_maxproc k)%nat →
  "/" ∈ k_dirs k →
  let r := run k pid mk_utils_set_daemon in
  let child := fresh_pid k in
  r_outs r = [(pid, Exited EXIT_SUCCESS); (child, Returned 0)] ∧
  (r_trace r).*2.*1 = [c_fork; c_umask 0; c_setsid; c_chdir "/";
                     c_mk_print MK_INFO "Background mode ON";
                     c_fclose stderr; c_fclose stdout] ∧
  k_procs (r_kernel r) !! pid = None ∧
  k_status (r_kernel r) !! pid = Some EXIT_SUCCESS ∧
  k_console (r_kernel r)
  = k_console k ++ (match fd_lookup p STDOUT_FILENO with
                    | Some _ => [(child, MK_INFO, "Background mode ON")]
                    | None => []
                    end) ∧
  ∃ q, k_procs (r_kernel r) !! child = Some q ∧
       p_sid q = child ∧ p_pgid q = child ∧ p_cwd q = "/" ∧ p_umask q = 0 ∧
       fd_lookup q STDOUT_FILENO = None ∧ fd_lookup q STDERR_FILENO = None.
Proof.
  intros Hp Hroom Hroot r child.
  destruct (fresh_pid_spec k pid p Hp) as (Hne & Hpg & Hsid & Hnew).
  fold child in Hne, Hpg, Hsid, Hnew.
  remember r as r' eqn:Hr. unfold r, mk_utils_set_daemon in Hr. clear r.
  prog_norm in Hr. rewrite (run_fork_ok k pid p Hp) in Hr by done.
  fold child in Hr. cbv zeta in Hr.
  change (Z.pos child <? 0) with false in Hr.
  change (Z.pos child >? 0) with true in Hr.
  change (0 <? 0) with false in Hr. change (0 >? 0) with false in Hr.
  prog_norm in Hr. rewrite run_exit in Hr. kernel_norm in Hr.
  set (k1 := sys_exit (set_proc child p k) pid EXIT_SUCCESS) in Hr.
  assert (k_procs k1 !! child = Some p) as Hp1.
  { unfold k1, sys_exit. kernel_norm.
    by rewrite lookup_delete_ne, lookup_insert_eq. }
  rewrite (run_umask k1 child p Hp1) in Hr.
  erewrite run_setsid_ok in Hr; [|apply set_proc_alive|done].
  erewrite run_chdir_ok in Hr; [|apply set_proc_alive|done].
  change (0 <? 0) with false in Hr. prog_norm in Hr.
  erewrite run_mk_print in Hr by apply set_proc_alive.
  match type of Hr with
  | context [sys_mk_print ?k0 ?c ?q ?t ?m] =>
      pose proof (sys_mk_print_proc k0 c q t m) as (Hprocs & Hstat & _ & Hcons);
      set (k2 := (sys_mk_print k0 c q t m).1) in *
  end.
  kernel_norm in Hprocs. kernel_norm in Hstat. kernel_norm in Hcons.
  match type of Hprocs with _ = <[_ := ?q]> _ => set (q3 := q) in * end.
  assert (k_procs k2 !! child = Some q3) as Hp2
    by (rewrite Hprocs; apply lookup_insert_eq).
  change (Sys (c_fclose stderr) _)
    with (fclose stderr;; fclose stdout;; mret (M:=prog) 0) in Hr.
  destruct (close_streams_run k2 child q3 Hp2)
    as (Ho & Ht & Hst & Hco & q & Hq & Hout & Herr & Hg & Hs & Hc & Hu).
  subst r'. kernel_norm. rewrite Ho, Hst, Hco, Hq, Hstat, Hcons.
  cbn [app]. rewrite !fmap_cons, Ht. kernel_norm.
  repeat split; try done.
  - rewrite lookup_insert_ne, Hprocs, !lookup_insert_ne by done.
    unfold k1, sys_exit. kernel_norm. apply lookup_delete_eq.
  - unfold k1, sys_exit. kernel_norm. by rewrite lookup_insert_eq.
  - exists q. rewrite lookup_insert_eq. by rewrite Hg, Hs, Hc, Hu.
Qed.

(** [mk_utils_set_daemon] where the process table is full. *)
Lemma set_daemon_run_no_fork (k : kernel) (pid : positive) (p : proc) :
  k_procs k !! pid = Some p →
  (k_maxproc k ≤ size (k_procs k))%nat →
  let r := run k pid mk_utils_set_daemon in
  r_outs r = [(pid, Exited EXIT_FAILURE)] ∧
  (r_trace r).*2
  = [(c_fork, -1);
     (c_mk_print MK_ERR
        "Error: Failed creating to switch to daemon mode(fork failed)", 0)] ∧
  k_status (r_kernel r) !! pid = Some EXIT_FAILURE.
Proof.
  intros Hp Hfull r. subst r. unfold mk_utils_set_daemon. prog_norm.
  rewrite (run_fork_fail k pid p Hp) by done.
  change (-1 <? 0) with true. prog_norm.
  rewrite (run_mk_print k pid p Hp), run_exit.
  unfold sys_exit. kernel_norm. by rewrite lookup_insert_eq.
Qed.

(** [mk_utils_set_daemon] where the root directory cannot be entered. *)
Lemma set_daemon_run_no_chdir (k : kernel) (pid : positive) (p : proc) :
  k_procs k !! pid = Some p →
  (size (k_procs k) < k_maxproc k)%nat →
  "/" ∉ k_dirs k →
  let r := run k pid mk_utils_set_daemon in
  let child := fresh_pid k in
  r_outs r = [(pid, Exited EXIT_SUCCESS); (child, Exited EXIT_FAILURE)] ∧
  (r_trace r).*2.*1
  = [c_fork; c_umask 0; c_setsid; c_chdir "/";
     c_mk_print MK_ERR
       "Error: Unable to unmount the inherited filesystem in the daemon process"] ∧
  k_status (r_kernel r) !! child = Some EXIT_FAILURE.
Proof.
  intros Hp Hroom Hroot r child.
  destruct (fresh_pid_spec k pid p Hp) as (Hne & Hpg & Hsid & Hnew).
  fold child in Hne, Hpg, Hsid, Hnew.
  subst r. unfold mk_utils_set_daemon.
  prog_norm. rewrite (run_fork_ok k pid p Hp) by done.
  fold child. cbv zeta.
  change (Z.pos child <? 0) with false.
  change (Z.pos child >? 0) with true.
  change (0 <? 0) with false. change (0 >? 0) with false.
  prog_norm. rewrite run_exit. kernel_norm.
  set (k1 := sys_exit (set_proc child p k) pid EXIT_SUCCESS).
  assert (k_procs k1 !! child = Some p) as Hp1.
  { unfold k1, sys_exit. kernel_norm.
    by rewrite lookup_delete_ne, lookup_insert_eq. }
  rewrite (run_umask k1 child p Hp1).
  erewrite run_setsid_ok; [|apply set_proc_alive|done].
  erewrite run_chdir_fail; [|apply set_proc_alive|done].
  change (-1 <? 0) with true. prog_norm.
  erewrite run_mk_print by apply set_proc_alive.
  rewrite run_exit. unfold sys_exit. kernel_norm.
  by rewrite lookup_insert_eq.
Qed.

(** ** The state after a registration *)

(** Opening a descriptor and closing it again leaves every descriptor as
    it was. *)
Lemma fd_alloc_clear (fds : list (option ofile)) (f g : ofile) (n : nat)
    (fds' : list (option ofile)) :
  fd_alloc fds f = (n, fds') →
  ∀ i : nat, mjoin (<[n := None]> (<[n := Some g]> fds') !! i)
             = mjoin (fds !! i).
Proof.
  revert n fds'. induction fds as [|[h|] fds IH]; intros n fds' Heq i;
    simpl in Heq.
  - simplify_eq. by destruct i as [|[|i]].
  - destruct (fd_alloc fds f) as [m rest] eqn:Hrec. simplify_eq.
    destruct i as [|i]; [done|]. simpl. by apply IH.
  - simplify_eq. by destruct i.
Qed.

(** The state a successful [mk_utils_register_pid] leaves, field by
    field. *)
Lemma register_pid_fresh_state (k : kernel) (pid : positive) (p : proc)
    (path : string) :
  k_procs k !! pid = Some p →
  k_names k !! path = None →
  path ∉ k_frozen k →
  (length (fmt_int (Z.pos pid)) ≤ k_free k)%nat →
  Z.pos pid < 10 ^ 9 →
  let k' := r_kernel (run k pid (mk_utils_register_pid path)) in
  let ino := fresh_ino k in
  let text := fmt_int (Z.pos pid) in
  k_names k' = <[path := ino]> (k_names k) ∧
  k_inodes k'
  = <[ino := {| i_mode := create_mode MODE_0444 (p_umask p);
                i_data := text |}]> (k_inodes k) ∧
  k_locks k' = k_locks k ∧
  k_status k' = k_status k ∧
  k_frozen k' = k_frozen k ∧
  k_dirs k' = k_dirs k ∧
  k_free k' = (k_free k - length text)%nat ∧
  k_maxproc k' = k_maxproc k ∧
  k_console k' = k_console k ∧
  ∃ p', k_procs k' = <[pid := p']> (k_procs k) ∧
        (∀ fd, fd_lookup p' fd = fd_lookup p fd) ∧
        p_pgid p' = p_pgid p ∧ p_sid p' = p_sid p ∧ p_cwd p' = p_cwd p ∧
        p_umask p' = p_umask p ∧ p_root p' = p_root p.
Proof.
  intros Hp Hname Hfrozen Hroom Hpid k' ino text.
  destruct (fresh_ino_spec k) as [Hino Hlock]. fold ino in Hino, Hlock.
  pose proof (fmt_int_nonempty (Z.pos pid)) as Hne. fold text in Hne, Hroom.
  destruct (fd_alloc (p_fds p)
              {| o_ino := ino; o_flags := register_flags; o_pos := 0 |})
    as [n fds] eqn:Halloc.
  destruct (fd_alloc_spec _ _ _ _ Halloc) as [Hslot Hn].
  assert (fd_lookup (with_fds fds p) (Z.of_nat n)
          = Some {| o_ino := ino; o_flags := register_flags; o_pos := 0 |})
    as Hfd by by apply fd_lookup_slot.
  remember k' as k'' eqn:Hk. unfold k' in Hk. clear k'.
  rewrite (register_pid_upto_write k pid p path n fds) in Hk by done.
  fold ino text in Hk. prog_norm in Hk.
  erewrite run_write in Hk;
    [|apply set_proc_alive|done|done|by apply lookup_insert_eq|simpl; lia].
  kernel_norm in Hk. rewrite Nat.min_l in Hk by done.
  rewrite Z.eqb_refl in Hk. prog_norm in Hk.
  erewrite run_close in Hk; [|apply set_proc_alive|].
  2:{ rewrite fd_lookup_with_fds. rewrite (proj2 (Z.ltb_ge _ 0)) by lia.
      rewrite Nat2Z.id, list_lookup_insert_eq by done. done. }
  kernel_norm in Hk.
  rewrite lock_release_own, splice_fresh, take_ge, insert_insert_eq in Hk
    by done.
  rewrite run_ret in Hk. subst k''. kernel_norm.
  repeat split; try done.
  eexists. split; [by rewrite !insert_insert_eq|].
  split; [|done]. intros fd. rewrite fd_lookup_with_fds. unfold fd_lookup.
  destruct (fd <? 0); [done|]. unfold fd_clear. rewrite Nat2Z.id.
  by apply (fd_alloc_clear _ _ _ _ _ Halloc).
Qed.

(** The same whether or not a file was at [path] before: a stale file
    only loses its name. *)
Lemma register_pid_state (k : kernel) (pid : positive) (p : proc)
    (path : string) :
  k_procs k !! pid = Some p →
  path ∉ k_frozen k →
  (length (fmt_int (Z.pos pid)) ≤ k_free k)%nat →
  Z.pos pid < 10 ^ 9 →
  let r := run k pid (mk_utils_register_pid path) in
  let k' := r_kernel r in
  let ino := fresh_ino k in
  let text := fmt_int (Z.pos pid) in
  r_outs r = [(pid, Returned 0)] ∧
  k_names k' = <[path := ino]> (k_names k) ∧
  k_inodes k'
  = <[ino := {| i_mode := create_mode MODE_0444 (p_umask p);
                i_data := text |}]> (k_inodes k) ∧
  k_locks k' = k_locks k ∧
  k_status k' = k_status k ∧
  k_frozen k' = k_frozen k ∧
  k_dirs k' = k_dirs k ∧
  k_free k' = (k_free k - length text)%nat ∧
  k_maxproc k' = k_maxproc k ∧
  k_console k' = k_console k ∧
  ∃ p', k_procs k' = <[pid := p']> (k_procs k) ∧
        (∀ fd, fd_lookup p' fd = fd_lookup p fd) ∧
        p_pgid p' = p_pgid p ∧ p_sid p' = p_sid p ∧ p_cwd p' = p_cwd p ∧
        p_umask p' = p_umask p ∧ p_root p' = p_root p.
Proof.
  intros Hp Hfrozen Hroom Hpid r k' ino text.
  destruct (k_names k !! path) as [old|] eqn:Hname.
  - destruct (register_pid_stale_removed k pid p path old Hp Hname Hfrozen)
      as (Hgone & _ & _ & Ho & Hk).
    fold r in Ho, Hk. set (k0 := set_names (delete path (k_names k)) k) in *.
    destruct (register_pid_fresh k0 pid p path) as (Ho0 & _); [done..|].
    destruct (register_pid_fresh_state k0 pid p path)
      as (Hn & Hrest); [done..|].
    unfold k'. rewrite Ho, Hk. split; [done|].
    rewrite Hn. split; [|exact Hrest].
    unfold k0. kernel_norm. apply insert_delete_eq.
  - destruct (register_pid_fresh k pid p path) as (Ho0 & _); [done..|].
    split; [done|]. by apply register_pid_fresh_state.
Qed.

(** ** Sequencing *)

(** A program that never waits, followed by another: the second starts in
    the state the first returned in. *)
Lemma run_bind_returned {A B} (prg : prog A) (f : A → prog B) :
  never_waits prg →
  ∀ k pid a, is_Some (k_procs k !! pid) →
  r_outs (run k pid prg) = [(pid, Returned a)] →
  let r1 := run k pid prg in
  let r2 := run (r_kernel r1) pid (f a) in
  run k pid (prg ≫= f)
  = {| r_kernel := r_kernel r2; r_trace := r_trace r1 ++ r_trace r2;
       r_outs := r_outs r2 |}.
Proof.
  induction 1 as [a'|status| |c cont Hc _ IH]; intros k pid a [p Hp] Ho.
  - simpl in Ho. simplify_eq. simpl. by destruct (run k pid (f a)).
  - simpl in Ho. simplify_eq.
  - simpl in Ho. simplify_eq.
  - revert Ho. prog_norm. cbn [run]. rewrite (syscall_alive _ _ _ _ Hp).
    destruct (dispatch_returns k pid p c Hp Hc) as (k' & r & -> & Hp').
    kernel_norm. intros Ho. by rewrite (IH r k' pid a Hp' Ho).
Qed.

(** ** The PID file: the ways a registration ends *)

Lemma run_open_frozen {A} k pid p path flags mode (cont : Z → prog A) :
  k_procs k !! pid = Some p →
  k_names k !! path = None → path ∈ k_frozen k →
  run k pid (Sys (c_open path flags mode) cont)
  = after (pid, (c_open path flags mode, -1)) (run k pid (cont (-1))).
Proof.
  intros Hp H Hf. rewrite (run_returns _ _ p _ _ (k, -1)); [done..|].
  simpl. unfold sys_open. rewrite H. destruct (Z.testbit _ _); [|done].
  by rewrite decide_True.
Qed.

(** No file at [path] and no way to create one: the process ends at the
    [open]. *)
Lemma register_pid_no_entry (k : kernel) (pid : positive) (p : proc)
    (path : string) :
  k_procs k !! pid = Some p →
  k_names k !! path = None →
  path ∈ k_frozen k →
  let r := run k pid (mk_utils_register_pid path) in
  r_trace r = [(pid, (c_stat path, -1));
               (pid, (c_open path register_flags MODE_0444, -1));
               (pid, (c_mk_print MK_ERR "Error: I can't log pid of monkey",
                      0))] ∧
  r_outs r = [(pid, Exited EXIT_FAILURE)] ∧
  k_procs (r_kernel r) !! pid = None ∧
  k_status (r_kernel r) !! pid = Some EXIT_FAILURE ∧
  k_names (r_kernel r) = k_names k ∧
  k_inodes (r_kernel r) = k_inodes k.
Proof.
  intros Hp Hname Hfrozen r. subst r. unfold mk_utils_register_pid.
  prog_norm. rewrite (run_stat_absent k pid p Hp path) by done.
  change (-1 =? 0) with false. prog_norm.
  rewrite (run_open_frozen k pid p) by done.
  change (-1 <? 0) with true. prog_norm.
  rewrite (run_mk_print k pid p Hp). rewrite run_exit.
  unfold sys_exit, sys_mk_print. destruct (fd_lookup p STDOUT_FILENO);
    kernel_norm; by rewrite lookup_delete_eq, lookup_insert_eq.
Qed.

(** ** Reading a prefix of a numeral *)

Lemma parse_unsigned_from (s : list ascii) (v : Z) :
  fold_left (λ v c, 10 * v + digit_val c) s v
  = v * 10 ^ Z.of_nat (length s) + parse_unsigned s.
Proof.
  unfold parse_unsigned. revert v.
  induction s as [|c s IH]; intros v; simpl fold_left.
  - simpl. lia.
  - rewrite (IH (10 * v + digit_val c)), (IH (10 * 0 + digit_val c)).
    rewrite length_cons, Nat2Z.inj_succ, Z.pow_succ_r by lia. lia.
Qed.

Lemma parse_unsigned_app (s t : list ascii) :
  parse_unsigned (s ++ t)
  = parse_unsigned s * 10 ^ Z.of_nat (length t) + parse_unsigned t.
Proof.
  unfold parse_unsigned at 1. rewrite fold_left_app.
  apply parse_unsigned_from.
Qed.

Lemma parse_unsigned_nonneg (s : list ascii) :
  Forall (λ c, is_digit c = true) s → 0 <= parse_unsigned s.
Proof.
  induction s as [|c s IH] using rev_ind; [done|].
  rewrite Forall_app, Forall_singleton. intros [Hs Hc].
  rewrite parse_unsigned_app. change (parse_unsigned [c]) with (10 * 0 + digit_val c).
  assert (0 <= digit_val c).
  { unfold is_digit, digit_val in *. apply andb_true_iff in Hc as [Hc _].
    apply Nat.leb_le in Hc. lia. }
  specialize (IH Hs). simpl length. lia.
Qed.

(** A numeral cut short reads as a smaller number. *)
Lemma parse_unsigned_take (s : list ascii) (m : nat) :
  Forall (λ c, is_digit c = true) s →
  (m < length s)%nat → 0 < parse_unsigned s →
  0 <= parse_unsigned (take m s) < parse_unsigned s.
Proof.
  intros Hs Hm Hpos.
  assert (parse_unsigned s
          = parse_unsigned (take m s) * 10 ^ Z.of_nat (length (drop m s))
            + parse_unsigned (drop m s)) as Heq
    by by rewrite <- parse_unsigned_app, take_drop.
  rewrite <- (take_drop m s) in Hs. apply Forall_app in Hs as [Ht Hd].
  pose proof (parse_unsigned_nonneg _ Ht) as H1.
  pose proof (parse_unsigned_nonneg _ Hd) as H2.
  assert (1 ≤ length (drop m s))%nat as Hlen by (rewrite length_drop; lia).
  assert (10 <= 10 ^ Z.of_nat (length (drop m s))).
  { change 10 with (10 ^ 1) at 1. apply Z.pow_le_mono_r; lia. }
  rewrite Heq in *.
  set (x := 10 ^ Z.of_nat (length (drop m s))) in *.
  set (a := parse_unsigned (take m s)) in *.
  set (b := parse_unsigned (drop m s)) in *.
  clearbody x a b. destruct (decide (a = 0)) as [->|]; nia.
Qed.

Lemma parse_int_digits (s : list ascii) :
  Forall (λ c, is_digit c = true) s → parse_int s = parse_unsigned s.
Proof.
  intros Hs. unfold parse_int. destruct s as [|c s]; [done|].
  destruct (decide (c = "-"%char)) as [->|Hc]; [|by repeat case_match].
  by inversion Hs.
Qed.

(** ** Calls a program is made of *)

Lemma same_files_refl k : same_files k k.
Proof. by repeat split. Qed.

Lemma same_files_trans k1 k2 k3 :
  same_files k1 k2 → same_files k2 k3 → same_files k1 k3.
Proof. unfold same_files. intros ? ?. intuition congruence. Qed.

Lemma calls_only_bind {A B} P (prg : prog A) (f : A → prog B) :
  calls_only P prg → (∀ a, calls_only P (f a)) → calls_only P (prg ≫= f).
Proof.
  intros Hp Hf. induction Hp as [a|status| |c cont Hc _ IH]; prog_norm.
  - apply Hf.
  - constructor.
  - constructor.
  - by constructor.
Qed.

Lemma calls_only_perform P (c : call) :
  P c = true → calls_only P (perform c).
Proof. intros Hc. constructor; [done | constructor]. Qed.

Lemma dispatch_fs_neutral k pid p c :
  fs_neutral c = true →
  match dispatch k pid p c with
  | Returns k' _ => same_files k k'
  | Forks k' _ => same_files k k'
  | Sleeps => True
  end.
Proof.
  intros Hc. destruct c; try discriminate Hc; simpl; unfold returns.
  - unfold sys_fork. destruct (_ <? _)%nat; by repeat split.
  - by repeat split.
  - unfold sys_setsid. case_decide; by repeat split.
  - unfold sys_chdir. case_decide; by repeat split.
  - unfold sys_close. case_match; by repeat split.
  - unfold sys_stat. case_match; by repeat split.
  - unfold sys_fcntl. repeat case_match; simplify_eq; by repeat split.
  - by repeat split.
  - unfold sys_close. case_match; by repeat split.
  - unfold sys_mk_print. case_match; by repeat split.
Qed.

(** Such a program leaves the file system as it finds it, in the caller
    and in every process it forks. *)
Lemma run_fs_neutral {A} (prg : prog A) :
  calls_only fs_neutral prg →
  ∀ k pid, same_files k (r_kernel (run k pid prg)).
Proof.
  induction 1 as [a|status| |c cont Hc _ IH]; intros k pid; simpl.
  - apply same_files_refl.
  - by repeat split.
  - apply same_files_refl.
  - unfold syscall. destruct (k_procs k !! pid) as [p|]; [|apply same_files_refl].
    pose proof (dispatch_fs_neutral k pid p c Hc) as Hd.
    destruct (dispatch k pid p c) as [k' r|k' child|]; kernel_norm.
    + eapply same_files_trans; [exact Hd | apply IH].
    + eapply same_files_trans; [exact Hd|].
      eapply same_files_trans; apply IH.
    + apply same_files_refl.
Qed.

Lemma set_daemon_fs_neutral : calls_only fs_neutral mk_utils_set_daemon.
Proof.
  unfold mk_utils_set_daemon.
  repeat first
    [ apply calls_only_bind
    | apply calls_only_perform; reflexivity
    | constructor
    | intros ?
    | case_match ].
Qed.

Lemma daemon_child_never_waits : never_waits daemon_child.
Proof.
  unfold daemon_child.
  repeat first
    [ apply never_waits_bind
    | apply never_waits_perform; reflexivity
    | constructor
    | intros ?
    | case_match ].
Qed.

(** [mk_utils_set_daemon] followed by [f], where a process can be made:
    the caller ends, and its child goes through [daemon_child] and on
    to [f]. *)
Lemma set_daemon_fork {B} (f : Z → prog B) (k : kernel) (pid : positive)
    (p : proc) :
  k_procs k !! pid = Some p →
  (size (k_procs k) < k_maxproc k)%nat →
  let child := fresh_pid k in
  let k1 := sys_exit (set_proc child p k) pid EXIT_SUCCESS in
  run k pid (mk_utils_set_daemon ≫= f)
  = after (pid, (c_fork, Z.pos child))
      (followed_by (finish k1 pid (Exited EXIT_SUCCESS))
         (run k1 child (daemon_child ≫= f))) ∧
  k_procs k1 !! child = Some p ∧
  child ≠ pid ∧ p_pgid p ≠ child.
Proof.
  intros Hp Hroom child k1.
  destruct (fresh_pid_spec k pid p Hp) as (Hne & Hpg & Hsid & Hnew).
  fold child in Hne, Hpg, Hsid, Hnew.
  split; [|split; [|done]].
  - unfold mk_utils_set_daemon. prog_norm.
    rewrite (run_fork_ok k pid p Hp) by done.
    fold child. cbv zeta.
    change (Z.pos child <? 0) with false.
    change (Z.pos child >? 0) with true.
    change (0 <? 0) with false. change (0 >? 0) with false.
    prog_norm. by rewrite run_exit.
  - unfold k1, sys_exit. kernel_norm.
    by rewrite lookup_delete_ne, lookup_insert_eq.
Qed.

Lemma lock_release_lookup ino pid locks i h :
  lock_release ino pid locks !! i = Some h → locks !! i = Some h.
Proof.
  unfold lock_release. destruct (locks !! ino) as [owner|]; [|done].
  case_decide; [|done]. intros Hl. by apply lookup_delete_Some in Hl as [_ ?].
Qed.

(** What [close] does to the caller's descriptors and to the rest of the
    state. *)
Lemma sys_close_state k pid p fd :
  k_procs k !! pid = Some p →
  let k' := (sys_close k pid p fd).1 in
  ∃ q, k_procs k' = <[pid := q]> (k_procs k) ∧
       (∀ fd', fd_lookup q fd'
               = if decide (fd' = fd) then None else fd_lookup p fd') ∧
       p_pgid q = p_pgid p ∧ p_sid q = p_sid p ∧ p_cwd q = p_cwd p ∧
       p_umask q = p_umask p ∧ p_root q = p_root p ∧
       k_status k' = k_status k ∧ k_console k' = k_console k ∧
       (∀ i h, k_locks k' !! i = Some h → k_locks k !! i = Some h).
Proof.
  intros Hp k'. subst k'. unfold sys_close.
  destruct (fd_lookup p fd) as [f|] eqn:Hfd.
  - eexists. split; [done|]. kernel_norm. split.
    + intros fd'. rewrite fd_lookup_with_fds. unfold fd_lookup in *.
      destruct (fd <? 0) eqn:Hneg; [done|]. apply Z.ltb_ge in Hneg.
      assert (Z.to_nat fd < length (p_fds p))%nat as Hlen.
      { apply lookup_lt_is_Some.
        destruct (p_fds p !! Z.to_nat fd); [eauto|done]. }
      unfold fd_clear. destruct (fd' <? 0) eqn:Hneg'.
      * by case_decide.
      * apply Z.ltb_ge in Hneg'. case_decide as Heq.
        -- subst fd'. by rewrite list_lookup_insert_eq.
        -- rewrite list_lookup_insert_ne; [done|lia].
    + repeat split; try done. intros i h. apply lock_release_lookup.
  - exists p. simpl. rewrite insert_id by done.
    repeat split; try done. intros fd'. case_decide; by simplify_eq.
Qed.

(** The child's part, where the root directory can be entered. *)
Lemma daemon_child_run (k : kernel) (pid : positive) (p : proc) :
  k_procs k !! pid = Some p →
  p_pgid p ≠ pid →
  "/" ∈ k_dirs k →
  let r := run k pid daemon_child in
  r_outs r = [(pid, Returned 0)] ∧
  (r_trace r).*1 = replicate 6 pid ∧
  (r_trace r).*2.*1 = [c_umask 0; c_setsid; c_chdir "/";
                       c_mk_print MK_INFO "Background mode ON";
                       c_fclose stderr; c_fclose stdout] ∧
  k_status (r_kernel r) = k_status k ∧
  k_console (r_kernel r)
  = k_console k ++ (match fd_lookup p STDOUT_FILENO with
                    | Some _ => [(pid, MK_INFO, "Background mode ON")]
                    | None => []
                    end) ∧
  (∀ i h, k_locks (r_kernel r) !! i = Some h → k_locks k !! i = Some h) ∧
  ∃ q, k_procs (r_kernel r) = <[pid := q]> (k_procs k) ∧
       (∀ fd, fd_lookup q fd
              = if decide (fd = STDOUT_FILENO ∨ fd = STDERR_FILENO)
                then None else fd_lookup p fd) ∧
       p_pgid q = pid ∧ p_sid q = pid ∧ p_cwd q = "/" ∧ p_umask q = 0 ∧
       p_root q = p_root p.
Proof.
  intros Hp Hpg Hroot r.
  remember r as r' eqn:Hr. unfold r, daemon_child in Hr. clear r.
  prog_norm in Hr.
  rewrite (run_umask k pid p Hp) in Hr.
  erewrite run_setsid_ok in Hr; [|apply set_proc_alive|done].
  erewrite run_chdir_ok in Hr; [|apply set_proc_alive|done].
  change (0 <? 0) with false in Hr. prog_norm in Hr.
  erewrite run_mk_print in Hr by apply set_proc_alive.
  match type of Hr with
  | context [sys_mk_print ?k0 ?c ?q ?t ?m] =>
      pose proof (sys_mk_print_proc k0 c q t m) as (Hprocs & Hstat & _ & Hcons);
      assert (k_locks (sys_mk_print k0 c q t m).1 = k_locks k) as Hlocks
        by (unfold sys_mk_print; by case_match);
      set (k2 := (sys_mk_print k0 c q t m).1) in *
  end.
  kernel_norm in Hprocs. kernel_norm in Hstat. kernel_norm in Hcons.
  rewrite !insert_insert_eq in Hprocs.
  match type of Hprocs with _ = <[_ := ?q]> _ => set (q3 := q) in * end.
  assert (k_procs k2 !! pid = Some q3) as Hp2
    by (rewrite Hprocs; apply lookup_insert_eq).
  rewrite (run_fclose k2 pid q3 Hp2) in Hr.
  destruct (sys_close_state k2 pid q3 (fileno stderr) Hp2)
    as (q4 & Hq4 & Hfd4 & Hg4 & Hs4 & Hc4 & Hu4 & Hr4 & Hst4 & Hco4 & Hl4).
  set (k3 := (sys_close k2 pid q3 (fileno stderr)).1) in *.
  assert (k_procs k3 !! pid = Some q4) as Hp3
    by (rewrite Hq4; apply lookup_insert_eq).
  rewrite (run_fclose k3 pid q4 Hp3) in Hr.
  destruct (sys_close_state k3 pid q4 (fileno stdout) Hp3)
    as (q5 & Hq5 & Hfd5 & Hg5 & Hs5 & Hc5 & Hu5 & Hr5 & Hst5 & Hco5 & Hl5).
  set (k4 := (sys_close k3 pid q4 (fileno stdout)).1) in *.
  rewrite run_ret in Hr. subst r'. kernel_norm.
  split; [done|]. split; [done|]. split; [done|].
  split; [congruence|]. split; [by rewrite Hco5, Hco4, Hcons|]. split.
  { intros i h H. rewrite <- Hlocks. by apply Hl4, Hl5. }
  exists q5. split; [by rewrite Hq5, Hq4, Hprocs, !insert_insert_eq|].
  split.
  - intros fd. rewrite Hfd5, Hfd4. unfold fileno, STDOUT_FILENO, STDERR_FILENO.
    repeat case_decide; try done; lia.
  - rewrite Hg5, Hg4, Hs5, Hs4, Hc5, Hc4, Hu5, Hu4, Hr5, Hr4. done.
Qed.

Lemma set_daemon_fork_plain (k : kernel) (pid : positive) (p : proc) :
  k_procs k !! pid = Some p →
  (size (k_procs k) < k_maxproc k)%nat →
  let child := fresh_pid k in
  let k1 := sys_exit (set_proc child p k) pid EXIT_SUCCESS in
  run k pid mk_utils_set_daemon
  = after (pid, (c_fork, Z.pos child))
      (followed_by (finish k1 pid (Exited EXIT_SUCCESS))
         (run k1 child daemon_child)).
Proof.
  intros Hp Hroom child k1.
  unfold mk_utils_set_daemon. prog_norm.
  rewrite (run_fork_ok k pid p Hp) by done.
  fold child. cbv zeta.
  change (Z.pos child <? 0) with false.
  change (Z.pos child >? 0) with true.
  change (0 <? 0) with false. change (0 >? 0) with false.
  prog_norm. by rewrite run_exit.
Qed.

Lemma daemon_child_fs_neutral : calls_only fs_neutral daemon_child.
Proof.
  unfold daemon_child.
  repeat first
    [ apply calls_only_bind
    | apply calls_only_perform; reflexivity
    | constructor
    | intros ?
    | case_match ].
Qed.

Lemma Forall_made_by {E} (t : list (positive * E)) (n : nat) (pid : positive) :
  t.*1 = replicate n pid → Forall (λ e, e.1 = pid) t.
Proof.
  intros H. assert (Forall (λ a, a = pid) t.*1) as Hall
    by (rewrite H; by apply Forall_replicate).
  by apply Forall_fmap in Hall.
Qed.

(** The events of a play and of a run are calls of the program. *)
Lemma play_calls_only {A} P (prg : prog A) :
  calls_only P prg →
  ∀ answers, Forall (λ e : event, P e.1 = true) (play prg answers).1.
Proof.
  induction 1 as [a|status| |c cont Hc _ IH]; intros answers; simpl;
    try by constructor.
  destruct answers as [|r answers]; [by constructor|].
  simpl. constructor; [done | apply IH].
Qed.

Lemma run_calls_only {A} P (prg : prog A) :
  calls_only P prg →
  ∀ k pid, Forall (λ e : positive * event, P e.2.1 = true)
             (r_trace (run k pid prg)).
Proof.
  induction 1 as [a|status| |c cont Hc _ IH]; intros k pid; simpl;
    try by constructor.
  destruct (syscall k pid c) as [k' r|k' child|]; kernel_norm.
  - constructor; [done | apply IH].
  - constructor; [done|]. apply Forall_app. split; apply IH.
  - by constructor.
Qed.

Lemma calls_only_defined {A} P (o : option A) : calls_only P (defined o).
Proof. destruct o; constructor. Qed.

Lemma register_pid_names_only (path : string) :
  calls_only (names_only path) (mk_utils_register_pid path).
Proof.
  unfold mk_utils_register_pid.
  repeat first
    [ apply calls_only_bind
    | apply calls_only_perform; unfold names_only;
        first [reflexivity | by apply bool_decide_eq_true_2]
    | unfold names_only; by apply bool_decide_eq_true_2
    | apply calls_only_defined
    | constructor
    | intros ?
    | case_match ].
Qed.

Lemma remove_pid_names_only (path : string) :
  calls_only (names_only path) (mk_utils_remove_pid path).
Proof.
  unfold mk_utils_remove_pid.
  repeat first
    [ apply calls_only_bind
    | apply calls_only_perform; unfold names_only;
        first [reflexivity | by apply bool_decide_eq_true_2]
    | unfold names_only; by apply bool_decide_eq_true_2
    | constructor
    | intros ?
    | case_match ].
Qed.

(** ** Fields of fixed width *)

Lemma parse_unsigned_zeros (n : nat) (s : list ascii) :
  parse_unsigned (replicate n "0"%char ++ s) = parse_unsigned s.
Proof.
  rewrite parse_unsigned_app.
  assert (parse_unsigned (replicate n "0"%char) = 0) as ->; [|lia].
  induction n as [|n IH]; [done|].
  change (replicate (S n) "0"%char) with (["0"%char] ++ replicate n "0"%char).
  rewrite parse_unsigned_app, IH. done.
Qed.

(** ["%02i"] of a number below 100: two digits that read back as it. *)
Lemma fmt_int_zero_two (v : Z) :
  0 <= v <= 99 →
  ∃ c d, fmt_int_zero 2 v = [c; d] ∧ parse_int [c; d] = v.
Proof.
  intros Hv. unfold fmt_int_zero. rewrite (proj2 (Z.ltb_ge v 0)) by lia.
  pose proof (fmt_unsigned_nonempty v) as Hne.
  pose proof (fmt_unsigned_length_le 2 v) as Hle.
  pose proof (fmt_unsigned_digits v) as Hd.
  pose proof (parse_fmt_unsigned v) as Hparse.
  assert (Forall (λ c, is_digit c = true) (pad_left "0" 2 (fmt_unsigned v)))
    as Hall.
  { apply Forall_app. split; [by apply Forall_replicate | done]. }
  assert (parse_int (pad_left "0" 2 (fmt_unsigned v)) = v) as Hback.
  { rewrite parse_int_digits by done. unfold pad_left.
    rewrite parse_unsigned_zeros. apply Hparse. lia. }
  revert Hall Hback. unfold pad_left.
  destruct (fmt_unsigned v) as [|c [|d [|e s]]]; simpl in *; try lia; eauto.
Qed.

(** ["%i"] of a year of four digits. *)
Lemma fmt_int_year (y : Z) :
  1000 <= y <= 9999 →
  ∃ a b c d, fmt_int y = [a; b; c; d] ∧ parse_int [a; b; c; d] = y.
Proof.
  intros Hy. pose proof (parse_fmt_int y) as Hparse. revert Hparse.
  unfold fmt_int. rewrite (proj2 (Z.ltb_ge y 0)) by lia.
  pose proof (fmt_unsigned_length_le 4 y) as Hle.
  pose proof (fmt_unsigned_length_ge 3 y) as Hge.
  change (Z.of_nat 4) with 4 in Hle. change (Z.of_nat 3) with 3 in Hge.
  destruct (fmt_unsigned y) as [|a [|b [|c [|d [|e s]]]]]; simpl in *;
    try lia; eauto 10.
Qed.

(** ** The line of [mk_print] off a terminal *)

Lemma int_add_small (a b : Z) :
  INT_MIN <= a + b <= INT_MAX → int_add a b = Some (a + b).
Proof.
  intros H. unfold int_add.
  rewrite (proj2 (Z.leb_le _ _)), (proj2 (Z.leb_le _ _)) by lia. done.
Qed.

(** The characters of the line, one name per digit of the time. *)
Lemma mk_print_plain_line (a : ansi) (t : tm) (type : msg_type)
    (body : list ascii) :
  calendar t →
  ∃ y1 y2 y3 y4 m1 m2 d1 d2 h1 h2 n1 n2 s1 s2,
    mk_print_text a false (Some t) type body
    = Some (["["%char; y1; y2; y3; y4; "/"%char; m1; m2; "/"%char; d1; d2;
             " "%char; h1; h2; ":"%char; n1; n2; ":"%char; s1; s2;
             "]"%char; " "%char; "["%char]
            ++ pad_left " " 7 (header_title type)
            ++ ["]"%char; " "%char] ++ body ++ chars newline) ∧
    parse_int [y1; y2; y3; y4] = tm_year t + 1900 ∧
    parse_int [m1; m2] = tm_mon t + 1 ∧
    parse_int [d1; d2] = tm_mday t ∧
    parse_int [h1; h2] = tm_hour t ∧
    parse_int [n1; n2] = tm_min t ∧
    parse_int [s1; s2] = tm_sec t.
Proof.
  intros (Hs & Hn & Hh & Hd & Hm & Hy).
  destruct (fmt_int_year (tm_year t + 1900)) as (y1 & y2 & y3 & y4 & HY & ?);
    [done|].
  destruct (fmt_int_zero_two (tm_mon t + 1)) as (m1 & m2 & HM & ?); [lia|].
  destruct (fmt_int_zero_two (tm_mday t)) as (d1 & d2 & HD & ?); [lia|].
  destruct (fmt_int_zero_two (tm_hour t)) as (h1 & h2 & HH & ?); [lia|].
  destruct (fmt_int_zero_two (tm_min t)) as (n1 & n2 & HN & ?); [lia|].
  destruct (fmt_int_zero_two (tm_sec t)) as (s1 & s2 & HS & ?); [lia|].
  exists y1, y2, y3, y4, m1, m2, d1, d2, h1, h2, n1, n2, s1, s2.
  split; [|done].
  unfold mk_print_text. cbn [negb mbind option_bind].
  rewrite !int_add_small by (unfold INT_MIN, INT_MAX; lia).
  cbn [mbind option_bind]. by rewrite HY, HM, HD, HH, HN, HS.
Qed.

Lemma header_title_width (type : msg_type) :
  length (pad_left " " 7 (header_title type)) = 7%nat.
Proof. by destruct type. Qed.

Lemma header_title_inj (type type' : msg_type) :
  header_title type = header_title type' → type = type'.
Proof. by destruct type, type'. Qed.

(** ** [strstr] *)

Lemma strstr_Some (haystack needle : list ascii) (i : nat) :
  strstr haystack needle = Some i →
  ∃ pre post, haystack = pre ++ needle ++ post ∧ length pre = i.
Proof.
  revert i. induction haystack as [|c rest IH]; intros i; simpl;
    case_decide as Hpre.
  - intros [= <-]. destruct Hpre as [post ->]. by exists [], post.
  - done.
  - intros [= <-]. destruct Hpre as [post ->]. by exists [], post.
  - destruct (strstr rest needle) as [j|]; [|done]. intros [= <-].
    destruct (IH j eq_refl) as (pre & post & -> & <-).
    by exists (c :: pre), post.
Qed.

Lemma strstr_None (haystack needle : list ascii) :
  strstr haystack needle = None →
  ¬ ∃ pre post, haystack = pre ++ needle ++ post.
Proof.
  induction haystack as [|c rest IH]; simpl; case_decide as Hpre; try done.
  - intros _ (pre & post & Heq). apply Hpre. exists post.
    symmetry in Heq. apply app_eq_nil in Heq as [-> Heq]. by rewrite Heq.
  - destruct (strstr rest needle) as [j|] eqn:Hrest; [done|]. intros _.
    intros (pre & post & Heq). destruct pre as [|c' pre].
    + apply Hpre. exists post. by rewrite Heq.
    + apply IH; [done|]. exists pre, post. by simplify_eq/=.
Qed.

(** The colour of the component. *)
Lemma trace_colors_component (a : ansi) (bg : list ascii)
    (color : trace_color) :
  color ≠ trace_other →
  ∃ c c2 c3, trace_colors a bg color = (Some c, Some c2, Some c3) ∧
             (c = ANSI_BOLD_GREEN a ∨ c = ANSI_BOLD_BLUE a).
Proof.
  intros Hc. unfold trace_colors. case_decide; destruct color; try done;
    eauto 10.
Qed.

(** The line off a terminal: of the escape sequences, the colour of the
    component alone is left. *)
Lemma trace_plain_text (a : ansi) (env_trace_filter : option (list ascii))
    (mk_core_init_time : Z) (background : option (list ascii))
    (tv_sec tv_usec : Z) (component : list ascii) (color : trace_color)
    (function file : list ascii) (line : Z) (body : list ascii) :
  (∀ filter, env_trace_filter = Some filter →
             ∃ pre post, filter = pre ++ file ++ post) →
  color ≠ trace_other →
  0 <= tv_sec - mk_core_init_time → 0 <= tv_usec →
  ∃ c, (trace_colors a (default (chars "dark") background) color).1.1
       = Some c ∧
       (c = ANSI_BOLD_GREEN a ∨ c = ANSI_BOLD_BLUE a) ∧
       mk_utils_trace_text a env_trace_filter mk_core_init_time background
         false tv_sec tv_usec component color function file line body
       = Some ((chars "~ "
                ++ pad_left " " 2 (fmt_unsigned (tv_sec - mk_core_init_time))
                ++ chars "." ++ fmt_unsigned tv_usec ++ chars " [")
               ++ c
               ++ (component ++ chars "|" ++ file ++ chars ":"
                   ++ pad_right " " 3 (fmt_int line) ++ chars "] "
                   ++ function ++ chars "() " ++ body ++ chars newline)).
Proof.
  intros Hfilter Hcolor Hsec Husec.
  destruct (trace_colors_component a (default (chars "dark") background)
              color Hcolor) as (c & c2 & c3 & Hc & Hwhich).
  exists c. split; [by rewrite Hc|]. split; [done|].
  unfold mk_utils_trace_text.
  assert (match env_trace_filter with
          | Some filter =>
              match strstr filter file with None => true | Some _ => false end
          | None => false
          end = false) as ->.
  { destruct env_trace_filter as [filter|]; [|done].
    destruct (strstr filter file) eqn:Hs; [done|].
    apply strstr_None in Hs. destruct Hs. by apply Hfilter. }
  rewrite Hc. cbn [negb]. unfold fmt_lu.
  rewrite !(proj2 (Z.ltb_ge _ 0)) by lia. cbn [mbind option_bind].
  f_equal. rewrite !app_nil_l, <- !app_assoc. done.
Qed.

(** ** Threads *)

Lemma fresh_tid_new (st : threads) (t : thread) :
  t ∈ t_live st → th_id t < fresh_tid st.
Proof.
  unfold fresh_tid. induction (t_live st) as [|u l IH]; intros Hin.
  - by apply elem_of_nil in Hin.
  - rewrite fmap_cons. cbn [foldr].
    apply elem_of_cons in Hin as [->|Hin]; [lia|].
    specialize (IH Hin). lia.
Qed.

(** ** Identifiers in use *)

Lemma ids_insert (f : proc → positive) (m : gmap positive proc)
    (pid : positive) (p p' : proc) :
  m !! pid = Some p → f p' = f p →
  list_to_set (f <$> (map_to_list (<[pid := p']> m)).*2)
  =@{gset positive} list_to_set (f <$> (map_to_list m).*2).
Proof.
  intros Hp Hf. apply set_eq. intros x.
  rewrite !elem_of_list_to_set, !list_elem_of_fmap. split.
  - intros (q & -> & Hq). apply list_elem_of_fmap in Hq as ([i q'] & -> & Hq).
    apply elem_of_map_to_list in Hq. simpl.
    destruct (decide (i = pid)) as [->|Hne].
    + rewrite lookup_insert_eq in Hq. simplify_eq. exists p.
      split; [done|]. apply list_elem_of_fmap. exists (pid, p).
      split; [done|]. by apply elem_of_map_to_list.
    + rewrite lookup_insert_ne in Hq by done. exists q'.
      split; [done|]. apply list_elem_of_fmap. exists (i, q').
      split; [done|]. by apply elem_of_map_to_list.
  - intros (q & -> & Hq). apply list_elem_of_fmap in Hq as ([i q'] & -> & Hq).
    apply elem_of_map_to_list in Hq. simpl.
    destruct (decide (i = pid)) as [->|Hne].
    + simplify_eq. exists p'.
      split; [done|]. apply list_elem_of_fmap. exists (pid, p').
      split; [done|]. apply elem_of_map_to_list, lookup_insert_eq.
    + exists q'. split; [done|]. apply list_elem_of_fmap. exists (i, q').
      split; [done|]. apply elem_of_map_to_list.
      by rewrite lookup_insert_ne.
Qed.

(** A process changed in place, in the same group and session: the
    identifiers in use are the same. *)
Lemma used_ids_insert (k k' : kernel) (pid : positive) (p p' : proc) :
  k_procs k !! pid = Some p →
  k_procs k' = <[pid := p']> (k_procs k) →
  k_status k' = k_status k →
  p_pgid p' = p_pgid p → p_sid p' = p_sid p →
  used_ids k' = used_ids k.
Proof.
  intros Hp Hprocs Hst Hg Hs. unfold used_ids. rewrite Hprocs, Hst.
  rewrite (ids_insert p_pgid _ pid p p'), (ids_insert p_sid _ pid p p') by done.
  rewrite dom_insert_L.
  assert (pid ∈ dom (k_procs k)) by (apply elem_of_dom; eauto).
  do 3 f_equal. apply subseteq_union_1_L. by apply singleton_subseteq_l.
Qed.

(** ** The specification, statement by statement *)

(** C1.  On every run of [mk_utils_register_pid] that succeeds as in C3,
    the lock is granted on a descriptor that the function closes as its
    last call: when it returns, the caller is still running, that
    descriptor is closed and no process holds a lock on the file. *)
Theorem register_pid_lock_not_kept (k : kernel) (pid : positive) (p : proc)
    (path : string) :
  k_procs k !! pid = Some p →
  k_names k !! path = None →
  path ∉ k_frozen k →
  (length (fmt_int (Z.pos pid)) ≤ k_free k)%nat →
  Z.pos pid < 10 ^ 9 →
  let r := run k pid (mk_utils_register_pid path) in
  let fd := Z.of_nat (fd_alloc (p_fds p)
                        {| o_ino := fresh_ino k; o_flags := register_flags;
                           o_pos := 0 |}).1 in
  r_outs r = [(pid, Returned 0)] ∧
  (pid, (c_fcntl fd F_SETLK register_lock, 0)) ∈ r_trace r ∧
  last (r_trace r) = Some (pid, (c_close fd, 0)) ∧
  (∃ p', k_procs (r_kernel r) !! pid = Some p' ∧ fd_lookup p' fd = None) ∧
  is_Some (file_at (r_kernel r) path) ∧
  lock_holder (r_kernel r) path = None.
Proof.
  intros Hp Hname Hfrozen Hroom Hpid r fd.
  destruct (register_pid_fresh k pid p path Hp Hname Hfrozen Hroom Hpid)
    as (Ho & Ht & Hn & Hi & Hl & _ & p' & Hprocs & Hfd).
  fold r in Ho, Ht, Hn, Hi, Hl, Hprocs. fold fd in Ht, Hfd.
  destruct (fresh_ino_spec k) as [_ Hfree].
  repeat split.
  - done.
  - rewrite Ht. apply list_elem_of_In. simpl. tauto.
  - by rewrite Ht.
  - exists p'. by rewrite Hprocs, lookup_insert_eq.
  - unfold file_at. rewrite Hn, Hi, lookup_insert_eq. simpl.
    by rewrite lookup_insert_eq.
  - unfold lock_holder. rewrite Hn, Hl, lookup_insert_eq. simpl. done.
Qed.

Lemma register_pid_lock_not_kept_at_boot :
  let r := run boot 100 (mk_utils_register_pid pid_path) in
  r_outs r = [(100%positive, Returned 0)] ∧
  last (r_trace r) = Some (100%positive, (c_close 3, 0)) ∧
  lock_holder (r_kernel r) pid_path = None.
Proof.
  destruct (register_pid_lock_not_kept boot 100 server pid_path)
    as (Ho & _ & Hc & _ & _ & Hl); [reflexivity | reflexivity | compute_done
                                   | vm_compute; lia | lia |].
  split; [exact Ho | split; [exact Hc | exact Hl]].
Defined.

(** C2.  A second [mk_utils_register_pid] on the same path, while the
    first caller runs on, is not stopped at the lock: it removes the
    first caller's file, is granted the lock on the file it creates in
    its place, and returns 0.  This is so after the first call as the
    code makes it ([boot]), and also from a state in which the first
    caller still has its descriptor open and its lock in place
    ([held_boot]). *)
Theorem second_register_pid_not_refused :
  let r1 := run boot 100 (mk_utils_register_pid pid_path) in
  let r2 := run (r_kernel r1) 200 (mk_utils_register_pid pid_path) in
  let r3 := run held_boot 200 (mk_utils_register_pid pid_path) in
  (r_outs r1 = [(100%positive, Returned 0)] ∧
   is_Some (k_procs (r_kernel r1) !! 100%positive) ∧
   i_data <$> file_at (r_kernel r1) pid_path = Some (fmt_int 100)) ∧
  (r_outs r2 = [(200%positive, Returned 0)] ∧
   (r_trace r2).*2
   = [(c_stat pid_path, 0); (c_unlink pid_path, 0);
      (c_open pid_path register_flags MODE_0444, 3);
      (c_fcntl 3 F_SETLK register_lock, 0); (c_getpid, 200);
      (c_write 3 (fmt_int 200), 3); (c_close 3, 0)] ∧
   is_Some (k_procs (r_kernel r2) !! 100%positive) ∧
   i_data <$> file_at (r_kernel r2) pid_path = Some (fmt_int 200)) ∧
  (lock_holder held_boot pid_path = Some 100%positive ∧
   r_outs r3 = [(200%positive, Returned 0)] ∧
   (c_fcntl 3 F_SETLK register_lock, 0) ∈ (r_trace r3).*2 ∧
   k_locks (r_kernel r3) !! 1%nat = Some 100%positive ∧
   i_data <$> file_at (r_kernel r3) pid_path = Some (fmt_int 200)).
Proof.
  vm_compute. repeat split; try done; try by eexists.
  apply list_elem_of_In. simpl. tauto.
Qed.

(** C3.  Where no file exists at [path], the entry can be created, the
    file system has room for the text and the identifier of the caller
    has at most nine digits, [mk_utils_register_pid] returns 0 and leaves
    at [path] a file made by an [open] with mode 0444, whose permission
    bits are those of 0444 that the caller's mask lets through (all of
    them when the mask hides no read bit) and whose contents are the
    decimal digits of the caller's identifier and nothing else. *)
Theorem register_pid_creates_file (k : kernel) (pid : positive) (p : proc)
    (path : string) :
  k_procs k !! pid = Some p →
  k_names k !! path = None →
  path ∉ k_frozen k →
  (length (fmt_int (Z.pos pid)) ≤ k_free k)%nat →
  Z.pos pid < 10 ^ 9 →
  let r := run k pid (mk_utils_register_pid path) in
  let text := fmt_int (Z.pos pid) in
  r_outs r = [(pid, Returned 0)] ∧
  (∃ fd, (pid, (c_open path register_flags MODE_0444, fd)) ∈ r_trace r) ∧
  file_at (r_kernel r) path
  = Some {| i_mode := create_mode MODE_0444 (p_umask p); i_data := text |} ∧
  (Z.land (p_umask p) MODE_0444 = 0 →
   create_mode MODE_0444 (p_umask p) = MODE_0444) ∧
  parse_int text = Z.pos pid ∧
  Forall (λ c, is_digit c = true) text.
Proof.
  intros Hp Hname Hfrozen Hroom Hpid r text.
  destruct (register_pid_fresh k pid p path Hp Hname Hfrozen Hroom Hpid)
    as (Ho & Ht & Hn & Hi & _).
  fold r in Ho, Ht, Hn, Hi. fold text in Hi.
  repeat split.
  - done.
  - eexists. rewrite Ht. apply list_elem_of_In. simpl. eauto.
  - unfold file_at. rewrite Hn, Hi, lookup_insert_eq. simpl.
    by rewrite lookup_insert_eq.
  - apply create_mode_unmasked.
  - apply parse_fmt_int.
  - apply fmt_int_pos_digits.
Qed.

Lemma register_pid_creates_file_at_boot :
  let r := run boot 100 (mk_utils_register_pid pid_path) in
  r_outs r = [(100%positive, Returned 0)] ∧
  file_at (r_kernel r) pid_path
  = Some {| i_mode := MODE_0444; i_data := fmt_int 100 |}.
Proof.
  destruct (register_pid_creates_file boot 100 server pid_path)
    as (Ho & _ & Hf & _); [reflexivity | reflexivity | compute_done
                          | vm_compute; lia | lia |].
  split; [exact Ho | exact Hf].
Defined.

(** C4.  Where a file exists at [path]: if its entry cannot be removed,
    [mk_utils_register_pid] logs an error and the process ends with
    [EXIT_FAILURE]; otherwise the file is unlinked and the rest of the
    run, the outcome and the final state are those of the run that
    starts with no file at [path].  Whatever the old file contains, the
    calls made, the values they return and the outcome are the same. *)
Theorem register_pid_replaces_stale (k : kernel) (pid : positive) (p : proc)
    (path : string) (ino : nat) :
  k_procs k !! pid = Some p →
  k_names k !! path = Some ino →
  let r := run k pid (mk_utils_register_pid path) in
  (path ∈ k_frozen k →
   r_trace r
   = [(pid, (c_stat path, 0)); (pid, (c_unlink path, -1));
      (pid, (c_mk_print MK_ERR "Could not remove old PID-file path", 0))] ∧
   r_outs r = [(pid, Exited EXIT_FAILURE)] ∧
   k_status (r_kernel r) !! pid = Some EXIT_FAILURE) ∧
  (path ∉ k_frozen k →
   let k0 := set_names (delete path (k_names k)) k in
   let r0 := run k0 pid (mk_utils_register_pid path) in
   k_names k0 !! path = None ∧
   head (r_trace r0) = Some (pid, (c_stat path, -1)) ∧
   r_trace r = (pid, (c_stat path, 0)) :: (pid, (c_unlink path, 0))
               :: tail (r_trace r0) ∧
   r_outs r = r_outs r0 ∧
   r_kernel r = r_kernel r0) ∧
  (∀ d : list ascii,
   let k' := set_inodes (alter (with_data d) ino (k_inodes k)) k in
   let r' := run k' pid (mk_utils_register_pid path) in
   r_trace r' = r_trace r ∧ r_outs r' = r_outs r).
Proof.
  intros Hp Hname r. split; [|split].
  - intros Hfrozen.
    destruct (register_pid_stale_frozen k pid p path ino Hp Hname Hfrozen)
      as (Ht & Ho & _ & Hs & _).
    done.
  - intros Hfrozen.
    apply (register_pid_stale_removed k pid p path ino Hp Hname Hfrozen).
  - intros d k' r'.
    assert (same_but_data k k') as Hk.
    { split; [done|]. intros n. unfold k'. kernel_norm.
      destruct (decide (ino = n)) as [->|Hne].
      - rewrite lookup_alter_eq. by destruct (k_inodes k !! n); constructor.
      - rewrite lookup_alter_ne by done.
        by destruct (k_inodes k !! n); constructor. }
    destruct (run_same_but_data (mk_utils_register_pid path) k k' pid Hk)
      as (Ht & Ho & _).
    done.
Qed.

Lemma register_pid_replaces_stale_at_boot :
  r_outs (run frozen_boot 100 (mk_utils_register_pid pid_path))
  = [(100%positive, Exited EXIT_FAILURE)] ∧
  r_kernel (run stale_boot 100 (mk_utils_register_pid pid_path))
  = r_kernel (run (set_names (delete pid_path (k_names stale_boot)) stale_boot)
                100 (mk_utils_register_pid pid_path)).
Proof.
  split.
  - destruct (register_pid_replaces_stale frozen_boot 100 server pid_path 1
                eq_refl eq_refl) as (Hfail & _).
    destruct Hfail as (_ & Ho & _); [compute_done | exact Ho].
  - destruct (register_pid_replaces_stale stale_boot 100 server pid_path 1
                eq_refl eq_refl) as (_ & Hgone & _).
    destruct Hgone as (_ & _ & _ & _ & Hk); [compute_done | exact Hk].
Defined.

(** C5.  The lock is asked for with [F_SETLK].  Whatever negative value
    [fcntl] returns, the function closes the descriptor, logs an error
    and ends the process with [EXIT_FAILURE], without a second [fcntl].
    No run of the function by a live process waits.  In the model of the
    calls, an [F_SETLK] request for a lock another process holds returns
    -1 at once and changes nothing, where [F_SETLKW] would sleep. *)
Theorem register_pid_lock_nonblocking (path : string) :
  (∀ pre fd r c l rest,
     stale_step path pre → 0 <= fd → r < 0 →
     play (mk_utils_register_pid path) (pre.*2 ++ fd :: r :: c :: l :: rest)
     = (pre ++ [(c_open path register_flags MODE_0444, fd);
                (c_fcntl fd F_SETLK register_lock, r);
                (c_close fd, c);
                (c_mk_print MK_ERR
                   "Error: I cannot set the lock for the pid of monkey", l)],
        Exited EXIT_FAILURE)) ∧
  (∀ k pid,
     is_Some (k_procs k !! pid) →
     ∃ o, r_outs (run k pid (mk_utils_register_pid path)) = [(pid, o)] ∧
          o ≠ Stuck) ∧
  (∀ k pid p fd f owner,
     fd_lookup p fd = Some f → wants_write (o_flags f) = true →
     k_locks k !! o_ino f = Some owner → owner ≠ pid →
     sys_fcntl k pid p fd F_SETLK register_lock = Some (k, -1) ∧
     sys_fcntl k pid p fd F_SETLKW register_lock = None).
Proof.
  split; [|split].
  - intros pre fd r c l rest Hpre Hfd Hr. destruct Hpre; play_out.
  - intros k pid Hp.
    exact (never_waits_run _ (register_pid_never_waits path) k pid Hp).
  - intros k pid p fd f owner Hfd Hw Hl Hne. unfold sys_fcntl.
    rewrite Hfd, Hw, Hl. simpl. by case_decide.
Qed.

Lemma register_pid_lock_nonblocking_example :
  play (mk_utils_register_pid pid_path) [-1; 3; -1; 0; 0]
  = ([(c_stat pid_path, -1);
      (c_open pid_path register_flags MODE_0444, 3);
      (c_fcntl 3 F_SETLK register_lock, -1);
      (c_close 3, 0);
      (c_mk_print MK_ERR
         "Error: I cannot set the lock for the pid of monkey", 0)],
     Exited EXIT_FAILURE) ∧
  (∃ o, r_outs (run boot 100 (mk_utils_register_pid pid_path))
        = [(100%positive, o)] ∧ o ≠ Stuck) ∧
  sys_fcntl race_boot 200 rival 3 F_SETLK register_lock
  = Some (race_boot, -1).
Proof.
  destruct (register_pid_lock_nonblocking pid_path) as (Hplay & Hrun & Hsys).
  split; [|split].
  - apply (Hplay [(c_stat pid_path, -1)] 3 (-1) 0 0 []);
      [constructor; lia | lia | lia].
  - apply Hrun. by eexists.
  - apply (Hsys race_boot 200%positive rival 3
             {| o_ino := 1; o_flags := register_flags; o_pos := 0 |}
             100%positive); [reflexivity | reflexivity | reflexivity | lia].
Defined.

(** C6.  The text written is the decimal text of the value [getpid]
    returned, all of it in one [write].  If [write] returns anything but
    the length of the text, the function closes the descriptor, logs an
    error and ends the process with [EXIT_FAILURE]; if it returns the
    length, the function closes the descriptor and returns 0.  In the
    model of the calls this happens where the file system has no room
    for all of the text. *)
Theorem register_pid_write_checked (path : string) :
  (∀ (pre : list event) (fd r v n c l : Z) (rest : list Z),
     stale_step path pre → 0 <= fd → 0 <= r → - 10 ^ 8 < v < 10 ^ 9 →
     let text := fmt_int v in
     let upto := pre ++ [(c_open path register_flags MODE_0444, fd);
                         (c_fcntl fd F_SETLK register_lock, r);
                         (c_getpid, v); (c_write fd text, n)] in
     parse_int text = v ∧
     (n ≠ Z.of_nat (length text) →
      play (mk_utils_register_pid path)
        (pre.*2 ++ fd :: r :: v :: n :: c :: l :: rest)
      = (upto ++ [(c_close fd, c);
                  (c_mk_print MK_ERR
                     "Error: I cannot write the lock for the pid of monkey",
                   l)],
         Exited EXIT_FAILURE)) ∧
     (n = Z.of_nat (length text) →
      play (mk_utils_register_pid path)
        (pre.*2 ++ fd :: r :: v :: n :: c :: rest)
      = (upto ++ [(c_close fd, c)], Returned 0))) ∧
  (∀ (k : kernel) (pid : positive) (p : proc),
     k_procs k !! pid = Some p → k_names k !! path = None →
     path ∉ k_frozen k → Z.pos pid < 10 ^ 9 →
     (k_free k < length (fmt_int (Z.pos pid)))%nat →
     let r := run k pid (mk_utils_register_pid path) in
     r_outs r = [(pid, Exited EXIT_FAILURE)] ∧
     (∃ fd n,
        n ≠ Z.of_nat (length (fmt_int (Z.pos pid))) ∧
        (r_trace r).*2 !! 4%nat
        = Some (c_write fd (fmt_int (Z.pos pid)), n) ∧
        drop 5 (r_trace r).*2
        = [(c_close fd, 0);
           (c_mk_print MK_ERR
              "Error: I cannot write the lock for the pid of monkey", 0)]) ∧
     k_status (r_kernel r) !! pid = Some EXIT_FAILURE).
Proof.
  split.
  - intros pre fd r v n c l rest Hpre Hfd Hr Hv text upto.
    destruct (pidstr_text v Hv) as (buf & Hbuf & Hlen & Hread).
    fold text in Hlen, Hread.
    split; [apply parse_fmt_int|].
    assert ((fd <? 0) = false) as Hfd' by by apply Z.ltb_ge.
    assert ((r <? 0) = false) as Hr' by by apply Z.ltb_ge.
    split; intros Hn; subst upto; destruct Hpre as [r0 Hr0|u Hu];
      unfold mk_utils_register_pid; prog_norm;
      cbn [play fmap list_fmap app snd];
      rewrite ?(proj2 (Z.eqb_neq r0 0) Hr0); try change (0 =? 0) with true;
      prog_norm; cbn [play];
      rewrite ?(proj2 (Z.eqb_neq u (-1)) Hu); prog_norm; cbn [play];
      rewrite Hfd'; prog_norm; cbn [play];
      rewrite Hr'; prog_norm; cbn [play];
      rewrite Hbuf; prog_norm; rewrite Hlen; prog_norm; rewrite Hread;
      prog_norm; cbn [play];
      rewrite ?(proj2 (Z.eqb_neq n _) Hn), ?(proj2 (Z.eqb_eq n _) Hn);
      prog_norm; cbn [play record fst snd app]; done.
  - intros k pid p Hp Hname Hfrozen Hpid Hroom r.
    destruct (register_pid_short_write k pid p path Hp Hname Hfrozen Hroom Hpid)
      as (Ho & Ht & _ & Hs).
    fold r in Ho, Ht, Hs. split; [done|]. split; [|done].
    rewrite Ht. do 2 eexists. split; [|split; reflexivity].
    destruct (k_free k =? 0)%nat eqn:Hz; [lia|].
    apply Nat.eqb_neq in Hz. lia.
Qed.

Lemma register_pid_write_checked_example :
  play (mk_utils_register_pid pid_path) [-1; 3; 0; 4821; 2; 0; 0]
  = ([(c_stat pid_path, -1);
      (c_open pid_path register_flags MODE_0444, 3);
      (c_fcntl 3 F_SETLK register_lock, 0);
      (c_getpid, 4821); (c_write 3 (fmt_int 4821), 2);
      (c_close 3, 0);
      (c_mk_print MK_ERR
         "Error: I cannot write the lock for the pid of monkey", 0)],
     Exited EXIT_FAILURE) ∧
  r_outs (run full_boot 100 (mk_utils_register_pid pid_path))
  = [(100%positive, Exited EXIT_FAILURE)].
Proof.
  destruct (register_pid_write_checked pid_path) as [Hplay Hrun].
  split.
  - destruct (Hplay [(c_stat pid_path, -1)] 3 0 4821 2 0 0 [])
      as (_ & Hshort & _); [constructor; lia | lia | lia | lia |].
    apply Hshort. vm_compute. discriminate.
  - apply (Hrun full_boot 100%positive server);
      [reflexivity | reflexivity | compute_done | lia | vm_compute; lia].
Defined.

(** C7.  [mk_utils_set_daemon] calls [fork].  On a negative result it
    logs an error and ends the process with [EXIT_FAILURE]; on a positive
    one, in the parent, it ends the process with [EXIT_SUCCESS] at once.
    On 0, in the child, it calls [umask(0)], [setsid()] and [chdir("/")],
    in this order; if [chdir] fails it logs an error and ends the process
    with [EXIT_FAILURE]; otherwise it logs the one line "Background mode
    ON" as information, closes the standard error and the standard
    output, and returns 0.  Run as a process: the caller ends with
    [EXIT_FAILURE] where no process can be made; otherwise it ends with
    [EXIT_SUCCESS], and its child ends with [EXIT_FAILURE] where the root
    cannot be entered, or else returns 0 as the leader of a new session,
    at the root, with mask 0 and both streams closed. *)
Theorem set_daemon_steps :
  (∀ (pid u s c l e o : Z) (rest : list Z),
     (pid < 0 →
      play mk_utils_set_daemon (pid :: l :: rest)
      = ([(c_fork, pid);
          (c_mk_print MK_ERR
             "Error: Failed creating to switch to daemon mode(fork failed)",
           l)],
         Exited EXIT_FAILURE)) ∧
     (0 < pid →
      play mk_utils_set_daemon (pid :: rest)
      = ([(c_fork, pid)], Exited EXIT_SUCCESS)) ∧
     (pid = 0 → c < 0 →
      play mk_utils_set_daemon (pid :: u :: s :: c :: l :: rest)
      = ([(c_fork, 0); (c_umask 0, u); (c_setsid, s); (c_chdir "/", c);
          (c_mk_print MK_ERR
             "Error: Unable to unmount the inherited filesystem in the daemon process",
           l)],
         Exited EXIT_FAILURE)) ∧
     (pid = 0 → 0 <= c →
      play mk_utils_set_daemon (pid :: u :: s :: c :: l :: e :: o :: rest)
      = ([(c_fork, 0); (c_umask 0, u); (c_setsid, s); (c_chdir "/", c);
          (c_mk_print MK_INFO "Background mode ON", l);
          (c_fclose stderr, e); (c_fclose stdout, o)],
         Returned 0))) ∧
  (∀ (k : kernel) (pid : positive) (p : proc),
     k_procs k !! pid = Some p →
     let r := run k pid mk_utils_set_daemon in
     let child := fresh_pid k in
     ((k_maxproc k ≤ size (k_procs k))%nat →
      r_outs r = [(pid, Exited EXIT_FAILURE)]) ∧
     ((size (k_procs k) < k_maxproc k)%nat → "/" ∉ k_dirs k →
      r_outs r = [(pid, Exited EXIT_SUCCESS); (child, Exited EXIT_FAILURE)]) ∧
     ((size (k_procs k) < k_maxproc k)%nat → "/" ∈ k_dirs k →
      r_outs r = [(pid, Exited EXIT_SUCCESS); (child, Returned 0)] ∧
      (r_trace r).*2.*1
      = [c_fork; c_umask 0; c_setsid; c_chdir "/";
         c_mk_print MK_INFO "Background mode ON";
         c_fclose stderr; c_fclose stdout] ∧
      k_status (r_kernel r) !! pid = Some EXIT_SUCCESS ∧
      ∃ q, k_procs (r_kernel r) !! child = Some q ∧
           p_sid q = child ∧ p_cwd q = "/" ∧ p_umask q = 0 ∧
           fd_lookup q STDOUT_FILENO = None ∧
           fd_lookup q STDERR_FILENO = None)).
Proof.
  split.
  - repeat split; intros; simplify_eq; play_out.
  - intros k pid p Hp r child. split; [|split].
    + intros Hfull.
      by destruct (set_daemon_run_no_fork k pid p Hp Hfull) as (? & _).
    + intros Hroom Hroot.
      by destruct (set_daemon_run_no_chdir k pid p Hp Hroom Hroot) as (? & _).
    + intros Hroom Hroot.
      destruct (set_daemon_run k pid p Hp Hroom Hroot)
        as (Ho & Ht & _ & Hs & _ & q & Hq & Hsid & _ & Hcwd & Hmask
            & Hout & Herr).
      repeat split; try done. by exists q.
Qed.

Lemma set_daemon_steps_example :
  play mk_utils_set_daemon [-1; 0]
  = ([(c_fork, -1);
      (c_mk_print MK_ERR
         "Error: Failed creating to switch to daemon mode(fork failed)", 0)],
     Exited EXIT_FAILURE) ∧
  play mk_utils_set_daemon [201] = ([(c_fork, 201)], Exited EXIT_SUCCESS) ∧
  play mk_utils_set_daemon [0; 18; 201; 0; 0; 0; 0]
  = ([(c_fork, 0); (c_umask 0, 18); (c_setsid, 201); (c_chdir "/", 0);
      (c_mk_print MK_INFO "Background mode ON", 0);
      (c_fclose stderr, 0); (c_fclose stdout, 0)],
     Returned 0) ∧
  r_outs (run boot 100 mk_utils_set_daemon)
  = [(100%positive, Exited EXIT_SUCCESS); (fresh_pid boot, Returned 0)].
Proof.
  destruct set_daemon_steps as [Hplay Hrun].
  split; [|split; [|split]].
  - apply (Hplay (-1) 0 0 0 0 0 0 []). lia.
  - apply (Hplay 201 0 0 0 0 0 0 []). lia.
  - apply (Hplay 0 18 201 0 0 0 0 []); [reflexivity | lia].
  - apply (Hrun boot 100%positive server eq_refl);
      [vm_compute; lia | compute_done].
Defined.

(** C8.  [mk_utils_remove_pid] always returns 0 and never ends the
    process.  Where [unlink] can remove the entry, no file exists at
    [path] afterwards; where it cannot, because the entry cannot be
    removed or because there is none, a warning is logged and the names
    are left as they were.  After a [mk_utils_register_pid] that
    succeeded as in C3, [mk_utils_remove_pid] leaves no file at [path]. *)
Theorem remove_pid_unlinks (k : kernel) (pid : positive) (p : proc)
    (path : string) :
  k_procs k !! pid = Some p →
  let r := run k pid (mk_utils_remove_pid path) in
  r_outs r = [(pid, Returned 0)] ∧
  is_Some (k_procs (r_kernel r) !! pid) ∧
  (is_Some (k_names k !! path) → path ∉ k_frozen k →
   r_trace r = [(pid, (c_unlink path, 0))] ∧
   file_at (r_kernel r) path = None) ∧
  (k_names k !! path = None ∨ path ∈ k_frozen k →
   r_trace r
   = [(pid, (c_unlink path, -1));
      (pid, (c_mk_print MK_WARN ("cannot delete pidfile" +:+ newline), 0))] ∧
   k_names (r_kernel r) = k_names k) ∧
  (k_names k !! path = None → path ∉ k_frozen k →
   (length (fmt_int (Z.pos pid)) ≤ k_free k)%nat → Z.pos pid < 10 ^ 9 →
   let k1 := r_kernel (run k pid (mk_utils_register_pid path)) in
   let r1 := run k1 pid (mk_utils_remove_pid path) in
   is_Some (file_at k1 path) ∧
   r_outs r1 = [(pid, Returned 0)] ∧
   r_trace r1 = [(pid, (c_unlink path, 0))] ∧
   file_at (r_kernel r1) path = None).
Proof.
  intros Hp r.
  assert (∀ k0 p0 ino, k_procs k0 !! pid = Some p0 →
            k_names k0 !! path = Some ino → path ∉ k_frozen k0 →
            let r0 := run k0 pid (mk_utils_remove_pid path) in
            r_outs r0 = [(pid, Returned 0)] ∧
            is_Some (k_procs (r_kernel r0) !! pid) ∧
            r_trace r0 = [(pid, (c_unlink path, 0))] ∧
            file_at (r_kernel r0) path = None) as Hgone.
  { intros k0 p0 ino Hp0 Hname Hfrozen r0. subst r0.
    rewrite (remove_pid_deleted k0 pid p0 path Hp0 ino) by done.
    kernel_norm. rewrite Hp0. repeat split; [by eexists|].
    unfold file_at. kernel_norm. by rewrite lookup_delete_eq. }
  assert (k_names k !! path = None ∨ path ∈ k_frozen k →
          r_outs r = [(pid, Returned 0)] ∧
          is_Some (k_procs (r_kernel r) !! pid) ∧
          r_trace r
          = [(pid, (c_unlink path, -1));
             (pid, (c_mk_print MK_WARN ("cannot delete pidfile" +:+ newline),
                    0))] ∧
          k_names (r_kernel r) = k_names k) as Hkept.
  { intros Hfail. subst r.
    rewrite (remove_pid_failed k pid p path Hp) by done.
    kernel_norm. unfold sys_mk_print.
    destruct (fd_lookup p STDOUT_FILENO); kernel_norm; rewrite Hp;
      repeat split; by eexists. }
  assert (r_outs r = [(pid, Returned 0)] ∧
          is_Some (k_procs (r_kernel r) !! pid)) as [Ho Halive].
  { destruct (k_names k !! path) as [ino|] eqn:Hname.
    - destruct (decide (path ∈ k_frozen k)) as [Hf|Hf].
      + destruct Hkept as (? & ? & _); [by right | done].
      + destruct (Hgone k p ino Hp Hname Hf) as (? & ? & _). done.
    - destruct Hkept as (? & ? & _); [by left | done]. }
  split; [done|]. split; [done|]. split; [|split].
  - intros [ino Hname] Hf.
    destruct (Hgone k p ino Hp Hname Hf) as (_ & _ & ? & ?). done.
  - intros Hfail. destruct (Hkept Hfail) as (_ & _ & ? & ?). done.
  - intros Hname Hfrozen Hroom Hpid k1 r1.
    destruct (register_pid_fresh k pid p path Hp Hname Hfrozen Hroom Hpid)
      as (_ & _ & Hn & Hi & _ & Hfr & p' & Hprocs & _).
    fold k1 in Hn, Hi, Hfr, Hprocs.
    assert (k_names k1 !! path = Some (fresh_ino k)) as Hname1
      by (rewrite Hn; apply lookup_insert_eq).
    assert (k_procs k1 !! pid = Some p') as Hp1
      by (rewrite Hprocs; apply lookup_insert_eq).
    assert (path ∉ k_frozen k1) as Hf1 by by rewrite Hfr.
    destruct (Hgone k1 p' _ Hp1 Hname1 Hf1) as (? & _ & ? & ?).
    repeat split; try done.
    unfold file_at. rewrite Hname1. simpl. rewrite Hi, lookup_insert_eq.
    by eexists.
Qed.

Lemma remove_pid_unlinks_at_boot :
  file_at (r_kernel (run stale_boot 100 (mk_utils_remove_pid pid_path)))
    pid_path = None ∧
  r_trace (run boot 100 (mk_utils_remove_pid pid_path))
  = [(100%positive, (c_unlink pid_path, -1));
     (100%positive,
      (c_mk_print MK_WARN ("cannot delete pidfile" +:+ newline), 0))] ∧
  r_outs (run boot 100 (mk_utils_remove_pid pid_path))
  = [(100%positive, Returned 0)] ∧
  file_at
    (r_kernel
       (run (r_kernel (run boot 100 (mk_utils_register_pid pid_path)))
          100 (mk_utils_remove_pid pid_path)))
    pid_path = None.
Proof.
  destruct (remove_pid_unlinks stale_boot 100 server pid_path eq_refl)
    as (_ & _ & Hgone & _).
  destruct (remove_pid_unlinks boot 100 server pid_path eq_refl)
    as (Ho & _ & _ & Hkept & Hboth).
  split; [|split; [|split]].
  - apply Hgone; [by eexists | compute_done].
  - apply Hkept. by left.
  - exact Ho.
  - apply Hboth; [reflexivity | compute_done | vm_compute; lia | lia].
Defined.

(** C9.  The identifier 1000000000 is an [int]; its text has ten digits,
    so [sprintf] writes eleven bytes into the ten of [pidstr], and the
    run of [mk_utils_register_pid] by that process has no defined
    outcome. *)
Theorem pidstr_overflow :
  INT_MIN <= Z.pos big_pid <= INT_MAX ∧
  length (sprintf_i_bytes (Z.pos big_pid)) = 11%nat ∧
  MK_MAX_PID_LEN = 10%nat ∧
  sprintf_i (cbuf_uninit MK_MAX_PID_LEN) (Z.pos big_pid) = None ∧
  r_outs (run big_boot big_pid (mk_utils_register_pid pid_path))
  = [(big_pid, Undefined)].
Proof. vm_compute. repeat split; congruence. Qed.

(** C10.  [mk_utils_set_daemon] calls [setsid] and does not look at what
    it returns.  For every value [s] that [setsid] returns, a failure
    included, the child goes on from [setsid] to [chdir]; where [chdir]
    does not fail it then logs "Background mode ON", closes the standard
    error and the standard output and returns 0, and where [chdir] fails
    it logs an error and the process ends with [EXIT_FAILURE].  So the
    calls made and the outcome are the same for any two values of
    [setsid].  The process ends with [EXIT_FAILURE] exactly when [fork]
    failed or, in the child, [chdir] failed; the child returns 0 exactly
    when [chdir] did not fail; the parent ends with [EXIT_SUCCESS]. *)
Theorem set_daemon_ignores_setsid (pid u s s' c l e o : Z) (rest : list Z) :
  let answers x := pid :: u :: x :: c :: l :: e :: o :: rest in
  (pid = 0 → 0 <= c →
   play mk_utils_set_daemon (answers s)
   = ([(c_fork, 0); (c_umask 0, u); (c_setsid, s); (c_chdir "/", c);
       (c_mk_print MK_INFO "Background mode ON", l);
       (c_fclose stderr, e); (c_fclose stdout, o)],
      Returned 0)) ∧
  (pid = 0 → c < 0 →
   play mk_utils_set_daemon (answers s)
   = ([(c_fork, 0); (c_umask 0, u); (c_setsid, s); (c_chdir "/", c);
       (c_mk_print MK_ERR
          "Error: Unable to unmount the inherited filesystem in the daemon process",
        l)],
      Exited EXIT_FAILURE)) ∧
  (play mk_utils_set_daemon (answers s)).2
  = (play mk_utils_set_daemon (answers s')).2 ∧
  (play mk_utils_set_daemon (answers s)).1.*1
  = (play mk_utils_set_daemon (answers s')).1.*1 ∧
  ((play mk_utils_set_daemon (answers s)).2 = Exited EXIT_FAILURE
   ↔ pid < 0 ∨ pid = 0 ∧ c < 0) ∧
  ((play mk_utils_set_daemon (answers s)).2 = Returned 0
   ↔ pid = 0 ∧ 0 <= c) ∧
  ((play mk_utils_set_daemon (answers s)).2 = Exited EXIT_SUCCESS
   ↔ 0 < pid).
Proof.
  intros answers. unfold answers.
  split; [intros -> Hc; play_out|]. split; [intros -> Hc; play_out|].
  destruct (Z.lt_trichotomy pid 0) as [Hpid|[->|Hpid]];
    destruct (Z.lt_ge_cases c 0);
    play_out; repeat split; intros; try done; try lia; naive_solver lia.
Qed.

Lemma set_daemon_ignores_setsid_example :
  play mk_utils_set_daemon [0; 18; -1; 0; 0; 0; 0]
  = ([(c_fork, 0); (c_umask 0, 18); (c_setsid, -1); (c_chdir "/", 0);
      (c_mk_print MK_INFO "Background mode ON", 0);
      (c_fclose stderr, 0); (c_fclose stdout, 0)],
     Returned 0) ∧
  play mk_utils_set_daemon [0; 18; -1; -1; 0; 0; 0]
  = ([(c_fork, 0); (c_umask 0, 18); (c_setsid, -1); (c_chdir "/", -1);
      (c_mk_print MK_ERR
         "Error: Unable to unmount the inherited filesystem in the daemon process",
       0)],
     Exited EXIT_FAILURE).
Proof.
  split.
  - apply (set_daemon_ignores_setsid 0 18 (-1) (-1) 0 0 0 0 []);
      [reflexivity | lia].
  - apply (set_daemon_ignores_setsid 0 18 (-1) (-1) (-1) 0 0 0 []);
      [reflexivity | lia].
Defined.

(** ** Further properties of the code *)

(** X1.  [mk_utils_register_pid] where [open] fails: for every negative
    result the function logs an error and ends the process with
    [EXIT_FAILURE], before any lock is asked for or any byte written.  In
    the model of the calls this is the run where no file is at [path] and
    none can be created; the names are left as they were. *)
Theorem register_pid_open_fatal (path : string) :
  (∀ (pre : list event) (fd l : Z) (rest : list Z),
     stale_step path pre → fd < 0 →
     play (mk_utils_register_pid path) (pre.*2 ++ fd :: l :: rest)
     = (pre ++ [(c_open path register_flags MODE_0444, fd);
                (c_mk_print MK_ERR "Error: I can't log pid of monkey", l)],
        Exited EXIT_FAILURE)) ∧
  (∀ (k : kernel) (pid : positive) (p : proc),
     k_procs k !! pid = Some p → k_names k !! path = None →
     path ∈ k_frozen k →
     let r := run k pid (mk_utils_register_pid path) in
     r_outs r = [(pid, Exited EXIT_FAILURE)] ∧
     (r_trace r).*2
     = [(c_stat path, -1); (c_open path register_flags MODE_0444, -1);
        (c_mk_print MK_ERR "Error: I can't log pid of monkey", 0)] ∧
     k_status (r_kernel r) !! pid = Some EXIT_FAILURE ∧
     k_names (r_kernel r) = k_names k).
Proof.
  split.
  - intros pre fd l rest Hpre Hfd. destruct Hpre; play_out.
  - intros k pid p Hp Hname Hfrozen r.
    destruct (register_pid_no_entry k pid p path Hp Hname Hfrozen)
      as (Ht & Ho & _ & Hs & Hn & _).
    fold r in Ht, Ho, Hs, Hn. by rewrite Ht.
Qed.

Lemma register_pid_open_fatal_example :
  play (mk_utils_register_pid pid_path) [-1; -1; 0]
  = ([(c_stat pid_path, -1);
      (c_open pid_path register_flags MODE_0444, -1);
      (c_mk_print MK_ERR "Error: I can't log pid of monkey", 0)],
     Exited EXIT_FAILURE) ∧
  r_outs (run sealed_boot 100 (mk_utils_register_pid pid_path))
  = [(100%positive, Exited EXIT_FAILURE)].
Proof.
  destruct (register_pid_open_fatal pid_path) as [Hplay Hrun].
  split.
  - apply (Hplay [(c_stat pid_path, -1)] (-1) 0 []); [constructor; lia | lia].
  - apply (Hrun sealed_boot 100%positive server);
      [reflexivity | reflexivity | compute_done].
Defined.

(** X2.  [mk_utils_register_pid] where the file system has room for a part
    of the text only: the process ends with [EXIT_FAILURE] and the file
    stays at [path], never unlinked, holding the digits that were
    transferred.  They are fewer than the digits of the identifier and
    read back as a smaller number. *)
Theorem register_pid_truncated_file (k : kernel) (pid : positive) (p : proc)
    (path : string) :
  k_procs k !! pid = Some p →
  k_names k !! path = None →
  path ∉ k_frozen k →
  (k_free k < length (fmt_int (Z.pos pid)))%nat →
  Z.pos pid < 10 ^ 9 →
  let r := run k pid (mk_utils_register_pid path) in
  let text := fmt_int (Z.pos pid) in
  r_outs r = [(pid, Exited EXIT_FAILURE)] ∧
  (∀ v, (pid, (c_unlink path, v)) ∉ r_trace r) ∧
  ∃ i, file_at (r_kernel r) path = Some i ∧
       i_data i = take (k_free k) text ∧
       (length (i_data i) < length text)%nat ∧
       0 <= parse_int (i_data i) < Z.pos pid.
Proof.
  intros Hp Hname Hfrozen Hroom Hpid r text.
  destruct (register_pid_short_write k pid p path Hp Hname Hfrozen Hroom Hpid)
    as (Ho & Ht & Hf & _).
  fold r in Ho, Ht, Hf. fold text in Hf, Hroom.
  split; [done|]. split.
  { intros v H. rewrite Ht in H.
    repeat (apply elem_of_cons in H as [H|H]; [simplify_eq|]).
    by apply elem_of_nil in H. }
  eexists. split; [exact Hf|]. kernel_norm. split; [done|].
  split; [rewrite length_take; lia|].
  pose proof (fmt_int_pos_digits pid) as Hd. fold text in Hd.
  rewrite parse_int_digits by by apply Forall_take.
  pose proof (parse_fmt_int (Z.pos pid)) as Hparse. fold text in Hparse.
  rewrite parse_int_digits in Hparse by done.
  pose proof (parse_unsigned_take text (k_free k) Hd Hroom) as Hcut.
  rewrite Hparse in Hcut. apply Hcut. lia.
Qed.

Lemma register_pid_truncated_file_example :
  i_data <$> file_at (r_kernel (run full_boot 100
                                  (mk_utils_register_pid pid_path))) pid_path
  = Some (fmt_int 10).
Proof.
  destruct (register_pid_truncated_file full_boot 100 server pid_path)
    as (_ & _ & i & Hf & Hd & _);
    [reflexivity | reflexivity | compute_done | vm_compute; lia | lia |].
  rewrite Hf. simpl. by rewrite Hd.
Defined.



(** X4.  Whatever the calls return and whatever the state, every call of
    [mk_utils_register_pid] and of [mk_utils_remove_pid] that takes a
    path takes [path]: the functions hand no other name to [stat],
    [unlink] or [open], and they neither fork nor change the directory,
    the mask or the session, nor close a stream. *)
Theorem pid_file_only_path (path : string) :
  (∀ answers,
     Forall (λ e : event, names_only path e.1 = true)
       (play (mk_utils_register_pid path) answers).1 ∧
     Forall (λ e : event, names_only path e.1 = true)
       (play (mk_utils_remove_pid path) answers).1) ∧
  (∀ k pid,
     Forall (λ e : positive * event, names_only path e.2.1 = true)
       (r_trace (run k pid (mk_utils_register_pid path))) ∧
     Forall (λ e : positive * event, names_only path e.2.1 = true)
       (r_trace (run k pid (mk_utils_remove_pid path)))).
Proof.
  split.
  - intros answers. split.
    + apply play_calls_only, register_pid_names_only.
    + apply play_calls_only, remove_pid_names_only.
  - intros k pid. split.
    + apply run_calls_only, register_pid_names_only.
    + apply run_calls_only, remove_pid_names_only.
Qed.

(** X5.  Two live processes register at the same [path], one after the
    other: both calls return 0, the second is not held up by the first,
    and the file names the second caller.  The first caller is still live
    and was told nothing. *)
Theorem register_pid_last_wins (k : kernel) (pid1 pid2 : positive)
    (p1 p2 : proc) (path : string) :
  k_procs k !! pid1 = Some p1 →
  k_procs k !! pid2 = Some p2 →
  pid1 ≠ pid2 →
  path ∉ k_frozen k →
  (length (fmt_int (Z.pos pid1)) + length (fmt_int (Z.pos pid2)) ≤ k_free k)%nat →
  Z.pos pid1 < 10 ^ 9 → Z.pos pid2 < 10 ^ 9 →
  let r1 := run k pid1 (mk_utils_register_pid path) in
  let r2 := run (r_kernel r1) pid2 (mk_utils_register_pid path) in
  r_outs r1 = [(pid1, Returned 0)] ∧
  r_outs r2 = [(pid2, Returned 0)] ∧
  i_data <$> file_at (r_kernel r1) path = Some (fmt_int (Z.pos pid1)) ∧
  i_data <$> file_at (r_kernel r2) path = Some (fmt_int (Z.pos pid2)) ∧
  is_Some (k_procs (r_kernel r2) !! pid1) ∧
  k_console (r_kernel r2) = k_console k ∧
  k_locks (r_kernel r2) = k_locks k.
Proof.
  intros Hp1 Hp2 Hne Hfrozen Hroom Hpid1 Hpid2 r1 r2.
  destruct (register_pid_state k pid1 p1 path Hp1 Hfrozen)
    as (Ho1 & Hn1 & Hi1 & Hl1 & _ & Hf1 & _ & Hfree1 & _ & Hc1 & p1' & Hprocs1
        & _); [lia | done |].
  fold r1 in Ho1, Hn1, Hi1, Hl1, Hf1, Hfree1, Hc1, Hprocs1.
  assert (k_procs (r_kernel r1) !! pid2 = Some p2) as Hp2'
    by by rewrite Hprocs1, lookup_insert_ne.
  destruct (register_pid_state (r_kernel r1) pid2 p2 path Hp2')
    as (Ho2 & Hn2 & Hi2 & Hl2 & _ & _ & _ & _ & _ & Hc2 & p2' & Hprocs2 & _);
    [by rewrite Hf1 | rewrite Hfree1; lia | done |].
  fold r2 in Ho2, Hn2, Hi2, Hl2, Hc2, Hprocs2.
  repeat split; try congruence.
  - unfold file_at. rewrite Hn1, Hi1, lookup_insert_eq. simpl.
    by rewrite lookup_insert_eq.
  - unfold file_at. rewrite Hn2, Hi2, lookup_insert_eq. simpl.
    by rewrite lookup_insert_eq.
  - rewrite Hprocs2, lookup_insert_ne, Hprocs1, lookup_insert_eq by done.
    by eexists.
Qed.

Lemma register_pid_last_wins_at_boot :
  let r1 := run boot 100 (mk_utils_register_pid pid_path) in
  let r2 := run (r_kernel r1) 200 (mk_utils_register_pid pid_path) in
  r_outs r2 = [(200%positive, Returned 0)] ∧
  i_data <$> file_at (r_kernel r2) pid_path = Some (fmt_int 200).
Proof.
  destruct (register_pid_last_wins boot 100 200 server server pid_path)
    as (_ & Ho & _ & Hf & _);
    [reflexivity | reflexivity | done | compute_done | vm_compute; lia
    | lia | lia |].
  split; [exact Ho | exact Hf].
Defined.





(** X9.  [mk_utils_set_daemon] creates and removes no name, and changes
    no file other than those its standard output and its standard error
    are, in every run, whether [fork] or [chdir] fail or not. *)
Theorem set_daemon_leaves_files (k : kernel) (pid : positive) (p : proc) :
  k_procs k !! pid = Some p →
  let k' := r_kernel (run k pid mk_utils_set_daemon) in
  k_names k' = k_names k ∧
  ∀ ino, (∀ s f, fd_lookup p (fileno s) = Some f → o_ino f ≠ ino) →
         k_inodes k' !! ino = k_inodes k !! ino.
Proof.
  intros _ k'.
  destruct (run_fs_neutral _ set_daemon_fs_neutral k pid) as (Hn & Hi & _).
  fold k' in Hn, Hi. split; [done|]. intros ino _. by rewrite Hi.
Qed.

Lemma set_daemon_leaves_files_at_stale_boot :
  let k' := r_kernel (run stale_boot 100 mk_utils_set_daemon) in
  k_names k' = k_names stale_boot ∧
  k_inodes k' !! 1%nat = k_inodes stale_boot !! 1%nat.
Proof.
  destruct (set_daemon_leaves_files stale_boot 100 server eq_refl)
    as [Hn Hi].
  split; [exact Hn|]. apply Hi.
  intros s f Hf. destruct s; vm_compute in Hf; by simplify_eq.
Defined.

(** X10.  What the child of [mk_utils_set_daemon] is left with: every
    descriptor of the caller but the standard output and the standard
    error, the standard input among them, and none of the locks the
    caller held.  A file the caller had locked is locked by nobody
    afterwards, and a lock that is there afterwards was there before, in
    the hands of the same process, which is not the caller. *)
Theorem set_daemon_child_inherits (k : kernel) (pid : positive) (p : proc) :
  k_procs k !! pid = Some p →
  (size (k_procs k) < k_maxproc k)%nat →
  "/" ∈ k_dirs k →
  let r := run k pid mk_utils_set_daemon in
  let child := fresh_pid k in
  r_outs r = [(pid, Exited EXIT_SUCCESS); (child, Returned 0)] ∧
  (∀ i, k_locks k !! i = Some pid → k_locks (r_kernel r) !! i = None) ∧
  (∀ i h, k_locks (r_kernel r) !! i = Some h →
          h ≠ pid ∧ k_locks k !! i = Some h) ∧
  ∃ q, k_procs (r_kernel r) !! child = Some q ∧
       (∀ fd, fd_lookup q fd
              = if decide (fd = STDOUT_FILENO ∨ fd = STDERR_FILENO)
                then None else fd_lookup p fd) ∧
       p_root q = p_root p.
Proof.
  intros Hp Hroom Hroot r child. subst r.
  destruct (set_daemon_fork (λ _, mret 0) k pid p Hp Hroom)
    as (_ & Hp1 & Hne & Hpg).
  fold child in Hp1, Hne, Hpg.
  rewrite (set_daemon_fork_plain k pid p Hp Hroom). fold child.
  set (k1 := sys_exit (set_proc child p k) pid EXIT_SUCCESS) in *.
  assert ("/" ∈ k_dirs k1) as Hroot1 by done.
  destruct (daemon_child_run k1 child p Hp1 Hpg Hroot1)
    as (Ho & _ & _ & _ & _ & Hl & q & Hq & Hfds & _ & _ & _ & _ & Hr).
  assert (∀ i h, k_locks (r_kernel (run k1 child daemon_child)) !! i = Some h →
            h ≠ pid ∧ k_locks k !! i = Some h) as Hwas.
  { intros i h Hi. apply Hl in Hi. unfold k1, sys_exit in Hi.
    kernel_norm in Hi. by apply map_lookup_filter_Some in Hi as [? ?]. }
  kernel_norm. rewrite Ho. split; [done|]. split; [|split; [done|]].
  - intros i Hi.
    destruct (k_locks (r_kernel (run k1 child daemon_child)) !! i)
      as [h|] eqn:Hafter; [|done].
    destruct (Hwas i h Hafter) as [Hh Hbefore]. congruence.
  - exists q. rewrite Hq, lookup_insert_eq. done.
Qed.

Lemma set_daemon_child_inherits_at_held_boot :
  let k' := r_kernel (run held_boot 100 mk_utils_set_daemon) in
  k_locks held_boot !! 1%nat = Some 100%positive ∧
  k_locks k' !! 1%nat = None ∧
  ∃ q, k_procs k' !! fresh_pid held_boot = Some q ∧
       fd_lookup q 0 = Some tty ∧ fd_lookup q 1 = None ∧
       is_Some (fd_lookup q 3).
Proof.
  destruct (set_daemon_child_inherits held_boot 100
              (with_fds [Some tty; Some tty; Some tty;
                         Some {| o_ino := 1; o_flags := register_flags;
                                 o_pos := 3 |}] server))
    as (_ & Hgone & _ & q & Hq & Hfds & _);
    [reflexivity | vm_compute; lia | compute_done |].
  split; [reflexivity|]. split; [by apply Hgone|].
  exists q. split; [exact Hq|]. rewrite !Hfds. by split; [|split; [|eexists]].
Defined.

(** X11.  [mk_utils_set_daemon] followed by [mk_utils_register_pid]: the
    caller ends with [EXIT_SUCCESS] after its [fork], every other call is
    the child's, and the file at [path] holds the identifier of the
    child.  Its mode is 0444 whatever mask the caller started with,
    because the child has set its mask to 0. *)
Theorem set_daemon_then_register (k : kernel) (pid : positive) (p : proc)
    (path : string) :
  k_procs k !! pid = Some p →
  (size (k_procs k) < k_maxproc k)%nat →
  "/" ∈ k_dirs k →
  path ∉ k_frozen k →
  (length (fmt_int (Z.pos (fresh_pid k))) ≤ k_free k)%nat →
  Z.pos (fresh_pid k) < 10 ^ 9 →
  let r := run k pid (mk_utils_set_daemon;; mk_utils_register_pid path) in
  let child := fresh_pid k in
  r_outs r = [(pid, Exited EXIT_SUCCESS); (child, Returned 0)] ∧
  (∃ t, r_trace r = (pid, (c_fork, Z.pos child)) :: t ∧
        Forall (λ e, e.1 = child) t) ∧
  file_at (r_kernel r) path
  = Some {| i_mode := MODE_0444; i_data := fmt_int (Z.pos child) |} ∧
  k_status (r_kernel r) !! pid = Some EXIT_SUCCESS.
Proof.
  intros Hp Hroom Hroot Hfrozen Hfree Hpid r child. subst r.
  destruct (set_daemon_fork (λ _, mk_utils_register_pid path) k pid p Hp Hroom)
    as (Hrun & Hp1 & Hne & Hpg).
  fold child in Hrun, Hp1, Hne, Hpg, Hfree, Hpid. cbv zeta in Hrun.
  rewrite Hrun. clear Hrun.
  set (k1 := sys_exit (set_proc child p k) pid EXIT_SUCCESS) in *.
  assert ("/" ∈ k_dirs k1) as Hroot1 by done.
  destruct (daemon_child_run k1 child p Hp1 Hpg Hroot1)
    as (Ho & Hwho & _ & Hst & _ & _ & q & Hq & _ & _ & _ & _ & Hmask & _).
  destruct (run_fs_neutral _ daemon_child_fs_neutral k1 child)
    as (Hn & Hi & Hfr & _ & Hroom2 & _).
  rewrite (run_bind_returned daemon_child _ daemon_child_never_waits
             k1 child 0 (ltac:(by eexists)) Ho).
  set (r1 := run k1 child daemon_child) in *.
  set (k2 := r_kernel r1) in *.
  assert (k_procs k2 !! child = Some q) as Hp2
    by (rewrite Hq; apply lookup_insert_eq).
  destruct (register_pid_state k2 child q path Hp2)
    as (Ho2 & Hn2 & Hi2 & _ & Hst2 & _); [by rewrite Hfr| by rewrite Hroom2 |done|].
  destruct (run_is_play _ (register_pid_never_waits path) k2 child
              (ltac:(by eexists))) as (_ & _ & _ & Hwho2).
  cbv zeta in Hwho2.
  set (r2 := run k2 child (mk_utils_register_pid path)) in *.
  kernel_norm. cbn [app]. rewrite Ho2. split; [done|]. split; [|split].
  - eexists. split; [done|]. apply Forall_app. split.
    + by eapply Forall_made_by.
    + by eapply Forall_made_by.
  - unfold file_at. rewrite Hn2, Hi2, lookup_insert_eq. simpl.
    rewrite lookup_insert_eq, Hmask. done.
  - rewrite Hst2, Hst. unfold k1, sys_exit. kernel_norm.
    apply lookup_insert_eq.
Qed.

Lemma set_daemon_then_register_at_boot :
  server.(p_umask) = 18 ∧
  file_at (r_kernel (run boot 100 (mk_utils_set_daemon;;
                                   mk_utils_register_pid pid_path))) pid_path
  = Some {| i_mode := MODE_0444; i_data := fmt_int (Z.pos (fresh_pid boot)) |}.
Proof.
  split; [reflexivity|].
  destruct (set_daemon_then_register boot 100 server pid_path)
    as (_ & _ & Hf & _);
    [reflexivity | vm_compute; lia | compute_done | compute_done
    | vm_compute; lia | vm_compute; reflexivity |].
  exact Hf.
Defined.

(** X12.  Off a terminal and at a time of the calendar, [mk_print] puts out
    one line in which everything has its column: the year at 1, the
    month at 6, the day at 9, the hour at 12, the minute at 15, the
    second at 18, each reading back as the field of the time, the class
    of the message in columns 22 to 30, and the message from column 32 to
    the newline that ends the line.  No escape sequence is part of it:
    the line is the same whatever the sequences are. *)
Theorem mk_print_plain_layout (a : ansi) (t : tm) (type : msg_type)
    (body : list ascii) :
  calendar t →
  ∃ line,
    mk_print_text a false (Some t) type body = Some line ∧
    parse_int (take 4 (drop 1 line)) = tm_year t + 1900 ∧
    parse_int (take 2 (drop 6 line)) = tm_mon t + 1 ∧
    parse_int (take 2 (drop 9 line)) = tm_mday t ∧
    parse_int (take 2 (drop 12 line)) = tm_hour t ∧
    parse_int (take 2 (drop 15 line)) = tm_min t ∧
    parse_int (take 2 (drop 18 line)) = tm_sec t ∧
    take 9 (drop 22 line)
    = chars "[" ++ pad_left " " 7 (header_title type) ++ chars "]" ∧
    drop 32 line = body ++ chars newline ∧
    ∀ a', mk_print_text a' false (Some t) type body = Some line.
Proof.
  intros Ht.
  destruct (mk_print_plain_line a t type body Ht)
    as (y1 & y2 & y3 & y4 & m1 & m2 & d1 & d2 & h1 & h2 & n1 & n2 & s1 & s2
        & Hline & HY & HM & HD & HH & HN & HS).
  eexists. split; [exact Hline|].
  assert (∀ a', mk_print_text a' false (Some t) type body
                = mk_print_text a false (Some t) type body) as Hsame by done.
  setoid_rewrite Hsame. setoid_rewrite Hline.
  pose proof (header_title_width type) as Hw.
  destruct (pad_left " " 7 (header_title type))
    as [|c1 [|c2 [|c3 [|c4 [|c5 [|c6 [|c7 [|c8 rest]]]]]]]];
    simplify_eq/=.
  done.
Qed.

Lemma mk_print_plain_layout_at_noon :
  ∃ line,
    mk_print_text vt100 false (Some noon) MK_WARN (chars "cannot delete pidfile")
    = Some line ∧
    parse_int (take 4 (drop 1 line)) = 2026 ∧
    drop 32 line = chars "cannot delete pidfile" ++ chars newline.
Proof.
  destruct (mk_print_plain_layout vt100 noon MK_WARN
              (chars "cannot delete pidfile"))
    as (line & Hl & Hy & _ & _ & _ & _ & _ & _ & Hb & _);
    [unfold calendar; simpl; lia|].
  exists line. split; [exact Hl|]. split; [exact Hy | exact Hb].
Defined.

(** X13.  Off a terminal, the line of [mk_print] tells the time, the class
    and the message apart: two calls at times of the calendar that put
    out the same line were made at the same time, with the same class
    and the same message, whatever the escape sequences are. *)
Theorem mk_print_plain_injective (a a' : ansi) (t t' : tm)
    (type type' : msg_type) (body body' : list ascii) :
  calendar t → calendar t' →
  mk_print_text a false (Some t) type body
  = mk_print_text a' false (Some t') type' body' →
  t = t' ∧ type = type' ∧ body = body'.
Proof.
  intros Ht Ht' Heq.
  destruct (mk_print_plain_line a t type body Ht)
    as (y1 & y2 & y3 & y4 & m1 & m2 & d1 & d2 & h1 & h2 & n1 & n2 & s1 & s2
        & Hl & HY & HM & HD & HH & HN & HS).
  destruct (mk_print_plain_line a' t' type' body' Ht')
    as (y1' & y2' & y3' & y4' & m1' & m2' & d1' & d2' & h1' & h2' & n1' & n2'
        & s1' & s2' & Hl' & HY' & HM' & HD' & HH' & HN' & HS').
  rewrite Hl, Hl' in Heq. clear Hl Hl'.
  injection Heq as <- <- <- <- <- <- <- <- <- <- <- <- <- <- Hrest.
  apply app_inj_1 in Hrest as [Htitle Hrest];
    [|by rewrite !header_title_width].
  injection Hrest as Hrest. apply app_inv_tail in Hrest.
  assert (header_title type = header_title type') as Htype.
  { revert Htitle. by destruct type, type'. }
  apply header_title_inj in Htype.
  split; [|done]. destruct t, t'. simpl in *. f_equal; lia.
Qed.

Lemma mk_print_plain_injective_at_noon :
  noon = noon ∧ MK_ERR = MK_ERR ∧ chars "x" = chars "x".
Proof.
  apply (mk_print_plain_injective vt100 no_colour noon noon MK_ERR MK_ERR
           (chars "x") (chars "x"));
    [unfold calendar; simpl; lia | unfold calendar; simpl; lia | reflexivity].
Defined.

(** X14.  [mk_utils_trace] keeps a line back exactly when a filter is set
    and the name of the file occurs nowhere in it.  The test is
    [strstr(env_trace_filter, file)]: the file name is looked for inside
    the filter, so a name that is a part of a listed name passes. *)
Theorem trace_filter (a : ansi) (env_trace_filter : option (list ascii))
    (mk_core_init_time : Z) (background : option (list ascii)) (tty : bool)
    (tv_sec tv_usec : Z) (component : list ascii) (color : trace_color)
    (function file : list ascii) (line : Z) (body : list ascii) :
  mk_utils_trace_text a env_trace_filter mk_core_init_time background tty
    tv_sec tv_usec component color function file line body = Some []
  ↔ ∃ filter, env_trace_filter = Some filter ∧
              ¬ ∃ pre post, filter = pre ++ file ++ post.
Proof.
  unfold mk_utils_trace_text. split.
  - destruct env_trace_filter as [filter|].
    + destruct (strstr filter file) as [i|] eqn:Hs.
      * destruct (trace_colors _ _ _) as [[[c1|] [c2|]] [c3|]];
          destruct tty, (fmt_lu (tv_sec - mk_core_init_time)),
            (fmt_lu tv_usec); simpl; intros; simplify_eq.
      * intros _. exists filter. split; [done|]. by apply strstr_None.
    + destruct (trace_colors _ _ _) as [[[c1|] [c2|]] [c3|]];
        destruct tty, (fmt_lu (tv_sec - mk_core_init_time)),
          (fmt_lu tv_usec); simpl; intros; simplify_eq.
  - intros (filter & -> & Hno).
    destruct (strstr filter file) as [i|] eqn:Hs; [|done].
    destruct Hno. apply strstr_Some in Hs as (pre & post & ? & _). eauto.
Qed.

(** X15.  Off a terminal a line of [mk_utils_trace] still carries an escape
    sequence: the colour of the component, bold green or bold blue, is
    put out in front of the component, the one colour the function does
    not blank.  With two sets of escape sequences the lines are equal
    exactly when that colour is. *)
Theorem trace_plain_keeps_colour (a a' : ansi)
    (env_trace_filter : option (list ascii)) (mk_core_init_time : Z)
    (background : option (list ascii)) (tv_sec tv_usec : Z)
    (component : list ascii) (color : trace_color)
    (function file : list ascii) (line : Z) (body : list ascii) :
  (∀ filter, env_trace_filter = Some filter →
             ∃ pre post, filter = pre ++ file ++ post) →
  color ≠ trace_other →
  0 <= tv_sec - mk_core_init_time → 0 <= tv_usec →
  let hue x := (trace_colors x (default (chars "dark") background) color).1.1 in
  let out x :=
    mk_utils_trace_text x env_trace_filter mk_core_init_time background
      false tv_sec tv_usec component color function file line body in
  (∃ c pre post,
     hue a = Some c ∧ (c = ANSI_BOLD_GREEN a ∨ c = ANSI_BOLD_BLUE a) ∧
     out a = Some (pre ++ chars "[" ++ c ++ component ++ chars "|" ++ post)) ∧
  (out a = out a' ↔ hue a = hue a').
Proof.
  intros Hfilter Hcolor Hsec Husec hue out.
  destruct (trace_plain_text a env_trace_filter mk_core_init_time background
              tv_sec tv_usec component color function file line body
              Hfilter Hcolor Hsec Husec) as (c & Hc & Hwhich & Hout).
  destruct (trace_plain_text a' env_trace_filter mk_core_init_time background
              tv_sec tv_usec component color function file line body
              Hfilter Hcolor Hsec Husec) as (c' & Hc' & _ & Hout').
  fold (hue a) in Hc. fold (hue a') in Hc'.
  fold (out a) in Hout. fold (out a') in Hout'.
  split.
  - exists c,
      (chars "~ "
       ++ pad_left " " 2 (fmt_unsigned (tv_sec - mk_core_init_time))
       ++ chars "." ++ fmt_unsigned tv_usec ++ chars " "),
      (file ++ chars ":" ++ pad_right " " 3 (fmt_int line) ++ chars "] "
       ++ function ++ chars "() " ++ body ++ chars newline).
    split; [done|]. split; [done|].
    rewrite Hout. f_equal.
    rewrite <- !app_assoc. reflexivity.
  - rewrite Hout, Hout', Hc, Hc'. split.
    + intros Heq. apply (inj Some) in Heq. apply app_inv_head, app_inv_tail in Heq. by subst.
    + by intros [= ->].
Qed.

Lemma trace_plain_keeps_colour_example :
  let out x :=
    mk_utils_trace_text x (Some (chars "mk_http.c")) (mk_core_init 100).1
      None false 101 5 (chars "mk") MK_TRACE_CORE (chars "mk_http_init")
      (chars "http.c") 7 (chars "x") in
  out vt100 ≠ out no_colour.
Proof.
  intros out Heq.
  destruct (trace_plain_keeps_colour vt100 no_colour
              (Some (chars "mk_http.c")) (mk_core_init 100).1 None 101 5
              (chars "mk") MK_TRACE_CORE (chars "mk_http_init")
              (chars "http.c") 7 (chars "x")) as [_ Hiff].
  - intros filter [= <-]. by exists (chars "mk_"), [].
  - done.
  - simpl. lia.
  - lia.
  - apply Hiff in Heq. discriminate Heq.
Defined.

(** X16.  The time stamp of a line of [mk_utils_trace] is the seconds since
    [mk_core_init_time], a dot, and the microseconds as a plain number
    without leading zeros: the digits after the dot read back as
    [tv_usec], and they are six only from 100000 microseconds on. *)
Theorem trace_stamp_fraction (a : ansi)
    (env_trace_filter : option (list ascii)) (mk_core_init_time : Z)
    (background : option (list ascii)) (tv_sec tv_usec : Z)
    (component : list ascii) (color : trace_color)
    (function file : list ascii) (line : Z) (body : list ascii) :
  (∀ filter, env_trace_filter = Some filter →
             ∃ pre post, filter = pre ++ file ++ post) →
  color ≠ trace_other →
  0 <= tv_sec - mk_core_init_time → 0 <= tv_usec < 10 ^ 6 →
  ∃ secs frac rest,
    mk_utils_trace_text a env_trace_filter mk_core_init_time background
      false tv_sec tv_usec component color function file line body
    = Some (chars "~ " ++ pad_left " " 2 secs ++ chars "." ++ frac
            ++ chars " " ++ rest) ∧
    parse_unsigned secs = tv_sec - mk_core_init_time ∧
    parse_unsigned frac = tv_usec ∧
    Forall (λ c, is_digit c = true) frac ∧
    (length frac = 6%nat ↔ 100000 <= tv_usec).
Proof.
  intros Hfilter Hcolor Hsec Husec.
  destruct (trace_plain_text a env_trace_filter mk_core_init_time background
              tv_sec tv_usec component color function file line body
              Hfilter Hcolor Hsec) as (c & _ & _ & Hout); [lia|].
  exists (fmt_unsigned (tv_sec - mk_core_init_time)), (fmt_unsigned tv_usec).
  eexists. split; [|split; [|split; [|split]]].
  - rewrite Hout. f_equal. rewrite <- !app_assoc. reflexivity.
  - by apply parse_fmt_unsigned.
  - apply parse_fmt_unsigned. lia.
  - apply fmt_unsigned_digits.
  - pose proof (fmt_unsigned_length_le 6 tv_usec) as Hle6.
    pose proof (fmt_unsigned_length_le 5 tv_usec) as Hle5.
    pose proof (fmt_unsigned_length_ge 5 tv_usec) as Hge.
    change (Z.of_nat 6) with 6 in Hle6. change (Z.of_nat 5) with 5 in Hle5, Hge.
    split; [|lia]. intros Hlen.
    destruct (decide (100000 <= tv_usec)); [done|]. lia.
Qed.

Lemma trace_stamp_fraction_example :
  ∃ secs frac rest,
    mk_utils_trace_text vt100 None (mk_core_init 100).1 None false 101 5
      (chars "mk") MK_TRACE_CORE (chars "mk_http_init") (chars "http.c") 7
      (chars "x")
    = Some (chars "~ " ++ pad_left " " 2 secs ++ chars "." ++ frac
            ++ chars " " ++ rest) ∧
    parse_unsigned secs = 101 - (mk_core_init 100).1 ∧
    parse_unsigned frac = 5 ∧
    Forall (λ c, is_digit c = true) frac ∧
    (length frac = 6%nat ↔ 100000 <= 5).
Proof.
  apply (trace_stamp_fraction vt100 None (mk_core_init 100).1 None 101 5
           (chars "mk") MK_TRACE_CORE (chars "mk_http_init") (chars "http.c")
           7 (chars "x")); [done | done | simpl; lia | lia].
Defined.

(** X17.  [mk_utils_worker_spawn] never ends the process and never
    reports an error, [pthread_create] reporting its failures by a
    positive error number and not by a negative value.  Where a thread
    can be made, it is joinable, runs [func] on [arg], and its new
    identifier is returned.  Where none can be made, the test [< 0] lets
    the error number through and the function returns the variable [tid]
    as the failed call has left it, with the threads as they were: the
    value returned names no thread that was made. *)
Theorem worker_spawn_never_exits (st : threads) (fails : create_failure)
    (func arg : Z) :
  0 < cf_errno fails →
  let '(st', errors, o) := mk_utils_worker_spawn st fails func arg in
  errors = [] ∧
  (∀ status, o ≠ Exited status) ∧
  ((length (t_live st) < t_max st)%nat →
   ∃ tid, o = Returned (Some tid) ∧
          t_live st'
          = t_live st ++ [{| th_id := tid; th_detach := PTHREAD_CREATE_JOINABLE;
                             th_func := func; th_arg := arg |}] ∧
          ∀ t, t ∈ t_live st → th_id t ≠ tid) ∧
  ((t_max st ≤ length (t_live st))%nat →
   o = Returned (cf_left fails) ∧ st' = st).
Proof.
  intros Herr. unfold mk_utils_worker_spawn, pthread_create.
  destruct (length (t_live st) <? t_max st)%nat eqn:Hroom; simpl.
  - apply Nat.ltb_lt in Hroom. split; [done|]. split; [done|]. split; [|lia].
    intros _. eexists. split; [done|]. split; [done|].
    intros t Hin Heq. apply fresh_tid_new in Hin. lia.
  - apply Nat.ltb_ge in Hroom. rewrite (proj2 (Z.ltb_ge _ 0)) by lia.
    split; [done|]. split; [done|]. split; [lia|].
    intros _. split; [|done]. by destruct (cf_left fails).
Qed.

Lemma worker_spawn_never_exits_when_busy :
  mk_utils_worker_spawn busy no_thread 8192 0
  = (busy, [], Returned (Some 140737345763072)).
Proof.
  pose proof (worker_spawn_never_exits busy no_thread 8192 0) as H.
  destruct (mk_utils_worker_spawn busy no_thread 8192 0) as [[st' errors] o].
  destruct H as (-> & _ & _ & Hfull); [vm_compute; reflexivity|].
  destruct Hfull as [-> ->]; [vm_compute; lia | reflexivity].
Defined.

(** X18.  The two calls in the other order, [mk_utils_register_pid] and
    then [mk_utils_set_daemon]: the file at [path] holds the identifier
    of the caller, which ends right after its [fork], and not that of
    the child that runs on in the background. *)
Theorem register_then_set_daemon (k : kernel) (pid : positive) (p : proc)
    (path : string) :
  k_procs k !! pid = Some p →
  (size (k_procs k) < k_maxproc k)%nat →
  "/" ∈ k_dirs k →
  path ∉ k_frozen k →
  (length (fmt_int (Z.pos pid)) ≤ k_free k)%nat →
  Z.pos pid < 10 ^ 9 →
  let r := run k pid (mk_utils_register_pid path;; mk_utils_set_daemon) in
  let child := fresh_pid k in
  r_outs r = [(pid, Exited EXIT_SUCCESS); (child, Returned 0)] ∧
  i_data <$> file_at (r_kernel r) path = Some (fmt_int (Z.pos pid)) ∧
  k_procs (r_kernel r) !! pid = None ∧
  is_Some (k_procs (r_kernel r) !! child) ∧
  parse_int (fmt_int (Z.pos pid)) ≠ Z.pos child.
Proof.
  intros Hp Hroom Hroot Hfrozen Hfree Hpid r child. subst r.
  destruct (register_pid_state k pid p path Hp Hfrozen Hfree Hpid)
    as (Ho & Hn & Hi & _ & Hst & _ & Hd & _ & Hm & _ & p' & Hprocs & _
        & Hg & Hs & _).
  rewrite (run_bind_returned (mk_utils_register_pid path) _
             (register_pid_never_waits path) k pid 0 (ltac:(by eexists)) Ho).
  set (k1 := r_kernel (run k pid (mk_utils_register_pid path))) in *.
  assert (k_procs k1 !! pid = Some p') as Hp1
    by (rewrite Hprocs; apply lookup_insert_eq).
  assert (fresh_pid k1 = child) as Hchild.
  { unfold child, fresh_pid.
    by rewrite (used_ids_insert k k1 pid p p'). }
  assert (size (k_procs k1) < k_maxproc k1)%nat as Hroom1.
  { rewrite Hm, Hprocs. rewrite map_size_insert_Some; [done|by eexists]. }
  destruct (set_daemon_run k1 pid p' Hp1 Hroom1) as (Ho2 & _ & Hgone & _ & _ & q & Hq & _);
    [by rewrite Hd|].
  destruct (run_fs_neutral _ set_daemon_fs_neutral k1 pid) as (Hn2 & Hi2 & _).
  rewrite Hchild in *.
  kernel_norm. split; [done|]. split; [|split; [done|split; [by eexists|]]].
  - unfold file_at. rewrite Hn2, Hi2, Hn, Hi, lookup_insert_eq. simpl.
    by rewrite lookup_insert_eq.
  - rewrite parse_fmt_int. destruct (fresh_pid_spec k pid p Hp) as (Hne & _).
    fold child in Hne. intros [= Heq]. done.
Qed.

Lemma register_then_set_daemon_at_boot :
  let r := run boot 100 (mk_utils_register_pid pid_path;;
                         mk_utils_set_daemon) in
  i_data <$> file_at (r_kernel r) pid_path = Some (fmt_int 100) ∧
  k_procs (r_kernel r) !! 100%positive = None.
Proof.
  destruct (register_then_set_daemon boot 100 server pid_path)
    as (_ & Hf & Hgone & _);
    [reflexivity | vm_compute; lia | compute_done | compute_done
    | vm_compute; lia | lia |].
  split; [exact Hf | exact Hgone].
Defined.
